(** * StarLabs-Monad: the CrystalSwap executors and their session drivers

    The repository holds two implementations of the same bot:

    - [Instance]: [src/model/crystal_swap/instance.py] (with its
      [constants.py]): one [swap] routine for both directions, a balance
      re-check, a quote with slippage, a retry loop.
    - [Crystal]: [src/model/crystal/crystal_swap.py]: two routines,
      [swap_mon_to_usdc] and [swap_usdc_to_mon], no quote.

    Both are written here as programs of one small monad: a computation
    reads a clock, asks the chain client (an oracle indexed by the clock, so
    that any adaptive behaviour of the node is covered), may raise a Python
    exception, and leaves the list of calls it issued.

    Python floats are modelled by exact rationals ([Q]); rounding of the
    binary64 operations is not modelled. Calls of the logger leave no trace
    and are left out. *)

From Stdlib Require Import ZArith QArith List String Ascii Bool Lia Lqa.
Import ListNotations.

Local Open Scope string_scope.
Local Open Scope Z_scope.

(** ** Python values *)

Module Py.

(** Exceptions, by the class that is raised. Every one of them is an
    instance of Python's [Exception], so [except Exception] catches all. *)
Inductive exn : Type :=
| ValueError (msg : string)
| KeyError (key : string)
| IndexError (msg : string)
| TypeError (msg : string)
| Web3Exception (msg : string).

Inductive res (A : Type) : Type :=
| Ok (a : A)
| Raise (e : exn).
Arguments Ok {A} a.
Arguments Raise {A} e.

(** [x < y] and [x <= y] on floats. *)
Definition float_lt (x y : Q) : bool := (Qnum x * QDen y <? Qnum y * QDen x)%Z.
Definition float_le (x y : Q) : bool := (Qnum x * QDen y <=? Qnum y * QDen x)%Z.

(** [int(x)]: truncation towards zero. *)
Definition int (x : Q) : Z := Z.quot (Qnum x) (QDen x).

(** [float(n)] of an integer. *)
Definition float (n : Z) : Q := inject_Z n.

(** [d[k]] on a dictionary kept as an association list. *)
Fixpoint dict_get {V : Type} (d : list (string * V)) (k : string) : res V :=
  match d with
  | [] => Raise (KeyError k)
  | (k', v) :: d' => if String.eqb k k' then Ok v else dict_get d' k
  end.

(** [d[k] = v]: the value is replaced in place when the key is there,
    appended otherwise. *)
Fixpoint dict_set {V : Type} (d : list (string * V)) (k : string) (v : V)
  : list (string * V) :=
  match d with
  | [] => [(k, v)]
  | (k', v') :: d' =>
      if String.eqb k k' then (k', v) :: d' else (k', v') :: dict_set d' k v
  end.

(** [xs[-1]]. *)
Definition last_item (xs : list Z) : res Z :=
  match rev xs with
  | [] => Raise (IndexError "list index out of range")
  | x :: _ => Ok x
  end.

End Py.
Export Py.

(** ** Chain data *)

Definition address := string.

(** A token descriptor of [AVAILABLE_TOKENS]. *)
Record Token : Type := mkToken {
  name : string;
  token_address : option address;
  decimals : Z;
  native : bool
}.

(** The call a transaction carries, before ABI encoding. *)
Inductive CallData : Type :=
| swapExactETHForTokens
    (amountOutMin : Z) (path : list (option address)) (to : address) (deadline : Z)
| swapExactTokensForETH
    (amountIn amountOutMin : Z) (path : list (option address)) (to : address)
    (deadline : Z)
| approve (spender : address) (amount : Z).

(** The transaction dictionary. Keys that a routine adds later
    ([gas], the fee fields) or leaves out ([value]) are optional. *)
Record Transaction : Type := mkTx {
  tx_from : address;
  tx_to : option address;
  tx_value : option Z;
  tx_data : CallData;
  tx_chainId : Z;
  tx_type : Z;
  tx_nonce : Z;
  tx_gas : option Z;
  tx_maxFeePerGas : option Z;
  tx_maxPriorityFeePerGas : option Z
}.

(** A transaction hash: 32 bytes, kept as the number they spell. *)
Definition Hash := Z.

Record Receipt : Type := mkReceipt {
  status : Z;
  gasUsed : Z
}.

Definition MAX_UINT256 : Z := 2 ^ 256 - 1.

(** [hex_digits n z]: the [n] lowest hexadecimal digits of [z]. *)
Definition hex_digit (z : Z) : ascii :=
  match String.get (Z.to_nat (z mod 16)) "0123456789abcdef" with
  | Some c => c
  | None => "0"%char
  end.

Fixpoint hex_digits (n : nat) (z : Z) : string :=
  match n with
  | O => EmptyString
  | S n' => hex_digits n' (z / 16) ++ String (hex_digit z) EmptyString
  end.

(** [HexBytes.hex()] of a transaction hash: its 64 hexadecimal digits. *)
Definition hash_hex (h : Hash) : string := hex_digits 64 h.

(** [Web3.to_hex(tx_hash)]. *)
Definition to_hex (h : Hash) : string := "0x" ++ hash_hex h.

(** [Web3.from_wei(n, "ether")] followed by [float(...)]. *)
Definition from_wei_ether (n : Z) : Q := (float n / float (10 ^ 18))%Q.

(** [Web3.to_wei(x, "ether")]: the library refuses a result outside
    [0, 2^256 - 1] with a [ValueError]. *)
Definition to_wei_ether (x : Q) : res Z :=
  let n := int (x * float (10 ^ 18))%Q in
  if (n <? 0) || (MAX_UINT256 <? n)
  then Raise (ValueError "Resulting wei value must be between 1 and 2**256 - 1")
  else Ok n.

(** ** What a run leaves behind *)

Inductive Event : Type :=
| EvAttempt (retry : nat)
    (** ghost: one execution of the body of a swap retry loop starts *)
| EvGetBalance (wallet : address)
| EvBalanceOf (wallet : address)
| EvAllowance (owner spender : address)
| EvGetAmountsOut (amount_in : Z) (path : list (option address)) (out : res (list Z))
| EvGetBlock
| EvMaxPriorityFee
| EvGetTransactionCount (wallet : address)
| EvEstimateGas (tx : Transaction)
| EvSendRawTransaction (tx : Transaction)
| EvWaitForReceipt (tx : Transaction) (tx_hash : Hash) (out : res Receipt)
    (** [tx] is the transaction whose broadcast returned [tx_hash] *)
| EvSleep (seconds : Z).

(** ** The chain client and the libraries behind it

    Nothing of [web3], [eth_account], [random] or [time] is in the
    repository: their answers are parameters. A network call answers by the
    clock (and its arguments), a local library call by its arguments alone. *)
Record Web3 : Type := mkWeb3 {
  to_checksum_address : address -> res address;
  contract : option address -> res address;
  encode_rejects : CallData -> option exn;
  sign_rejects : Transaction -> string -> option exn;
  eth_get_balance : nat -> res Z;
  usdc_balanceOf : nat -> res Z;
  token_allowance : nat -> res Z;
  router_getAmountsOut : nat -> Z -> list (option address) -> res (list Z);
  eth_get_block_baseFeePerGas : nat -> res Z;
  eth_max_priority_fee : nat -> res Z;
  eth_get_transaction_count : nat -> res Z;
  eth_estimate_gas : nat -> Transaction -> res Z;
  eth_send_raw_transaction : nat -> Transaction -> res Hash;
  eth_wait_for_transaction_receipt : nat -> Hash -> res Receipt;
  random_bits : nat -> Z;
  time_time : nat -> Z
}.

(** [_encode_transaction_data()] and [sign_transaction(tx, key)] may refuse
    their argument. What they produce otherwise determines the call and the
    transaction it was made from, which stand for it here. *)
Definition encode_transaction_data (w3 : Web3) (call : CallData) : res CallData :=
  match encode_rejects w3 call with
  | Some e => Raise e
  | None => Ok call
  end.

Definition sign_transaction (w3 : Web3) (tx : Transaction) (key : string)
  : res Transaction :=
  match sign_rejects w3 tx key with
  | Some e => Raise e
  | None => Ok tx
  end.

(** ** The monad *)

Record Run (A : Type) : Type := mkRun {
  result : res A;
  events : list Event;
  now : nat
}.
Arguments mkRun {A} result events now.
Arguments result {A} r.
Arguments events {A} r.
Arguments now {A} r.

Definition M (A : Type) : Type := nat -> Run A.

Definition ret {A : Type} (a : A) : M A := fun t => mkRun (Ok a) [] t.

Definition raise {A : Type} (e : exn) : M A := fun t => mkRun (Raise e) [] t.

Definition bind {A B : Type} (m : M A) (f : A -> M B) : M B := fun t =>
  let r := m t in
  match result r with
  | Ok a =>
      let r' := f a (now r) in
      mkRun (result r') (events r ++ events r') (now r')
  | Raise e => mkRun (Raise e) (events r) (now r)
  end.

(** [try: m except Exception as e: ...], with the outcome of the [try]
    block handed to the code that follows. *)
Definition try_catch {A : Type} (m : M A) : M (res A) := fun t =>
  let r := m t in
  mkRun (Ok (result r)) (events r) (now r).

(** A library call that does not reach the network. *)
Definition lift {A : Type} (r : res A) : M A := fun t => mkRun r [] t.

(** [await] of a network call. *)
Definition await {A : Type} (ev : Event) (answer : nat -> res A) : M A := fun t =>
  mkRun (answer t) [ev] (S t).

(** [await] of a network call whose answer is kept in the trace. *)
Definition await_logged {A : Type} (ev : res A -> Event) (answer : nat -> res A)
  : M A := fun t => let a := answer t in mkRun a [ev a] (S t).

(** [await asyncio.sleep(seconds)]. *)
Definition sleep (seconds : Z) : M unit := fun t => mkRun (Ok tt) [EvSleep seconds] (S t).

(** A ghost mark in the trace. *)
Definition mark (ev : Event) : M unit := fun t => mkRun (Ok tt) [ev] t.

Declare Scope py_scope.
Delimit Scope py_scope with py.
Notation "x <- m ;; k" := (bind m (fun x => k))
  (at level 61, m at next level, right associativity) : py_scope.
Notation "m ;; k" := (bind m (fun _ => k))
  (at level 61, right associativity) : py_scope.
Local Open Scope py_scope.

(** [wp m t Q]: the run of [m] from clock [t] ends in a result, a trace and
    a clock that satisfy [Q]. *)
Definition wp {A : Type} (m : M A) (t : nat)
    (Q : res A -> list Event -> nat -> Prop) : Prop :=
  Q (result (m t)) (events (m t)) (now (m t)).

(** ** The [random] and [time] modules *)

(** [random.randint(a, b)]: [a + randbelow(b - a + 1)]; an empty range is a
    [ValueError]. *)
Definition random_randint (w3 : Web3) (a b : Z) : M Z := fun t =>
  if a <=? b
  then mkRun (Ok (a + random_bits w3 t mod (b - a + 1))) [] (S t)
  else mkRun (Raise (ValueError "empty range for randrange()")) [] t.

(** [random.random()]: a multiple of [2^-53] in [0, 1). *)
Definition random_random (w3 : Web3) : M Q := fun t =>
  mkRun (Ok (Qmake (random_bits w3 t mod 2 ^ 53) (Z.to_pos (2 ^ 53)))) [] (S t).

(** [random.uniform(a, b)]: [a + (b - a) * random()]. *)
Definition random_uniform (w3 : Web3) (a b : Q) : M Q :=
  r <- random_random w3 ;;
  ret (a + (b - a) * r)%Q.

(** [random.choice([True, False])]: the item at index [randbelow(2)]. *)
Definition random_choice_True_False (w3 : Web3) : M bool := fun t =>
  mkRun (Ok (random_bits w3 t mod 2 =? 0)) [] (S t).

(** [int(time.time())]. *)
Definition int_time (w3 : Web3) : M Z := fun t => mkRun (Ok (time_time w3 t)) [] t.

(** ** Configuration *)

(** Modelled from the spec: [src/utils/config.py] is not among the sources.
    The spec lists "a configuration object exposing attempt counts, pause
    ranges, swap-count ranges, and a percent-of-balance range"; the fields
    are the ones the two modules read. A range is the pair the code
    unpacks. *)
Record Settings : Type := mkSettings {
  ATTEMPTS : Z;
  PAUSE_BETWEEN_ATTEMPTS : Z * Z;
  RANDOM_PAUSE_BETWEEN_ACTIONS : Z * Z;
  PAUSE_BETWEEN_SWAPS : Z * Z
}.

Record Flow : Type := mkFlow {
  NUMBER_OF_SWAPS : Z * Z;
  PERCENT_OF_BALANCE_TO_SWAP : Q * Q
}.

Record CrystalSwapSection : Type := mkCrystalSwapSection {
  ENABLED : bool
}.

Record Config : Type := mkConfig {
  SETTINGS : Settings;
  FLOW : Flow;
  CRYSTAL_SWAP : option CrystalSwapSection
    (** [None]: [hasattr(config, "CRYSTAL_SWAP")] is false *)
}.

(** The swap Outcome dictionary; a key that is absent is [None]. *)
Record Outcome : Type := mkOutcome {
  success : bool;
  tx_hash : option string;
  from_token : option string;
  to_token : option string;
  amount_in : option Q;
  expected_out : option Q;
  gas_used : option Z;
  error : option string
}.

Definition failure (msg : string) : Outcome :=
  mkOutcome false None None None None None None (Some msg).

(** How one pass through the body of a retry loop ends. *)
Inductive LoopExit (A : Type) : Type :=
| Return (a : A)
| Continue.
Arguments Return {A} a.
Arguments Continue {A}.

(** ** [src/model/crystal_swap/instance.py] *)

Module Instance.

(** *** [constants.py]

    The addresses are the literals of the file; [Web3.to_checksum_address],
    which the file applies to them, changes the case of their letters
    only. *)

Definition ROUTER_CONTRACT : address := "0x64Aff7245EbdAAECAf266852139c67E4D8DBa4de".
Definition WMON_CONTRACT : address := "0x760AfE86e5de5fa0Ee542fc7B7B713e1c5425701".
Definition USDC_CONTRACT : address := "0xf817257fed379853cde0fa4f97ab987181b1e5ea".

Definition AVAILABLE_TOKENS : list (string * Token) :=
  [ ("MON", mkToken "MON" None 18 true);
    ("USDC", mkToken "USDC" (Some USDC_CONTRACT) 6 false) ].

(** *** The object *)

Record CrystalSwap : Type := mkCrystalSwap {
  account_index : Z;
  private_key : string;
  config : Config;
  account_address : address;
  web3 : Web3
}.

Section Methods.

Variable self : CrystalSwap.

Let w3 : Web3 := web3 self.
Let settings : Settings := SETTINGS (config self).

(** [get_gas_params], lines 124-133. *)
Definition get_gas_params : M (Z * Z) :=
  base_fee <- await EvGetBlock (eth_get_block_baseFeePerGas w3) ;;
  max_priority_fee <- await EvMaxPriorityFee (eth_max_priority_fee w3) ;;
  let max_fee := base_fee + max_priority_fee in
  ret (max_fee, max_priority_fee).

(** [estimate_gas], lines 135-144: the handler logs and raises again. *)
Definition estimate_gas (transaction : Transaction) : M Z :=
  r <- try_catch
         (estimated <- await (EvEstimateGas transaction)
                             (fun t => eth_estimate_gas w3 t transaction) ;;
          ret (int (float estimated * (11 # 10))%Q)) ;;
  match r with
  | Ok gas => ret gas
  | Raise e => raise e
  end.

(** [get_token_balance], lines 146-169. [remaining] is
    [max_retries + 1 - retries], the passes the [while] loop has left. *)
Definition max_retries : nat := 15.

Fixpoint get_token_balance_loop (remaining : nat) (wallet_address : address)
    (token : Token) : M Q :=
  match remaining with
  | O => ret 0%Q
  | S remaining' =>
      match to_checksum_address w3 wallet_address with
      | Raise e =>
          sleep 1 ;;
          get_token_balance_loop remaining' wallet_address token
      | Ok wallet_address' =>
          r <- try_catch
                 (if native token
                  then
                    balance_wei <- await (EvGetBalance wallet_address')
                                         (eth_get_balance w3) ;;
                    ret (from_wei_ether balance_wei)
                  else
                    balance_wei <- await (EvBalanceOf wallet_address')
                                         (usdc_balanceOf w3) ;;
                    ret (float balance_wei / float (10 ^ decimals token))%Q) ;;
          match r with
          | Ok balance => ret balance
          | Raise e =>
              sleep 1 ;;
              get_token_balance_loop remaining' wallet_address' token
          end
      end
  end.

Definition get_token_balance (wallet_address : address) (token : Token) : M Q :=
  get_token_balance_loop (S max_retries) wallet_address token.

(** [check_allowance], lines 171-177. *)
Definition check_allowance (token_address : option address)
    (spender_address : address) (amount_wei : Z) : M bool :=
  token_contract <- lift (contract w3 token_address) ;;
  current_allowance <- await (EvAllowance (account_address self) spender_address)
                             (token_allowance w3) ;;
  ret (amount_wei <=? current_allowance).

(** [wait_for_transaction_receipt(tx_hash)]; the transaction is carried
    along for the trace only. *)
Definition wait_for_transaction_receipt (tx : Transaction) (h : Hash) : M Receipt :=
  await_logged (EvWaitForReceipt tx h)
               (fun t => eth_wait_for_transaction_receipt w3 t h).

(** [approve_token], lines 179-215. *)
Definition approve_token (token : Token) (amount_wei : Z)
    (spender_address : address) : M (option string) :=
  if native token then ret None else
  sufficient <- check_allowance (token_address token) spender_address amount_wei ;;
  if sufficient : bool then ret None else
  token_contract <- lift (contract w3 (token_address token)) ;;
  let approve_func := approve spender_address (2 ^ 256 - 1) in
  gas_params <- get_gas_params ;;
  data <- lift (encode_transaction_data w3 approve_func) ;;
  nonce <- await (EvGetTransactionCount (account_address self))
                 (eth_get_transaction_count w3) ;;
  let transaction :=
    mkTx (account_address self) (token_address token) None data 10143 2 nonce
         None None None in
  estimated_gas <- estimate_gas transaction ;;
  let transaction :=
    mkTx (account_address self) (token_address token) None data 10143 2 nonce
         (Some estimated_gas) (Some (fst gas_params)) (Some (snd gas_params)) in
  signed_tx <- lift (sign_transaction w3 transaction (private_key self)) ;;
  tx_hash <- await (EvSendRawTransaction signed_tx)
                   (fun t => eth_send_raw_transaction w3 t signed_tx) ;;
  receipt <- wait_for_transaction_receipt signed_tx tx_hash ;;
  if status receipt =? 1 then ret (Some (to_hex tx_hash)) else ret None.

(** The [try] block of [swap], lines 221-290. The message of the
    [ValueError] also spells the two numbers in the source. *)
Definition swap_attempt (token_from token_to : string) (amount slippage : Q)
  : M (LoopExit Outcome) :=
  token_a <- lift (dict_get AVAILABLE_TOKENS token_from) ;;
  token_b <- lift (dict_get AVAILABLE_TOKENS token_to) ;;
  balance <- get_token_balance (account_address self) token_a ;;
  if float_lt balance amount
  then raise (ValueError "Insufficient balance") else
  amount_in_wei <-
    (if native token_a
     then lift (to_wei_ether amount)
     else ret (int (amount * float (10 ^ decimals token_a))%Q)) ;;
  let path :=
    if native token_a
    then [Some WMON_CONTRACT; token_address token_b]
    else [token_address token_a; Some WMON_CONTRACT] in
  amounts_out <- await_logged (EvGetAmountsOut amount_in_wei path)
                   (fun t => router_getAmountsOut w3 t amount_in_wei path) ;;
  expected_out <- lift (last_item amounts_out) ;;
  let min_amount_out := int (float expected_out * (1 - slippage / 100))%Q in
  time_now <- int_time w3 ;;
  let deadline := time_now + 3600 in
  (if negb (native token_a)
   then approve_token token_a amount_in_wei ROUTER_CONTRACT
   else ret None) ;;
  gas_params <- get_gas_params ;;
  let tx_func :=
    if native token_a
    then swapExactETHForTokens min_amount_out path (account_address self) deadline
    else swapExactTokensForETH amount_in_wei min_amount_out path
           (account_address self) deadline in
  data <- lift (encode_transaction_data w3 tx_func) ;;
  nonce <- await (EvGetTransactionCount (account_address self))
                 (eth_get_transaction_count w3) ;;
  let value := if native token_a then amount_in_wei else 0 in
  let transaction :=
    mkTx (account_address self) (Some ROUTER_CONTRACT) (Some value) data 10143 2
         nonce None None None in
  estimated_gas <- estimate_gas transaction ;;
  let transaction :=
    mkTx (account_address self) (Some ROUTER_CONTRACT) (Some value) data 10143 2
         nonce (Some estimated_gas) (Some (fst gas_params))
         (Some (snd gas_params)) in
  signed_tx <- lift (sign_transaction w3 transaction (private_key self)) ;;
  tx_hash <- await (EvSendRawTransaction signed_tx)
                   (fun t => eth_send_raw_transaction w3 t signed_tx) ;;
  receipt <- wait_for_transaction_receipt signed_tx tx_hash ;;
  if status receipt =? 1
  then ret (Return
              (mkOutcome true (Some (to_hex tx_hash)) (Some (name token_a))
                 (Some (name token_b)) (Some amount)
                 (Some (float expected_out / float (10 ^ decimals token_b))%Q)
                 (Some (gasUsed receipt)) None))
  else ret Continue.

(** The [except] block of [swap], lines 292-295. *)
Definition swap_handler (retry : nat) (e : exn) : M unit :=
  if Z.of_nat retry <? ATTEMPTS settings - 1
  then
    pause <- random_randint w3 (fst (PAUSE_BETWEEN_ATTEMPTS settings))
                               (snd (PAUSE_BETWEEN_ATTEMPTS settings)) ;;
    sleep pause
  else ret tt.

(** [swap], lines 217-296: [for retry in range(ATTEMPTS)], with [left]
    the passes that remain. *)
Fixpoint swap_loop (left retry : nat) (token_from token_to : string)
    (amount slippage : Q) : M Outcome :=
  match left with
  | O => ret (failure "Max retry attempts reached")
  | S left' =>
      mark (EvAttempt retry) ;;
      r <- try_catch (swap_attempt token_from token_to amount slippage) ;;
      match r with
      | Ok (Return outcome) => ret outcome
      | Ok Continue =>
          swap_loop left' (S retry) token_from token_to amount slippage
      | Raise e =>
          swap_handler retry e ;;
          swap_loop left' (S retry) token_from token_to amount slippage
      end
  end.

Definition swap (token_from token_to : string) (amount slippage : Q) : M Outcome :=
  swap_loop (Z.to_nat (ATTEMPTS settings)) 0 token_from token_to amount slippage.

(** The default of the [slippage] argument. *)
Definition default_slippage : Q := 1 # 2.

(** [_select_swap_pair], lines 298-321. *)
Definition _select_swap_pair (token_balances : list (string * Q))
  : M (option string * option string * Q) :=
  mon_balance <- lift (dict_get token_balances "MON") ;;
  usdc_balance <- lift (dict_get token_balances "USDC") ;;
  if float_lt mon_balance (1 # 1000) && float_lt usdc_balance (1 # 100)
  then ret (None, None, 0%Q) else
  coin <- random_choice_True_False w3 ;;
  let swap_mon := coin && float_le (1 # 1000) mon_balance in
  let '(min_percent, max_percent) := PERCENT_OF_BALANCE_TO_SWAP (FLOW (config self)) in
  percent <- random_uniform w3 min_percent max_percent ;;
  if swap_mon
  then
    let amount := (mon_balance * (percent / 100))%Q in
    if float_lt amount (1 # 1000) then ret (None, None, 0%Q)
    else ret (Some "MON", Some "USDC", amount)
  else
    let amount := (usdc_balance * (percent / 100))%Q in
    if float_lt amount (1 # 100) then ret (None, None, 0%Q)
    else ret (Some "USDC", Some "MON", amount).

(** The two [for symbol, token_info in AVAILABLE_TOKENS.items()] loops of
    [execute], lines 58-61 and 73-75. *)
Fixpoint update_balances (items : list (string * Token))
    (token_balances : list (string * Q)) : M (list (string * Q)) :=
  match items with
  | [] => ret token_balances
  | (symbol, token_info) :: items' =>
      balance <- get_token_balance (account_address self) token_info ;;
      update_balances items' (dict_set token_balances symbol balance)
  end.

(** Python's [not s] on a string or [None]. *)
Definition falsy (s : option string) : bool :=
  match s with
  | None => true
  | Some s' => String.eqb s' ""
  end.

(** One pass of [for swap_num in range(1, num_swaps + 1)], lines 70-120.
    The dictionary is the one object all passes write to. *)
Definition execute_iteration (num_swaps swap_num : Z)
    (token_balances : list (string * Q)) : M (list (string * Q)) :=
  token_balances <- update_balances AVAILABLE_TOKENS token_balances ;;
  selected <- _select_swap_pair token_balances ;;
  let '(token_from, token_to, amount) := selected in
  if falsy token_from || falsy token_to then ret token_balances else
  if float_le amount (1 # 100) then ret token_balances else
  match token_from, token_to with
  | Some token_from, Some token_to =>
      swap_result <- swap token_from token_to amount default_slippage ;;
      (if swap_num <? num_swaps
       then
         pause_time <- random_randint w3
                         (fst (RANDOM_PAUSE_BETWEEN_ACTIONS settings))
                         (snd (RANDOM_PAUSE_BETWEEN_ACTIONS settings)) ;;
         sleep pause_time
       else ret tt) ;;
      ret token_balances
  | _, _ => ret token_balances
  end.

Fixpoint execute_loop (left : nat) (num_swaps swap_num : Z)
    (token_balances : list (string * Q)) : M unit :=
  match left with
  | O => ret tt
  | S left' =>
      token_balances <- execute_iteration num_swaps swap_num token_balances ;;
      execute_loop left' num_swaps (swap_num + 1) token_balances
  end.

(** [execute], lines 45-122. *)
Definition execute : M unit :=
  match CRYSTAL_SWAP (config self) with
  | None => ret tt
  | Some section =>
      if negb (ENABLED section) then ret tt else
      token_balances <- update_balances AVAILABLE_TOKENS [] ;;
      let '(min_swaps, max_swaps) := NUMBER_OF_SWAPS (FLOW (config self)) in
      num_swaps <- random_randint w3 min_swaps max_swaps ;;
      execute_loop (Z.to_nat num_swaps) num_swaps 1 token_balances
  end.

End Methods.

End Instance.

(** ** [src/model/crystal/crystal_swap.py] *)

Module Crystal.

(** Modelled from the spec: [src/utils/constants.py], from which this
    module imports its addresses and [AVAILABLE_TOKENS], is not among the
    sources. The spec names "a fixed router contract address, a fixed
    wrapped-native-token address, a fixed stablecoin address" and a token
    registry of "symbolic token names" with "address or native flag,
    decimal precision"; they are fields of the object, which keeps the
    [MON] and [USDC] entries as its own [AVAILABLE_TOKENS]. *)
Record CrystalSwap : Type := mkCrystalSwap {
  account_index : Z;
  private_key : string;
  config : Config;
  account_address : address;
  web3 : Web3;
  ROUTER_CONTRACT : address;
  WMON_CONTRACT : address;
  USDC_CONTRACT : address;
  MON : Token;
  USDC : Token
}.

Section Methods.

Variable self : CrystalSwap.

Let w3 : Web3 := web3 self.
Let settings : Settings := SETTINGS (config self).

(** [get_gas_params], lines 47-55. *)
Definition get_gas_params : M (Z * Z) :=
  base_fee <- await EvGetBlock (eth_get_block_baseFeePerGas w3) ;;
  max_priority_fee <- await EvMaxPriorityFee (eth_max_priority_fee w3) ;;
  let max_fee := base_fee + max_priority_fee in
  ret (max_fee, max_priority_fee).

(** [estimate_gas], lines 57-63: a failed estimate becomes 200000. *)
Definition estimate_gas (transaction : Transaction) : M Z :=
  r <- try_catch
         (estimated <- await (EvEstimateGas transaction)
                             (fun t => eth_estimate_gas w3 t transaction) ;;
          ret (int (float estimated * (12 # 10))%Q)) ;;
  match r with
  | Ok gas => ret gas
  | Raise e => ret 200000
  end.

(** [get_token_balance], lines 65-75. *)
Definition get_token_balance (token : Token) : M Q :=
  r <- try_catch
         (if native token
          then
            balance_wei <- await (EvGetBalance (account_address self))
                                 (eth_get_balance w3) ;;
            ret (from_wei_ether balance_wei)
          else
            balance_wei <- await (EvBalanceOf (account_address self))
                                 (usdc_balanceOf w3) ;;
            ret (float balance_wei / float (10 ^ decimals token))%Q) ;;
  match r with
  | Ok balance => ret balance
  | Raise e => ret 0%Q
  end.

Definition wait_for_transaction_receipt (tx : Transaction) (h : Hash) : M Receipt :=
  await_logged (EvWaitForReceipt tx h)
               (fun t => eth_wait_for_transaction_receipt w3 t h).

(** [approve_usdc], lines 77-106. *)
Definition approve_usdc (amount_wei : Z) : M bool :=
  r <- try_catch
         (allowance <- await (EvAllowance (account_address self)
                                          (ROUTER_CONTRACT self))
                             (token_allowance w3) ;;
          if amount_wei <=? allowance then ret true else
          data <- lift (encode_transaction_data w3
                          (approve (ROUTER_CONTRACT self) (2 ^ 256 - 1))) ;;
          nonce <- await (EvGetTransactionCount (account_address self))
                         (eth_get_transaction_count w3) ;;
          gas_params <- get_gas_params ;;
          let tx :=
            mkTx (account_address self) (Some (USDC_CONTRACT self)) None data
                 10143 2 nonce None (Some (fst gas_params))
                 (Some (snd gas_params)) in
          gas <- estimate_gas tx ;;
          let tx :=
            mkTx (account_address self) (Some (USDC_CONTRACT self)) None data
                 10143 2 nonce (Some gas) (Some (fst gas_params))
                 (Some (snd gas_params)) in
          signed_tx <- lift (sign_transaction w3 tx (private_key self)) ;;
          tx_hash <- await (EvSendRawTransaction signed_tx)
                           (fun t => eth_send_raw_transaction w3 t signed_tx) ;;
          receipt <- wait_for_transaction_receipt signed_tx tx_hash ;;
          if status receipt =? 1 then ret true else ret false) ;;
  match r with
  | Ok approved => ret approved
  | Raise e => ret false
  end.

(** The [except] block of both swap routines, lines 140-143 and 179-182. *)
Definition swap_handler (attempt : nat) (e : exn) : M unit :=
  if Z.of_nat attempt <? ATTEMPTS settings - 1
  then
    pause <- random_randint w3 (fst (PAUSE_BETWEEN_ATTEMPTS settings))
                               (snd (PAUSE_BETWEEN_ATTEMPTS settings)) ;;
    sleep pause
  else ret tt.

(** The [try] block of [swap_mon_to_usdc], lines 115-139. *)
Definition swap_mon_to_usdc_attempt (amount : Q) (amount_wei : Z)
    (path : list (option address)) (deadline : Z) : M Outcome :=
  data <- lift (encode_transaction_data w3
                  (swapExactETHForTokens 0 path (account_address self) deadline)) ;;
  nonce <- await (EvGetTransactionCount (account_address self))
                 (eth_get_transaction_count w3) ;;
  gas_params <- get_gas_params ;;
  let tx :=
    mkTx (account_address self) (Some (ROUTER_CONTRACT self)) (Some amount_wei)
         data 10143 2 nonce None (Some (fst gas_params)) (Some (snd gas_params)) in
  gas <- estimate_gas tx ;;
  let tx :=
    mkTx (account_address self) (Some (ROUTER_CONTRACT self)) (Some amount_wei)
         data 10143 2 nonce (Some gas) (Some (fst gas_params))
         (Some (snd gas_params)) in
  signed_tx <- lift (sign_transaction w3 tx (private_key self)) ;;
  tx_hash <- await (EvSendRawTransaction signed_tx)
                   (fun t => eth_send_raw_transaction w3 t signed_tx) ;;
  receipt <- wait_for_transaction_receipt signed_tx tx_hash ;;
  if status receipt =? 1
  then ret (mkOutcome true (Some (hash_hex tx_hash)) (Some "MON") (Some "USDC")
              (Some amount) None None None)
  else ret (failure "Transaction reverted").

Fixpoint swap_mon_to_usdc_loop (left attempt : nat) (amount : Q) (amount_wei : Z)
    (path : list (option address)) (deadline : Z) : M Outcome :=
  match left with
  | O => ret (failure "All attempts failed")
  | S left' =>
      mark (EvAttempt attempt) ;;
      r <- try_catch (swap_mon_to_usdc_attempt amount amount_wei path deadline) ;;
      match r with
      | Ok outcome => ret outcome
      | Raise e =>
          swap_handler attempt e ;;
          swap_mon_to_usdc_loop left' (S attempt) amount amount_wei path deadline
      end
  end.

(** [swap_mon_to_usdc], lines 108-144. *)
Definition swap_mon_to_usdc (amount : Q) : M Outcome :=
  amount_wei <- lift (to_wei_ether amount) ;;
  let path := [Some (WMON_CONTRACT self); Some (USDC_CONTRACT self)] in
  time_now <- int_time w3 ;;
  let deadline := time_now + 600 in
  swap_mon_to_usdc_loop (Z.to_nat (ATTEMPTS settings)) 0 amount amount_wei path
    deadline.

(** The [try] block of [swap_usdc_to_mon], lines 153-178. *)
Definition swap_usdc_to_mon_attempt (amount : Q) (amount_wei : Z)
    (path : list (option address)) (deadline : Z) : M Outcome :=
  approved <- approve_usdc amount_wei ;;
  if negb approved then ret (failure "Approval failed") else
  data <- lift (encode_transaction_data w3
                  (swapExactTokensForETH amount_wei 0 path (account_address self)
                     deadline)) ;;
  nonce <- await (EvGetTransactionCount (account_address self))
                 (eth_get_transaction_count w3) ;;
  gas_params <- get_gas_params ;;
  let tx :=
    mkTx (account_address self) (Some (ROUTER_CONTRACT self)) None data 10143 2
         nonce None (Some (fst gas_params)) (Some (snd gas_params)) in
  gas <- estimate_gas tx ;;
  let tx :=
    mkTx (account_address self) (Some (ROUTER_CONTRACT self)) None data 10143 2
         nonce (Some gas) (Some (fst gas_params)) (Some (snd gas_params)) in
  signed_tx <- lift (sign_transaction w3 tx (private_key self)) ;;
  tx_hash <- await (EvSendRawTransaction signed_tx)
                   (fun t => eth_send_raw_transaction w3 t signed_tx) ;;
  receipt <- wait_for_transaction_receipt signed_tx tx_hash ;;
  if status receipt =? 1
  then ret (mkOutcome true (Some (hash_hex tx_hash)) (Some "USDC") (Some "MON")
              (Some amount) None None None)
  else ret (failure "Transaction reverted").

Fixpoint swap_usdc_to_mon_loop (left attempt : nat) (amount : Q) (amount_wei : Z)
    (path : list (option address)) (deadline : Z) : M Outcome :=
  match left with
  | O => ret (failure "All attempts failed")
  | S left' =>
      mark (EvAttempt attempt) ;;
      r <- try_catch (swap_usdc_to_mon_attempt amount amount_wei path deadline) ;;
      match r with
      | Ok outcome => ret outcome
      | Raise e =>
          swap_handler attempt e ;;
          swap_usdc_to_mon_loop left' (S attempt) amount amount_wei path deadline
      end
  end.

(** [swap_usdc_to_mon], lines 146-183. *)
Definition swap_usdc_to_mon (amount : Q) : M Outcome :=
  let amount_wei := int (amount * float (10 ^ 6))%Q in
  let path := [Some (USDC_CONTRACT self); Some (WMON_CONTRACT self)] in
  time_now <- int_time w3 ;;
  let deadline := time_now + 600 in
  swap_usdc_to_mon_loop (Z.to_nat (ATTEMPTS settings)) 0 amount amount_wei path
    deadline.

(** Lines 203-216 of [execute], up to the two swap calls: the direction
    ([true]: MON to USDC) and the amount, or [None] where the loop
    says [continue]. *)
Definition choose_swap (mon_balance usdc_balance : Q) : M (option (bool * Q)) :=
  coin <- random_choice_True_False w3 ;;
  let swap_mon := coin && float_le (1 # 1000) mon_balance in
  let '(min_percent, max_percent) := PERCENT_OF_BALANCE_TO_SWAP (FLOW (config self)) in
  percent <- random_uniform w3 min_percent max_percent ;;
  if swap_mon
  then
    let amount := (mon_balance * (percent / 100))%Q in
    if float_lt amount (1 # 1000) then ret None else ret (Some (true, amount))
  else
    let amount := (usdc_balance * (percent / 100))%Q in
    if float_lt amount (1 # 100) then ret None else ret (Some (false, amount)).

(** [for swap_num in range(1, num_swaps + 1)], lines 194-227. *)
Fixpoint execute_loop (left : nat) (num_swaps swap_num : Z) : M unit :=
  match left with
  | O => ret tt
  | S left' =>
      mon_balance <- get_token_balance (MON self) ;;
      usdc_balance <- get_token_balance (USDC self) ;;
      if float_lt mon_balance (1 # 1000) && float_lt usdc_balance (1 # 100)
      then ret tt
      else
        chosen <- choose_swap mon_balance usdc_balance ;;
        match chosen with
        | None => execute_loop left' num_swaps (swap_num + 1)
        | Some (swap_mon, amount) =>
            result <- (if swap_mon : bool
                       then swap_mon_to_usdc amount
                       else swap_usdc_to_mon amount) ;;
            (if swap_num <? num_swaps
             then
               pause <- random_randint w3 (fst (PAUSE_BETWEEN_SWAPS settings))
                                          (snd (PAUSE_BETWEEN_SWAPS settings)) ;;
               sleep pause
             else ret tt) ;;
            execute_loop left' num_swaps (swap_num + 1)
        end
  end.

(** [execute], lines 185-229. *)
Definition execute : M unit :=
  match CRYSTAL_SWAP (config self) with
  | None => ret tt
  | Some section =>
      if negb (ENABLED section) then ret tt else
      let '(min_swaps, max_swaps) := NUMBER_OF_SWAPS (FLOW (config self)) in
      num_swaps <- random_randint w3 min_swaps max_swaps ;;
      execute_loop (Z.to_nat num_swaps) num_swaps 1
  end.

End Methods.

End Crystal.

(** ** Event classes and counts *)

Definition is_balance_query (e : Event) : bool :=
  match e with
  | EvGetBalance _ | EvBalanceOf _ | EvSleep _ => true
  | _ => false
  end.

Definition is_sleep (e : Event) : bool :=
  match e with
  | EvSleep _ => true
  | _ => false
  end.

Definition is_broadcast (e : Event) : bool :=
  match e with
  | EvSendRawTransaction _ => true
  | _ => false
  end.

Definition is_attempt (e : Event) : bool :=
  match e with
  | EvAttempt _ => true
  | _ => false
  end.

(** A call of one of the router's two swap entry points. *)
Definition is_router_swap (call : CallData) : bool :=
  match call with
  | approve _ _ => false
  | _ => true
  end.

(** The [amountOutMin] argument of a router swap call. *)
Definition amountOutMin_of (call : CallData) : option Z :=
  match call with
  | swapExactETHForTokens amountOutMin _ _ _ => Some amountOutMin
  | swapExactTokensForETH _ amountOutMin _ _ _ => Some amountOutMin
  | approve _ _ => None
  end.

(** The receipt of a swap transaction came back with status 1, or with
    another status. *)
Definition confirmed_swap (e : Event) : bool :=
  match e with
  | EvWaitForReceipt tx _ (Ok receipt) =>
      is_router_swap (tx_data tx) && (status receipt =? 1)
  | _ => false
  end.

Definition reverted_swap (e : Event) : bool :=
  match e with
  | EvWaitForReceipt tx _ (Ok receipt) =>
      is_router_swap (tx_data tx) && negb (status receipt =? 1)
  | _ => false
  end.

(** The claim's formula for the minimum acceptable output: the quoted
    output reduced by [slippage] percent. *)
Definition slippage_floor (expected_out : Z) (slippage : Q) : Z :=
  int (float expected_out * (1 - slippage / 100))%Q.

Definition is_quote (e : Event) : bool :=
  match e with
  | EvGetAmountsOut _ _ _ => true
  | _ => false
  end.

(** The broadcasts and the receipts of a trace, in order: whether the
    transaction is a router swap, and the status for a receipt. *)
Fixpoint ledger (evs : list Event) : list (bool * option Z) :=
  match evs with
  | [] => []
  | EvSendRawTransaction tx :: evs' =>
      (is_router_swap (tx_data tx), None) :: ledger evs'
  | EvWaitForReceipt tx _ (Ok receipt) :: evs' =>
      (is_router_swap (tx_data tx), Some (status receipt)) :: ledger evs'
  | _ :: evs' => ledger evs'
  end.

(** The [amountOutMin] of every swap broadcast of a trace, in order. *)
Fixpoint broadcast_floors (evs : list Event) : list Z :=
  match evs with
  | [] => []
  | EvSendRawTransaction tx :: evs' =>
      match amountOutMin_of (tx_data tx) with
      | Some m => m :: broadcast_floors evs'
      | None => broadcast_floors evs'
      end
  | _ :: evs' => broadcast_floors evs'
  end.

(** Whether an Outcome came back, and a success. *)
Definition succeeded (r : res Outcome) : bool :=
  match r with
  | Ok o => success o
  | Raise _ => false
  end.

(** How many [send_raw_transaction] calls a trace holds, and how many
    passes through a retry loop. *)
Definition broadcasts (evs : list Event) : nat := List.length (filter is_broadcast evs).
Definition attempts (evs : list Event) : nat := List.length (filter is_attempt evs).

(** What the retry loops need of the settings: a count that is not
    negative, and a pause range that [random.randint] accepts. *)
Definition pause_range_ok (s : Settings) : Prop :=
  fst (PAUSE_BETWEEN_ATTEMPTS s) <= snd (PAUSE_BETWEEN_ATTEMPTS s).

Definition settings_ok (s : Settings) : Prop :=
  0 <= ATTEMPTS s /\ pause_range_ok s.

(** What an Outcome and the trace it comes with have to do with each other
    when a routine returns on the first receipt: a success comes with a
    confirmed swap and no reverted one, a failure or an exception with no
    confirmed swap. *)
Definition first_receipt_decides (r : res Outcome) (e : list Event) : Prop :=
  Forall (fun x => is_attempt x = false) e /\
  match r with
  | Ok o =>
      (success o = true /\
       (exists h, tx_hash o = Some (hash_hex h)) /\
       Exists (fun x => confirmed_swap x = true) e /\
       Forall (fun x => reverted_swap x = false) e)
      \/
      (success o = false /\
       (exists msg, error o = Some msg /\ msg <> "") /\
       Forall (fun x => confirmed_swap x = false) e)
  | Raise _ =>
      Forall (fun x => confirmed_swap x = false) e /\
      Forall (fun x => reverted_swap x = false) e
  end.

(** The same for a whole retry loop with [left] passes to go: it returns an
    Outcome, which is a success exactly when a swap was confirmed, and a
    failure as soon as a swap was reverted. *)
Definition loop_decides (left : nat) (r : res Outcome) (e : list Event) : Prop :=
  (attempts e <= left)%nat /\
  exists o,
    r = Ok o /\
    (success o = true <-> Exists (fun x => confirmed_swap x = true) e) /\
    (success o = true -> exists h, tx_hash o = Some (hash_hex h)) /\
    (Exists (fun x => reverted_swap x = true) e -> success o = false) /\
    (success o = false -> exists msg, error o = Some msg /\ msg <> "").

(** A retry loop backs off after pass [retry]: its trace is the mark of the
    pass, the trace of the pass, one sleep of a length within the pause
    range, and then the trace of the rest of the loop. *)
Definition backs_off (s : Settings) (retry : nat) (pass loop : list Event)
    (rest : nat -> list Event) : Prop :=
  exists pause t',
    fst (PAUSE_BETWEEN_ATTEMPTS s) <= pause <= snd (PAUSE_BETWEEN_ATTEMPTS s) /\
    loop = EvAttempt retry :: pass ++ EvSleep pause :: rest t'.

(** What the traces of [crystal_swap.py] are made of: no quote is asked
    for, and a swap that is broadcast carries a minimum output of zero. *)
Definition zero_floor_no_quote (e : Event) : Prop :=
  match e with
  | EvGetAmountsOut _ _ _ => False
  | EvSendRawTransaction tx =>
      is_router_swap (tx_data tx) = true -> amountOutMin_of (tx_data tx) = Some 0
  | _ => True
  end.

(** An approval that is broadcast grants [spender] the largest allowance
    there is. *)
Definition unlimited_approval (spender : address) (e : Event) : Prop :=
  match e with
  | EvSendRawTransaction tx => tx_data tx = approve spender (2 ^ 256 - 1)
  | _ => True
  end.

(** Both ends of the percent-of-balance range lie within [0, 100]. *)
Definition percent_range_ok (f : Flow) : Prop :=
  (0 <= fst (PERCENT_OF_BALANCE_TO_SWAP f) <= 100)%Q /\
  (0 <= snd (PERCENT_OF_BALANCE_TO_SWAP f) <= 100)%Q.

(** Both balances of a dictionary are below the thresholds of
    [_select_swap_pair], and the same on two numbers. *)
Definition both_low (mon_balance usdc_balance : Q) : bool :=
  float_lt mon_balance (1 # 1000) && float_lt usdc_balance (1 # 100).

Definition balances_low (token_balances : list (string * Q)) : bool :=
  match dict_get token_balances "MON", dict_get token_balances "USDC" with
  | Ok mon_balance, Ok usdc_balance => both_low mon_balance usdc_balance
  | _, _ => false
  end.

(** Whenever they are queried, both balances come out below the thresholds:
    through [get_token_balance] of [instance.py], and of [crystal_swap.py]. *)
Definition instance_stays_low (self : Instance.CrystalSwap) : Prop :=
  forall t b,
    (result (Instance.get_token_balance self (Instance.account_address self)
               (mkToken "MON" None 18 true) t) = Ok b -> (b < 1 # 1000)%Q) /\
    (result (Instance.get_token_balance self (Instance.account_address self)
               (mkToken "USDC" (Some Instance.USDC_CONTRACT) 6 false) t) = Ok b ->
     (b < 1 # 100)%Q).

Definition crystal_stays_low (self : Crystal.CrystalSwap) : Prop :=
  forall t b,
    (result (Crystal.get_token_balance self (Crystal.MON self) t) = Ok b ->
     (b < 1 # 1000)%Q) /\
    (result (Crystal.get_token_balance self (Crystal.USDC self) t) = Ok b ->
     (b < 1 # 100)%Q).

(** Every balance query is answered by an error. *)
Definition rpc_unreachable (w3 : Web3) : Prop :=
  forall t, (exists e, eth_get_balance w3 t = Raise e) /\
            (exists e, usdc_balanceOf w3 t = Raise e).

(** Every balance query is answered, by zero. *)
Definition zero_balance (w3 : Web3) : Prop :=
  (forall a, to_checksum_address w3 a = Ok a) /\
  forall t, eth_get_balance w3 t = Ok 0 /\ usdc_balanceOf w3 t = Ok 0.

(** ** Concrete nodes and objects, for the examples *)

Module Scenario.

Definition receipt_ok : Receipt := mkReceipt 1 90000.
Definition receipt_reverted : Receipt := mkReceipt 0 90000.

(** A node that answers every call; the balances, the allowance and the
    receipts are left to the scenario. The quote doubles the amount, the
    random source always yields zero. *)
Definition node (mon_wei usdc_units allowance : nat -> res Z)
    (receipts : nat -> res Receipt) : Web3 :=
  {| to_checksum_address := fun a => Ok a;
     contract := fun a =>
       match a with
       | Some a' => Ok a'
       | None => Raise (TypeError "no address")
       end;
     encode_rejects := fun _ => None;
     sign_rejects := fun _ _ => None;
     eth_get_balance := mon_wei;
     usdc_balanceOf := usdc_units;
     token_allowance := allowance;
     router_getAmountsOut := fun _ amount_in _ => Ok [amount_in; 2 * amount_in];
     eth_get_block_baseFeePerGas := fun _ => Ok 50;
     eth_max_priority_fee := fun _ => Ok 2;
     eth_get_transaction_count := fun _ => Ok 7;
     eth_estimate_gas := fun _ _ => Ok 100000;
     eth_send_raw_transaction := fun t _ => Ok (Z.of_nat t + 4096);
     eth_wait_for_transaction_receipt := fun t _ => receipts t;
     random_bits := fun _ => 0;
     time_time := fun _ => 1700000000 |}.

Definition refused : nat -> res Z := fun _ => Raise (Web3Exception "connection refused").

Definition settings (attempts : Z) : Settings := mkSettings attempts (1, 3) (1, 3) (1, 3).
Definition flow (swaps : Z) : Flow := mkFlow (swaps, swaps) (50, 50)%Q.
Definition cfg (attempts swaps : Z) : Config :=
  mkConfig (settings attempts) (flow swaps) (Some (mkCrystalSwapSection true)).

Definition wallet : address := "0x00000000000000000000000000000000000A11ce".

Definition instance (attempts swaps : Z) (w3 : Web3) : Instance.CrystalSwap :=
  Instance.mkCrystalSwap 1 "key" (cfg attempts swaps) wallet w3.

Definition crystal (attempts swaps : Z) (w3 : Web3) : Crystal.CrystalSwap :=
  Crystal.mkCrystalSwap 1 "key" (cfg attempts swaps) wallet w3
    Instance.ROUTER_CONTRACT Instance.WMON_CONTRACT Instance.USDC_CONTRACT
    (mkToken "MON" None 18 true)
    (mkToken "USDC" (Some Instance.USDC_CONTRACT) 6 false).

Definition USDC_token : Token := mkToken "USDC" (Some Instance.USDC_CONTRACT) 6 false.

(** 0.0005 MON and 0.005 USDC, whenever asked. *)
Definition poor_node : Web3 :=
  node (fun _ => Ok (5 * 10 ^ 14)) (fun _ => Ok 5000) (fun _ => Ok 0)
       (fun _ => Ok receipt_ok).

(** 1 MON and 50 USDC, whenever asked; no allowance; every transaction is
    confirmed. *)
Definition rich_node : Web3 :=
  node (fun _ => Ok (10 ^ 18)) (fun _ => Ok (50 * 10 ^ 6)) (fun _ => Ok 0)
       (fun _ => Ok receipt_ok).

(** As [rich_node], but a receipt asked for before the clock shows
    [n] reports a revert. *)
Definition reverting_until (n : nat) : Web3 :=
  node (fun _ => Ok (10 ^ 18)) (fun _ => Ok (50 * 10 ^ 6)) (fun _ => Ok 0)
       (fun t => if Nat.ltb t n then Ok receipt_reverted else Ok receipt_ok).

(** A swap of half a MON with two passes allowed, on a node that reports
    the first swap reverted and the second confirmed. *)
Definition retried_swap : Run Outcome :=
  Instance.swap (instance 2 2 (reverting_until 8)) "MON" "USDC" (1 # 2) (1 # 2) 0%nat.

(** A swap of ten USDC with a single pass, on a node that reports the
    approval reverted and the swap confirmed; and the same request to the
    routine of [crystal_swap.py]. *)
Definition swap_after_failed_approval : Run Outcome :=
  Instance.swap (instance 1 2 (reverting_until 9)) "USDC" "MON" 10 (1 # 2) 0%nat.

Definition crystal_after_failed_approval : Run Outcome :=
  Crystal.swap_usdc_to_mon (crystal 1 2 (reverting_until 9)) 10 0%nat.

(** Half a MON through [swap_mon_to_usdc]. *)
Definition crystal_mon_swap : Run Outcome :=
  Crystal.swap_mon_to_usdc (crystal 2 2 rich_node) (1 # 2) 0%nat.

(** The transaction that the first pass of a swap of half a MON broadcasts
    on [rich_node]. *)
Definition mon_swap_tx : Transaction :=
  mkTx wallet (Some Instance.ROUTER_CONTRACT) (Some (5 * 10 ^ 17))
       (swapExactETHForTokens 995000000000000000
          [Some Instance.WMON_CONTRACT; Some Instance.USDC_CONTRACT] wallet 1700003600)
       10143 2 7 (Some 110000) (Some 52) (Some 2).

(** As [rich_node], with the unlimited allowance in place. *)
Definition approved_node : Web3 :=
  node (fun _ => Ok (10 ^ 18)) (fun _ => Ok (50 * 10 ^ 6)) (fun _ => Ok MAX_UINT256)
       (fun _ => Ok receipt_ok).

(** 0.0005 MON and 0.005 USDC when asked before the clock shows [n],
    1 MON and 50 USDC from then on. *)
Definition refilled_at (n : nat) : Web3 :=
  node (fun t => if Nat.ltb t n then Ok (5 * 10 ^ 14) else Ok (10 ^ 18))
       (fun t => if Nat.ltb t n then Ok 5000 else Ok (50 * 10 ^ 6))
       (fun _ => Ok 0) (fun _ => Ok receipt_ok).

(** The balances dictionary after a query of 0.0005 MON and 0.005 USDC. *)
Definition poor_balances : list (string * Q) :=
  [("MON", from_wei_ether (5 * 10 ^ 14)); ("USDC", (float 5000 / float (10 ^ 6))%Q)].

(** No balance query gets through. *)
Definition unreachable_node : Web3 :=
  node refused refused refused (fun _ => Ok receipt_ok).

End Scenario.

(** ** Further event classes and counts *)

(** How many sleeps a trace holds. *)
Definition sleeps (evs : list Event) : nat := List.length (filter is_sleep evs).

(** A mark of a pass or a sleep: what a retry loop itself leaves in a
    trace. *)
Definition is_loop_event (e : Event) : bool := is_attempt e || is_sleep e.

(** A balance call that reaches the node. *)
Definition is_balance_call (e : Event) : bool :=
  match e with
  | EvGetBalance _ | EvBalanceOf _ => true
  | _ => false
  end.

Definition balance_calls (evs : list Event) : nat :=
  List.length (filter is_balance_call evs).

(** The receipt of an approval came back with status 1. *)
Definition confirmed_approval (e : Event) : bool :=
  match e with
  | EvWaitForReceipt tx _ (Ok receipt) =>
      negb (is_router_swap (tx_data tx)) && (status receipt =? 1)
  | _ => false
  end.

(** A swap, and an approval, handed to [send_raw_transaction]. *)
Definition is_swap_broadcast (e : Event) : bool :=
  match e with
  | EvSendRawTransaction tx => is_router_swap (tx_data tx)
  | _ => false
  end.

Definition is_approval_broadcast (e : Event) : bool :=
  match e with
  | EvSendRawTransaction tx => negb (is_router_swap (tx_data tx))
  | _ => false
  end.

Definition is_allowance_query (e : Event) : bool :=
  match e with
  | EvAllowance _ _ => true
  | _ => false
  end.

(** A receipt of a swap, whatever its status. *)
Definition swap_receipt (e : Event) : bool :=
  match e with
  | EvWaitForReceipt tx _ (Ok _) => is_router_swap (tx_data tx)
  | _ => false
  end.

Definition count (p : Event -> bool) (evs : list Event) : nat :=
  List.length (filter p evs).

(** ** Settings that [random.randint] refuses *)

(** An object on [Scenario.rich_node] whose pause between passes is the
    empty range from 3 to 1. *)
Definition hasty_instance (attempts : Z) : Instance.CrystalSwap :=
  Instance.mkCrystalSwap 1 "key"
    (mkConfig (mkSettings attempts (3, 1) (1, 3) (1, 3)) (Scenario.flow 2)
              (Some (mkCrystalSwapSection true)))
    Scenario.wallet Scenario.rich_node.

(** ** Approvals and the swaps that follow them *)

(** The allowance that the token reports at clock [t] covers [amount_wei],
    and falls short of it. *)
Definition allowance_covers (w3 : Web3) (t : nat) (amount_wei : Z) : Prop :=
  exists allowance, token_allowance w3 t = Ok allowance /\ amount_wei <= allowance.

Definition allowance_short (w3 : Web3) (t : nat) (amount_wei : Z) : Prop :=
  exists allowance, token_allowance w3 t = Ok allowance /\ allowance < amount_wei.

(** What [approve_token] returns and the trace it leaves. A hash comes back
    exactly with a confirmed approval; [None] stands for a native token, an
    allowance that suffices, and an approval whose receipt reports a
    revert alike. *)
Definition approve_token_contract (w3 : Web3) (t : nat) (token : Token)
    (amount_wei : Z) (r : res (option string)) (e : list Event) : Prop :=
  (broadcasts e <= 1)%nat /\
  Forall (fun x => is_swap_broadcast x = false) e /\
  (native token = true -> r = Ok None /\ e = []) /\
  (allowance_covers w3 t amount_wei -> e <> [] ->
   r = Ok None /\ broadcasts e = 0%nat) /\
  (Exists (fun x => is_broadcast x = true) e ->
   native token = false /\ allowance_short w3 t amount_wei) /\
  match r with
  | Ok (Some h) =>
      (exists tx_hash, h = to_hex tx_hash) /\
      Exists (fun x => confirmed_approval x = true) e
  | _ => Forall (fun x => confirmed_approval x = false) e
  end.

(** What [approve_usdc] returns and the trace it leaves: a boolean, which
    is [True] exactly when the allowance suffices or the approval that was
    broadcast is confirmed. *)
Definition approve_usdc_contract (w3 : Web3) (t : nat) (amount_wei : Z)
    (r : res bool) (e : list Event) : Prop :=
  (broadcasts e <= 1)%nat /\
  Forall (fun x => is_swap_broadcast x = false) e /\
  (Exists (fun x => is_broadcast x = true) e -> allowance_short w3 t amount_wei) /\
  exists approved,
    r = Ok approved /\
    (approved = true <->
     (allowance_covers w3 t amount_wei /\ broadcasts e = 0%nat) \/
     Exists (fun x => confirmed_approval x = true) e).

(** The broadcasts and receipts that one pass of [swap_usdc_to_mon] may
    leave, in order: at most one swap with its receipt, after no approval
    or after an approval whose receipt has status 1. *)
Definition swap_part (l : list (bool * option Z)) : bool :=
  match l with
  | [] => true
  | [(true, None)] => true
  | [(true, None); (true, Some _)] => true
  | _ => false
  end.

Definition approval_gates_swap (l : list (bool * option Z)) : bool :=
  match l with
  | [(false, None)] => true
  | (false, None) :: (false, Some s) :: l' =>
      if s =? 1 then swap_part l'
      else match l' with [] => true | _ => false end
  | _ => swap_part l
  end.


(** A trace cut at the marks of the passes: what came before the first
    mark, and then the events of each pass, with the sleep that follows
    it. *)
Fixpoint passes (evs : list Event) : list (list Event) :=
  match evs with
  | [] => [[]]
  | EvAttempt _ :: evs' => [] :: passes evs'
  | x :: evs' =>
      match passes evs' with
      | [] => [[x]]
      | pass :: rest => (x :: pass) :: rest
      end
  end.

(** ** What a broadcast transaction carries *)

(** A property of every transaction that a trace hands to
    [send_raw_transaction]. *)
Definition every_broadcast (P : Transaction -> Prop) (e : Event) : Prop :=
  match e with
  | EvSendRawTransaction tx => P tx
  | _ => True
  end.

(** The transactions of [swap] of [instance.py], asked to swap [amount] of
    [token_a] for [token_b]: signed by the account for chain 10143; a swap
    of the native token sends the amount in wei as the value along the path
    from the wrapped token to [token_b]; a swap of another token sends no
    value, names the amount in the token's units and goes along the path
    from that token to the wrapped token, whatever [token_b] is; an
    approval goes to the token and names the router. *)
Definition instance_request (self : Instance.CrystalSwap) (token_a token_b : Token)
    (amount : Q) (tx : Transaction) : Prop :=
  tx_from tx = Instance.account_address self /\
  tx_chainId tx = 10143 /\
  tx_type tx = 2 /\
  match tx_data tx with
  | swapExactETHForTokens _ path to _ =>
      native token_a = true /\
      tx_to tx = Some Instance.ROUTER_CONTRACT /\
      (exists amount_in_wei,
         to_wei_ether amount = Ok amount_in_wei /\ tx_value tx = Some amount_in_wei) /\
      path = [Some Instance.WMON_CONTRACT; token_address token_b] /\
      to = Instance.account_address self
  | swapExactTokensForETH amountIn _ path to _ =>
      native token_a = false /\
      tx_to tx = Some Instance.ROUTER_CONTRACT /\
      tx_value tx = Some 0 /\
      amountIn = int (amount * float (10 ^ decimals token_a))%Q /\
      path = [token_address token_a; Some Instance.WMON_CONTRACT] /\
      to = Instance.account_address self
  | approve spender _ =>
      native token_a = false /\
      tx_to tx = token_address token_a /\
      tx_value tx = None /\
      spender = Instance.ROUTER_CONTRACT
  end.

(** The transactions of [swap_mon_to_usdc] and of [swap_usdc_to_mon],
    called with [amount] at clock [t]: the amount and the deadline, ten
    minutes after the time of the call, are those computed before the first
    pass. *)
Definition crystal_mon_request (self : Crystal.CrystalSwap) (amount : Q) (t : nat)
    (tx : Transaction) : Prop :=
  tx_from tx = Crystal.account_address self /\
  tx_chainId tx = 10143 /\
  tx_type tx = 2 /\
  tx_to tx = Some (Crystal.ROUTER_CONTRACT self) /\
  (exists amount_wei,
     to_wei_ether amount = Ok amount_wei /\ tx_value tx = Some amount_wei) /\
  tx_data tx =
    swapExactETHForTokens 0
      [Some (Crystal.WMON_CONTRACT self); Some (Crystal.USDC_CONTRACT self)]
      (Crystal.account_address self)
      (time_time (Crystal.web3 self) t + 600).

Definition crystal_usdc_request (self : Crystal.CrystalSwap) (amount : Q) (t : nat)
    (tx : Transaction) : Prop :=
  tx_from tx = Crystal.account_address self /\
  tx_chainId tx = 10143 /\
  tx_type tx = 2 /\
  tx_value tx = None /\
  ((tx_to tx = Some (Crystal.USDC_CONTRACT self) /\
    tx_data tx = approve (Crystal.ROUTER_CONTRACT self) (2 ^ 256 - 1))
   \/
   (tx_to tx = Some (Crystal.ROUTER_CONTRACT self) /\
    tx_data tx =
      swapExactTokensForETH (int (amount * float (10 ^ 6))%Q) 0
        [Some (Crystal.USDC_CONTRACT self); Some (Crystal.WMON_CONTRACT self)]
        (Crystal.account_address self)
        (time_time (Crystal.web3 self) t + 600))).

(** A transaction before its gas limit is set, in [instance.py] (the fees
    are set along with the limit) and in [crystal_swap.py] (the fees are in
    place already). *)
Definition before_pricing (tx : Transaction) : Transaction :=
  mkTx (tx_from tx) (tx_to tx) (tx_value tx) (tx_data tx) (tx_chainId tx)
       (tx_type tx) (tx_nonce tx) None None None.

Definition before_gas (tx : Transaction) : Transaction :=
  mkTx (tx_from tx) (tx_to tx) (tx_value tx) (tx_data tx) (tx_chainId tx)
       (tx_type tx) (tx_nonce tx) None (tx_maxFeePerGas tx)
       (tx_maxPriorityFeePerGas tx).

(** The fees of a transaction are the priority fee that the node reported
    and that fee on top of the base fee of the latest block, asked for just
    before. *)
Definition fees_from_node (w3 : Web3) (tx : Transaction) : Prop :=
  exists t base_fee max_priority_fee,
    eth_get_block_baseFeePerGas w3 t = Ok base_fee /\
    eth_max_priority_fee w3 (S t) = Ok max_priority_fee /\
    tx_maxFeePerGas tx = Some (base_fee + max_priority_fee) /\
    tx_maxPriorityFeePerGas tx = Some max_priority_fee.

(** The gas limit in [instance.py]: the node's estimate for this very
    transaction, with a tenth on top. *)
Definition instance_priced (w3 : Web3) (tx : Transaction) : Prop :=
  fees_from_node w3 tx /\
  exists t estimated,
    eth_estimate_gas w3 t (before_pricing tx) = Ok estimated /\
    tx_gas tx = Some (int (float estimated * (11 # 10))%Q).

(** The gas limit in [crystal_swap.py]: the node's estimate with a fifth
    on top, and 200000 where the node gave none. *)
Definition crystal_priced (w3 : Web3) (tx : Transaction) : Prop :=
  fees_from_node w3 tx /\
  exists t,
    tx_gas tx =
      Some match eth_estimate_gas w3 t (before_gas tx) with
           | Ok estimated => int (float estimated * (12 # 10))%Q
           | Raise _ => 200000
           end.

(** No gas estimate gets through. *)
Definition estimates_fail (w3 : Web3) : Prop :=
  forall t tx, exists e, eth_estimate_gas w3 t tx = Raise e.

(** The node refuses, whenever asked, one of the calls that a swap of
    [instance.py] makes before its broadcast: the quote, the latest block,
    the priority fee, the transaction count or the gas estimate. *)
Definition refuses_swap_call (w3 : Web3) : Prop :=
  (forall t amount_in path, exists e, router_getAmountsOut w3 t amount_in path = Raise e) \/
  (forall t, exists e, eth_get_block_baseFeePerGas w3 t = Raise e) \/
  (forall t, exists e, eth_max_priority_fee w3 t = Raise e) \/
  (forall t, exists e, eth_get_transaction_count w3 t = Raise e) \/
  estimates_fail w3.

(** A node as [w3] that answers no gas estimate. *)
Definition without_estimates (w3 : Web3) : Web3 :=
  mkWeb3 (to_checksum_address w3) (contract w3) (encode_rejects w3) (sign_rejects w3)
    (eth_get_balance w3) (usdc_balanceOf w3) (token_allowance w3)
    (router_getAmountsOut w3) (eth_get_block_baseFeePerGas w3)
    (eth_max_priority_fee w3) (eth_get_transaction_count w3)
    (fun _ _ => Raise (Web3Exception "execution reverted"))
    (eth_send_raw_transaction w3) (eth_wait_for_transaction_receipt w3)
    (random_bits w3) (time_time w3).

(** ** What an Outcome reports *)

(** The successful Outcome of [swap] of [instance.py]: it names the two
    tokens and the amount of the request, the hash and the gas used of a
    swap whose receipt has status 1, and as the expected output the last
    amount of a quote, in units of the destination token. *)
Definition reports_swap (token_a token_b : Token) (amount : Q) (e : list Event)
    (o : Outcome) : Prop :=
  success o = true /\
  from_token o = Some (name token_a) /\
  to_token o = Some (name token_b) /\
  amount_in o = Some amount /\
  error o = None /\
  (exists tx h receipt,
     In (EvWaitForReceipt tx h (Ok receipt)) e /\
     is_router_swap (tx_data tx) = true /\
     status receipt = 1 /\
     tx_hash o = Some (to_hex h) /\
     gas_used o = Some (gasUsed receipt)) /\
  (exists amount_in_wei path amounts_out expected,
     In (EvGetAmountsOut amount_in_wei path (Ok amounts_out)) e /\
     last_item amounts_out = Ok expected /\
     expected_out o = Some (float expected / float (10 ^ decimals token_b))%Q).

(** The successful Outcome of the routines of [crystal_swap.py]: the two
    symbols, the amount and the bare hash of the confirmed swap; no expected
    output and no gas. *)
Definition crystal_reports_swap (source destination : string) (amount : Q)
    (e : list Event) (o : Outcome) : Prop :=
  success o = true /\
  from_token o = Some source /\
  to_token o = Some destination /\
  amount_in o = Some amount /\
  expected_out o = None /\
  gas_used o = None /\
  error o = None /\
  exists tx h receipt,
    In (EvWaitForReceipt tx h (Ok receipt)) e /\
    is_router_swap (tx_data tx) = true /\
    status receipt = 1 /\
    tx_hash o = Some (hash_hex h).

(** ** The swaps of a session *)

(** A swap transaction moves at least [mon_floor] wei of MON, or at least
    [usdc_floor] units of USDC. *)
Definition above_dust (mon_floor usdc_floor : Z) (tx : Transaction) : Prop :=
  match tx_data tx with
  | swapExactETHForTokens _ _ _ _ =>
      exists value, tx_value tx = Some value /\ mon_floor <= value
  | swapExactTokensForETH amountIn _ _ _ _ => usdc_floor <= amountIn
  | approve _ _ => True
  end.

(** ** The ranges of a session *)

(** The module is switched on. *)
Definition enabled (cfg : Config) : Prop :=
  exists section, CRYSTAL_SWAP cfg = Some section /\ ENABLED section = true.

(** The three ranges that a session hands to [random.randint] are not
    empty: the pause between passes of a swap, the pause between swaps
    ([RANDOM_PAUSE_BETWEEN_ACTIONS] in [instance.py], [PAUSE_BETWEEN_SWAPS]
    in [crystal_swap.py]) and the number of swaps. *)
Definition range_ok (range : Z * Z) : Prop := fst range <= snd range.

Definition instance_ranges_ok (cfg : Config) : Prop :=
  range_ok (PAUSE_BETWEEN_ATTEMPTS (SETTINGS cfg)) /\
  range_ok (RANDOM_PAUSE_BETWEEN_ACTIONS (SETTINGS cfg)) /\
  range_ok (NUMBER_OF_SWAPS (FLOW cfg)).

Definition crystal_ranges_ok (cfg : Config) : Prop :=
  range_ok (PAUSE_BETWEEN_ATTEMPTS (SETTINGS cfg)) /\
  range_ok (PAUSE_BETWEEN_SWAPS (SETTINGS cfg)) /\
  range_ok (NUMBER_OF_SWAPS (FLOW cfg)).

(** A configuration as [Scenario.cfg], with a range for the number of
    swaps. *)
Definition cfg_with_swaps (attempts : Z) (swaps : Z * Z) : Config :=
  mkConfig (Scenario.settings attempts) (mkFlow swaps (50, 50)%Q)
           (Some (mkCrystalSwapSection true)).

(** What [execute] of [crystal_swap.py] needs beyond its ranges for
    [Web3.to_wei] to accept every amount: MON is the native token, the
    balance that the node reports fits 256 bits, and the percent range lies
    within [0, 100]. *)
Definition balance_fits (w3 : Web3) : Prop :=
  forall t balance_wei, eth_get_balance w3 t = Ok balance_wei -> balance_wei <= MAX_UINT256.

Definition crystal_session_ok (self : Crystal.CrystalSwap) : Prop :=
  crystal_ranges_ok (Crystal.config self) /\
  percent_range_ok (FLOW (Crystal.config self)) /\
  native (Crystal.MON self) = true /\
  balance_fits (Crystal.web3 self).

(** ** The cost of a balance query *)

(** What the node answers to the balance call for [token] at clock [t], in
    units of the token. *)
Definition balance_answer (w3 : Web3) (token : Token) (t : nat) : res Q :=
  if native token
  then match eth_get_balance w3 t with
       | Ok balance_wei => Ok (from_wei_ether balance_wei)
       | Raise e => Raise e
       end
  else match usdc_balanceOf w3 t with
       | Ok balance_wei => Ok (float balance_wei / float (10 ^ decimals token))%Q
       | Raise e => Raise e
       end.

(** A balance call, or a sleep of one second. *)
Definition is_paced_call (e : Event) : bool :=
  match e with
  | EvGetBalance _ | EvBalanceOf _ => true
  | EvSleep seconds => seconds =? 1
  | _ => false
  end.

(** [get_token_balance] of [instance.py] with [budget] passes to go: it
    calls the node at most once a pass and sleeps one second after every
    pass that failed; it returns the first answer that it gets, and 0 when
    the passes are used up. *)
Definition balance_retry_contract (w3 : Web3) (token : Token) (budget : nat)
    (r : res Q) (e : list Event) : Prop :=
  Forall (fun x => is_paced_call x = true) e /\
  (sleeps e <= budget)%nat /\
  (balance_calls e <= budget)%nat /\
  (balance_calls e <= S (sleeps e))%nat /\
  (sleeps e = budget -> r = Ok 0%Q) /\
  ((sleeps e < budget)%nat -> exists t, balance_answer w3 token t = r).

(** The checksum conversion accepts every address. *)
Definition checksum_accepts (w3 : Web3) : Prop :=
  forall a, exists a', to_checksum_address w3 a = Ok a'.

(** A node as [w3] behind a checksum conversion that refuses every
    address. *)
Definition without_checksum (w3 : Web3) : Web3 :=
  mkWeb3 (fun _ => Raise (ValueError "invalid EIP-55 address"))
    (contract w3) (encode_rejects w3) (sign_rejects w3)
    (eth_get_balance w3) (usdc_balanceOf w3) (token_allowance w3)
    (router_getAmountsOut w3) (eth_get_block_baseFeePerGas w3)
    (eth_max_priority_fee w3) (eth_get_transaction_count w3)
    (eth_estimate_gas w3)
    (eth_send_raw_transaction w3) (eth_wait_for_transaction_receipt w3)
    (random_bits w3) (time_time w3).

(** ** How much a swap call may send *)

(** What one call of a swap routine may send, with [limit] passes allowed:
    it makes at most [limit] passes, broadcasts at most one swap and at
    most one approval in each of them, and sees at most one swap
    confirmed. *)
Definition within_budget (limit : nat) (e : list Event) : Prop :=
  (attempts e <= limit)%nat /\
  (count is_swap_broadcast e <= attempts e)%nat /\
  (count is_approval_broadcast e <= attempts e)%nat /\
  (count confirmed_swap e <= 1)%nat.

(** Neither an allowance query nor an approval. *)
Definition no_approval (e : Event) : Prop :=
  is_allowance_query e = false /\ is_approval_broadcast e = false.

(** The same for the routines of [crystal_swap.py], which return on the
    first receipt of a swap, whatever its status. *)
Definition within_crystal_budget (limit : nat) (e : list Event) : Prop :=
  (attempts e <= limit)%nat /\
  (count is_swap_broadcast e <= attempts e)%nat /\
  (count is_approval_broadcast e <= attempts e)%nat /\
  (count swap_receipt e <= 1)%nat.

(** ** How much a session may send *)

(** What a session may send with at most [swaps] swaps of [limit] passes
    each: at most [swaps * limit] passes in all, and no more swaps and no
    more approvals than passes. *)
Definition session_within_budget (swaps limit : nat) (e : list Event) : Prop :=
  (attempts e <= swaps * limit)%nat /\
  (count is_swap_broadcast e <= attempts e)%nat /\
  (count is_approval_broadcast e <= attempts e)%nat.

(** ** The shape of a Swap Intent *)

(** What [_select_swap_pair] may return on balances [mon_balance] and
    [usdc_balance]: no intent; MON for USDC, of at least 0.001 MON and only
    with a MON balance of at least 0.001; USDC for MON, of at least 0.01
    USDC. *)
Definition intent_shape (mon_balance usdc_balance : Q)
    (intent : option string * option string * Q) : Prop :=
  intent = (None, None, 0%Q) \/
  (exists amount,
     intent = (Some "MON", Some "USDC", amount) /\
     (1 # 1000 <= mon_balance)%Q /\ (1 # 1000 <= amount)%Q) \/
  (exists amount,
     intent = (Some "USDC", Some "MON", amount) /\ (1 # 100 <= amount)%Q).

(** The same for the choice that [execute] of [crystal_swap.py] makes. *)
Definition choice_shape (mon_balance usdc_balance : Q)
    (choice : option (bool * Q)) : Prop :=
  match choice with
  | None => True
  | Some (true, amount) => (1 # 1000 <= mon_balance)%Q /\ (1 # 1000 <= amount)%Q
  | Some (false, amount) => (1 # 100 <= amount)%Q
  end.

(** * Proofs *)

Lemma float_lt_spec x y : float_lt x y = true <-> (x < y)%Q.
Proof. unfold float_lt, Qlt. apply Z.ltb_lt. Qed.

(** ** Rules for [wp] *)

Section WpRules.

Context {A B : Type}.
Implicit Types (m : M A) (f : A -> M B).

Lemma wp_bind m f t (Q : res B -> list Event -> nat -> Prop) :
  wp m t (fun r e1 t1 =>
            match r with
            | Ok a => wp (f a) t1 (fun r2 e2 t2 => Q r2 (e1 ++ e2)%list t2)
            | Raise e => Q (Raise e) e1 t1
            end) ->
  wp (bind m f) t Q.
Proof. unfold wp, bind. destruct (result (m t)); trivial. Qed.

Lemma wp_try m t (Q : res (res A) -> list Event -> nat -> Prop) :
  wp m t (fun r e1 t1 => Q (Ok r) e1 t1) -> wp (try_catch m) t Q.
Proof. trivial. Qed.

Lemma wp_conseq m t (Q1 Q2 : res A -> list Event -> nat -> Prop) :
  wp m t Q1 -> (forall r e t1, Q1 r e t1 -> Q2 r e t1) -> wp m t Q2.
Proof. unfold wp. auto. Qed.

End WpRules.

Section WpPrimitives.

Context {A : Type}.
Variable Q : res A -> list Event -> nat -> Prop.

Lemma wp_ret (a : A) t : Q (Ok a) [] t -> wp (ret a) t Q.
Proof. trivial. Qed.

Lemma wp_raise e t : Q (Raise e) [] t -> wp (raise e) t Q.
Proof. trivial. Qed.

Lemma wp_lift (r : res A) t : Q r [] t -> wp (lift r) t Q.
Proof. trivial. Qed.

Lemma wp_await ev (answer : nat -> res A) t :
  Q (answer t) [ev] (S t) -> wp (await ev answer) t Q.
Proof. trivial. Qed.

Lemma wp_await_logged ev (answer : nat -> res A) t :
  Q (answer t) [ev (answer t)] (S t) -> wp (await_logged ev answer) t Q.
Proof. trivial. Qed.

End WpPrimitives.

Lemma wp_sleep secs t (Q : res unit -> list Event -> nat -> Prop) :
  Q (Ok tt) [EvSleep secs] (S t) -> wp (sleep secs) t Q.
Proof. trivial. Qed.

Lemma wp_mark ev t (Q : res unit -> list Event -> nat -> Prop) :
  Q (Ok tt) [ev] t -> wp (mark ev) t Q.
Proof. trivial. Qed.

Lemma wp_int_time w3 t (Q : res Z -> list Event -> nat -> Prop) :
  Q (Ok (time_time w3 t)) [] t -> wp (int_time w3) t Q.
Proof. trivial. Qed.

Lemma wp_random_choice w3 t (Q : res bool -> list Event -> nat -> Prop) :
  Q (Ok (random_bits w3 t mod 2 =? 0)) [] (S t) -> wp (random_choice_True_False w3) t Q.
Proof. trivial. Qed.

Lemma wp_random_random w3 t (Q : res Q -> list Event -> nat -> Prop) :
  Q (Ok (Qmake (random_bits w3 t mod 2 ^ 53) (Z.to_pos (2 ^ 53)))) [] (S t) ->
  wp (random_random w3) t Q.
Proof. trivial. Qed.

Lemma wp_random_randint w3 a b t (Q : res Z -> list Event -> nat -> Prop) :
  (a <= b -> Q (Ok (a + random_bits w3 t mod (b - a + 1))) [] (S t)) ->
  (b < a -> Q (Raise (ValueError "empty range for randrange()")) [] t) ->
  wp (random_randint w3 a b) t Q.
Proof.
  unfold wp, random_randint. destruct (Z.leb_spec a b); cbn [result events now]; auto.
Qed.

Ltac wp_prim :=
  cbv beta match;
  (match goal with
   | |- wp (bind _ _) _ _ => apply wp_bind
   | |- wp (try_catch _) _ _ => apply wp_try
   | |- wp (ret _) _ _ => apply wp_ret
   | |- wp (raise _) _ _ => apply wp_raise
   | |- wp (lift _) _ _ => apply wp_lift
   | |- wp (await _ _) _ _ => apply wp_await
   | |- wp (await_logged _ _) _ _ => apply wp_await_logged
   | |- wp (sleep _) _ _ => apply wp_sleep
   | |- wp (mark _) _ _ => apply wp_mark
   | |- wp (int_time _) _ _ => apply wp_int_time
   | |- wp (random_choice_True_False _) _ _ => apply wp_random_choice
   | |- wp (random_random _) _ _ => apply wp_random_random
   end); cbv beta match.

Ltac wp_use H :=
  cbv beta match; eapply wp_conseq; [ apply H | ]; cbv beta; intros ? ? ?.

Lemma wp_intro {A : Type} (m : M A) t (Q : res A -> list Event -> nat -> Prop) :
  (forall r e t1, r = result (m t) -> e = events (m t) -> t1 = now (m t) -> Q r e t1) ->
  wp m t Q.
Proof. unfold wp. auto. Qed.

Lemma Forall_app_intro {A} (P : A -> Prop) l1 l2 :
  Forall P l1 -> Forall P l2 -> Forall P (l1 ++ l2).
Proof. intros. apply Forall_app. auto. Qed.

Ltac rewrite_tests :=
  repeat match goal with
         | H : (_ =? _) = _ |- _ => rewrite H
         end.

Ltac forall_weaken :=
  match goal with
  | H : Forall _ ?e |- Forall _ ?e =>
      refine (Forall_impl _ _ H);
      let x := fresh "x" in
      intros x; destruct x; cbn;
      first [ reflexivity | discriminate | tauto | congruence ]
  end.

Ltac forall_events :=
  repeat first
    [ assumption
    | apply Forall_nil
    | apply Forall_cons;
      [ first [ reflexivity
              | exact I
              | (cbn; rewrite_tests; reflexivity)
              | (cbn; intros; first [reflexivity | discriminate | congruence])
              | (cbn; auto; fail) ]
      | ]
    | apply Forall_app_intro
    | forall_weaken ].

Section InstanceBalance.
Import Instance.

Lemma get_token_balance_loop_spec self remaining : forall wallet token t,
  wp (get_token_balance_loop self remaining wallet token) t
     (fun r e _ => (exists b, r = Ok b) /\ Forall (fun x => is_balance_query x = true) e).
Proof.
  induction remaining as [|k IH]; intros wallet token t; simpl.
  - wp_prim. split; [eauto | forall_events].
  - destruct (to_checksum_address _ wallet) as [w'|e].
    + repeat wp_prim. destruct (native token); repeat wp_prim.
      * destruct (eth_get_balance _ t); repeat wp_prim.
        -- split; [eauto | forall_events].
        -- wp_use IH. intros [Hr He]. split; [assumption | forall_events].
      * destruct (usdc_balanceOf _ t); repeat wp_prim.
        -- split; [eauto | forall_events].
        -- wp_use IH. intros [Hr He]. split; [assumption | forall_events].
    + repeat wp_prim. wp_use IH. intros [Hr He]. split; [assumption | forall_events].
Qed.

Lemma instance_get_token_balance_spec self wallet token t :
  wp (get_token_balance self wallet token) t
     (fun r e _ => (exists b, r = Ok b) /\ Forall (fun x => is_balance_query x = true) e).
Proof. apply get_token_balance_loop_spec. Qed.

Lemma get_token_balance_loop_unreachable self remaining : forall wallet token t,
  rpc_unreachable (web3 self) ->
  wp (get_token_balance_loop self remaining wallet token) t (fun r _ _ => r = Ok 0%Q).
Proof.
  intros wallet token t Hdown. revert wallet t.
  induction remaining as [|k IH]; intros wallet t; simpl.
  - wp_prim. reflexivity.
  - destruct (Hdown t) as [[e1 H1] [e2 H2]].
    destruct (to_checksum_address _ wallet) as [w'|e].
    + repeat wp_prim. destruct (native token); repeat wp_prim;
        rewrite ?H1, ?H2; repeat wp_prim; apply IH.
    + repeat wp_prim. apply IH.
Qed.

Lemma get_token_balance_loop_zero self remaining : forall wallet token t,
  zero_balance (web3 self) ->
  wp (get_token_balance_loop self (S remaining) wallet token) t
     (fun r _ _ => exists b, r = Ok b /\ (b == 0)%Q).
Proof.
  intros wallet token t [Hsum Hzero]. simpl. rewrite Hsum.
  destruct (Hzero t) as [H1 H2].
  repeat wp_prim. destruct (native token); repeat wp_prim;
    rewrite ?H1, ?H2; repeat wp_prim; eexists; split; try reflexivity.
Qed.

End InstanceBalance.

Section CrystalBalance.
Import Crystal.

Lemma crystal_get_token_balance_spec self token t :
  wp (get_token_balance self token) t
     (fun r e _ => (exists b, r = Ok b) /\ Forall (fun x => is_balance_query x = true) e).
Proof.
  unfold get_token_balance. repeat wp_prim.
  destruct (native token); repeat wp_prim.
  - destruct (eth_get_balance _ t); repeat wp_prim; (split; [eauto | forall_events]).
  - destruct (usdc_balanceOf _ t); repeat wp_prim; (split; [eauto | forall_events]).
Qed.

Lemma crystal_get_token_balance_unreachable self token t :
  rpc_unreachable (web3 self) ->
  wp (get_token_balance self token) t (fun r _ _ => r = Ok 0%Q).
Proof.
  intros Hdown. destruct (Hdown t) as [[e1 H1] [e2 H2]].
  unfold get_token_balance. repeat wp_prim.
  destruct (native token); repeat wp_prim; rewrite ?H1, ?H2; repeat wp_prim; reflexivity.
Qed.

Lemma crystal_get_token_balance_zero self token t :
  zero_balance (web3 self) ->
  wp (get_token_balance self token) t (fun r _ _ => exists b, r = Ok b /\ (b == 0)%Q).
Proof.
  intros [_ Hzero]. destruct (Hzero t) as [H1 H2].
  unfold get_token_balance. repeat wp_prim.
  destruct (native token); repeat wp_prim; rewrite ?H1, ?H2; repeat wp_prim;
    eexists; split; try reflexivity.
Qed.

End CrystalBalance.

(** Symbolic execution of the straight-line bodies. *)
Ltac wp_balance :=
  match goal with
  | |- wp (Instance.get_token_balance ?s ?w ?tok) ?t _ =>
      let r := fresh "r" in
      let e := fresh "e" in
      let t1 := fresh "t" in
      let Hr := fresh "Hbalance" in
      let He := fresh "Hevents" in
      let Hs := fresh "Hspec" in
      apply wp_intro; intros r e t1 Hr He _;
      pose proof (instance_get_token_balance_spec s w tok t) as Hs;
      unfold wp in Hs;
      rewrite <- Hr, <- He in Hs;
      let b := fresh "balance" in
      destruct Hs as [[b ->] Hs]
  | |- wp (Crystal.get_token_balance ?s ?tok) ?t _ =>
      let r := fresh "r" in
      let e := fresh "e" in
      let t1 := fresh "t" in
      let Hr := fresh "Hbalance" in
      let He := fresh "Hevents" in
      let Hs := fresh "Hspec" in
      apply wp_intro; intros r e t1 Hr He _;
      pose proof (crystal_get_token_balance_spec s tok t) as Hs;
      unfold wp in Hs;
      rewrite <- Hr, <- He in Hs;
      let b := fresh "balance" in
      destruct Hs as [[b ->] Hs]
  end.

Ltac wp_unfold :=
  match goal with
  | |- wp (Instance.get_gas_params _) _ _ => unfold Instance.get_gas_params
  | |- wp (Instance.estimate_gas _ _) _ _ => unfold Instance.estimate_gas
  | |- wp (Instance.check_allowance _ _ _ _) _ _ => unfold Instance.check_allowance
  | |- wp (Instance.approve_token _ _ _ _) _ _ => unfold Instance.approve_token
  | |- wp (Instance.wait_for_transaction_receipt _ _ _) _ _ =>
      unfold Instance.wait_for_transaction_receipt
  | |- wp (Crystal.get_gas_params _) _ _ => unfold Crystal.get_gas_params
  | |- wp (Crystal.estimate_gas _ _) _ _ => unfold Crystal.estimate_gas
  | |- wp (Crystal.approve_usdc _ _) _ _ => unfold Crystal.approve_usdc
  | |- wp (Crystal.wait_for_transaction_receipt _ _ _) _ _ =>
      unfold Crystal.wait_for_transaction_receipt
  | |- wp (random_uniform _ _ _) _ _ => unfold random_uniform
  end.

Ltac wp_known x :=
  match goal with
  | H : x = _ |- _ => rewrite H
  end.

Ltac wp_case :=
  match goal with
  | |- match sign_transaction _ _ _ with _ => _ end => unfold sign_transaction
  | |- match encode_transaction_data _ _ with _ => _ end =>
      unfold encode_transaction_data
  | |- match (match ?x with _ => _ end) with _ => _ end =>
      first [ wp_known x | destruct x eqn:? ]
  | |- match ?x with _ => _ end => first [ wp_known x | destruct x eqn:? ]
  | |- wp (match negb ?x with _ => _ end) _ _ =>
      first [ wp_known x | destruct x eqn:? ]; cbn [negb]
  | |- wp (match ?x with _ => _ end) _ _ => first [ wp_known x | destruct x eqn:? ]
  end.

Ltac wp_step :=
  first [ progress cbv beta match
        | progress cbn [negb]
        | wp_prim
        | wp_unfold
        | wp_balance
        | wp_case ].

Ltac wp_run := repeat wp_step.

(** ** The balance query *)

(** C9. [get_token_balance] never raises, in either module: it always returns
    a number. When every balance query fails (the RPC endpoint cannot be
    reached), also after the retries of [instance.py], it returns 0, which is
    what it returns (up to the float comparison [==]) for an account whose
    balance is zero. *)
Theorem get_token_balance_never_raises
    (si : Instance.CrystalSwap) (sc : Crystal.CrystalSwap)
    (wallet_address : address) (token : Token) (t : nat) :
  (exists b, result (Instance.get_token_balance si wallet_address token t) = Ok b) /\
  (exists b, result (Crystal.get_token_balance sc token t) = Ok b) /\
  (rpc_unreachable (Instance.web3 si) ->
   result (Instance.get_token_balance si wallet_address token t) = Ok 0%Q) /\
  (rpc_unreachable (Crystal.web3 sc) ->
   result (Crystal.get_token_balance sc token t) = Ok 0%Q) /\
  (zero_balance (Instance.web3 si) ->
   exists b, result (Instance.get_token_balance si wallet_address token t) = Ok b /\
             (b == 0)%Q) /\
  (zero_balance (Crystal.web3 sc) ->
   exists b, result (Crystal.get_token_balance sc token t) = Ok b /\ (b == 0)%Q).
Proof.
  repeat split.
  - apply (get_token_balance_loop_spec si _ wallet_address token t).
  - apply (crystal_get_token_balance_spec sc token t).
  - intros H. apply (get_token_balance_loop_unreachable si _ _ token t H).
  - intros H. apply (crystal_get_token_balance_unreachable sc token t H).
  - intros H. apply (get_token_balance_loop_zero si _ wallet_address token t H).
  - intros H. apply (crystal_get_token_balance_zero sc token t H).
Qed.

Lemma get_token_balance_never_raises_witness :
  rpc_unreachable Scenario.unreachable_node /\
  result (Instance.get_token_balance (Scenario.instance 3 2 Scenario.unreachable_node)
            Scenario.wallet Scenario.USDC_token 0%nat) = Ok 0%Q /\
  result (Crystal.get_token_balance (Scenario.crystal 3 2 Scenario.unreachable_node)
            Scenario.USDC_token 0%nat) = Ok 0%Q.
Proof.
  assert (Hdown : rpc_unreachable Scenario.unreachable_node).
  { intros t. split; eexists; reflexivity. }
  split; [exact Hdown|].
  destruct (get_token_balance_never_raises
              (Scenario.instance 3 2 Scenario.unreachable_node)
              (Scenario.crystal 3 2 Scenario.unreachable_node)
              Scenario.wallet Scenario.USDC_token 0%nat) as (_ & _ & Hi & Hc & _).
  split; [apply Hi | apply Hc]; exact Hdown.
Defined.

Lemma broadcasts_none evs :
  Forall (fun x => is_broadcast x = false) evs -> broadcasts evs = 0%nat.
Proof.
  unfold broadcasts. induction 1 as [|x l Hx _ IH]; cbn; [reflexivity|].
  rewrite Hx. exact IH.
Qed.

Lemma attempts_none evs :
  Forall (fun x => is_attempt x = false) evs -> attempts evs = 0%nat.
Proof.
  unfold attempts. induction 1 as [|x l Hx _ IH]; cbn; [reflexivity|].
  rewrite Hx. exact IH.
Qed.

Lemma attempts_app l1 l2 : attempts (l1 ++ l2) = (attempts l1 + attempts l2)%nat.
Proof. unfold attempts. rewrite filter_app, length_app. reflexivity. Qed.

Lemma Forall_not_Exists {A : Type} (P : A -> bool) l :
  Forall (fun x => P x = false) l -> Exists (fun x => P x = true) l -> False.
Proof.
  intros HF HE. apply Exists_exists in HE. destruct HE as (x & Hin & Hx).
  rewrite Forall_forall in HF. specialize (HF x Hin). congruence.
Qed.

(** Find the witness of an [Exists] in a trace put together with [++]. *)
Ltac exists_leaf :=
  first
    [ assumption
    | cbn; rewrite_tests; reflexivity ].

Ltac exists_search :=
  lazymatch goal with
  | |- Exists _ (_ ++ _) =>
      first [ apply Exists_app; right; exists_search
            | apply Exists_app; left; exists_search ]
  | |- Exists _ (_ :: _) =>
      first [ apply Exists_cons_hd; solve [exists_leaf]
            | apply Exists_cons_tl; exists_search ]
  | |- Exists _ [] => fail
  | |- Exists _ _ => assumption
  end.

Ltac exists_event := solve [exists_search].

(** Take an [Exists] over a trace apart; the parts known to hold no such
    event are closed. *)
Ltac exists_inv H :=
  repeat match type of H with
         | Exists _ (_ ++ _) => apply Exists_app in H; destruct H as [H|H]
         | Exists _ (_ :: _) => apply Exists_cons in H; destruct H as [H|H]
         | Exists _ [] => inversion H
         end;
  first
    [ assumption
    | discriminate
    | exfalso; eapply Forall_not_Exists; [ | exact H ]; solve [forall_events] ].

Ltac attempts_zero :=
  repeat match goal with
         | H : Forall _ ?l |- context [attempts ?l] =>
             rewrite (attempts_none l) by forall_events
         end.

Section InstanceRetry.

Import Instance.

Variable self : CrystalSwap.
Variables token_from token_to : string.
Variables amount slippage : Q.

Hypothesis pause_ok : pause_range_ok (SETTINGS (config self)).

(** The handler sleeps, or does nothing; it never raises. *)
Lemma swap_handler_spec retry e t :
  wp (swap_handler self retry e) t
     (fun r evs _ =>
        r = Ok tt /\
        if Z.of_nat retry <? ATTEMPTS (SETTINGS (config self)) - 1
        then exists pause,
               evs = [EvSleep pause] /\
               fst (PAUSE_BETWEEN_ATTEMPTS (SETTINGS (config self))) <= pause
                 <= snd (PAUSE_BETWEEN_ATTEMPTS (SETTINGS (config self)))
        else evs = []).
Proof.
  unfold swap_handler.
  destruct (Z.of_nat retry <? ATTEMPTS (SETTINGS (config self)) - 1).
  - wp_prim. apply wp_random_randint.
    + intros Hle. wp_prim. split; [reflexivity|]. eexists. split; [reflexivity|].
      pose proof (Z.mod_pos_bound (random_bits (web3 self) t)
                    (snd (PAUSE_BETWEEN_ATTEMPTS (SETTINGS (config self)))
                     - fst (PAUSE_BETWEEN_ATTEMPTS (SETTINGS (config self))) + 1)).
      lia.
    + intros Hlt. unfold pause_range_ok in pause_ok. lia.
  - wp_prim. split; reflexivity.
Qed.

Lemma swap_handler_quiet retry e t :
  wp (swap_handler self retry e) t
     (fun r evs _ => r = Ok tt /\ Forall (fun x => is_sleep x = true) evs).
Proof.
  eapply wp_conseq; [apply swap_handler_spec|]. cbv beta.
  intros r evs _ [-> H]. split; [reflexivity|].
  destruct (Z.of_nat retry <? _); [destruct H as (p & -> & _) | subst]; forall_events.
Qed.

(** What one pass through the [try] block can come to. *)
Lemma swap_attempt_spec t :
  wp (swap_attempt self token_from token_to amount slippage) t
     (fun r e _ =>
        Forall (fun x => is_attempt x = false) e /\
        match r with
        | Ok (Return o) =>
            success o = true /\
            (exists h, tx_hash o = Some (to_hex h)) /\
            Exists (fun x => confirmed_swap x = true) e
        | _ => Forall (fun x => confirmed_swap x = false) e
        end).
Proof.
  unfold swap_attempt. wp_run.
  all: split; [forall_events|].
  all: try solve [forall_events].
  all: repeat split; try (eexists; reflexivity).
  all: exists_event.
Qed.

Lemma swap_loop_spec left : forall retry t,
  wp (swap_loop self left retry token_from token_to amount slippage) t
     (fun r e _ =>
        (attempts e <= left)%nat /\
        exists o, r = Ok o /\
          (success o = false -> error o = Some "Max retry attempts reached") /\
          (success o = true -> exists h, tx_hash o = Some (to_hex h)) /\
          (success o = true <-> Exists (fun x => confirmed_swap x = true) e)).
Proof.
  induction left as [|left' IH]; intros retry t; cbn [swap_loop].
  - wp_prim. split; [cbn; lia|]. eexists. split; [reflexivity|]. cbn.
    repeat split; try discriminate; auto.
    intros H. inversion H.
  - repeat wp_prim. wp_use swap_attempt_spec. intros [Hmark Hr].
    destruct r as [[o|]|x]; cbv beta match.
    + wp_prim. destruct Hr as (Hs & Hh & Hc).
      split.
      { rewrite !attempts_app. attempts_zero. cbn. lia. }
      exists o. split; [reflexivity|]. repeat split; auto; try congruence.
      intros _. exists_event.
    + wp_use IH. intros (Hcount & o & -> & Hf & Hh & Hc).
      split.
      { rewrite !attempts_app. attempts_zero. cbn in *. lia. }
      exists o. split; [reflexivity|]. repeat split; auto.
      * intros Hs. apply Hc in Hs. exists_event.
      * intros Hex. apply Hc. exists_inv Hex.
    + wp_prim. wp_use swap_handler_quiet. intros [-> Hq].
      wp_use IH. intros (Hcount & o & -> & Hf & Hh & Hc).
      split.
      { rewrite !attempts_app. attempts_zero. cbn in *. lia. }
      exists o. split; [reflexivity|]. repeat split; auto.
      * intros Hs. apply Hc in Hs. exists_event.
      * intros Hex. apply Hc. exists_inv Hex.
Qed.

Hypothesis short :
  forall token_a t' b,
    dict_get AVAILABLE_TOKENS token_from = Ok token_a ->
    result (get_token_balance self (account_address self) token_a t') = Ok b ->
    (b < amount)%Q.

Lemma swap_attempt_short t :
  wp (swap_attempt self token_from token_to amount slippage) t
     (fun r e _ => (exists x, r = Raise x) /\ Forall (fun x => is_broadcast x = false) e).
Proof.
  unfold swap_attempt.
  repeat (lazymatch goal with
          | |- wp (if float_lt _ _ then _ else _) _ _ => fail
          | _ => wp_step
          end).
  1: destruct (float_lt balance amount) eqn:Hlt.
  1: { wp_prim. split; [eauto | forall_events]. }
  1: { exfalso. symmetry in Hbalance. apply (short _ _ _ eq_refl) in Hbalance.
       apply float_lt_spec in Hbalance. congruence. }
  all: split; [eauto | forall_events].
Qed.

Lemma swap_loop_short left : forall retry t,
  wp (swap_loop self left retry token_from token_to amount slippage) t
     (fun r e _ => (exists o, r = Ok o /\ success o = false) /\
                   Forall (fun x => is_broadcast x = false) e).
Proof.
  induction left as [|left' IH]; intros retry t; cbn [swap_loop].
  - wp_prim. split; [eexists; split; reflexivity | forall_events].
  - repeat wp_prim. wp_use swap_attempt_short. intros [[x ->] He].
    wp_prim. wp_use swap_handler_quiet. intros [-> Hh].
    wp_use IH. intros [Hr He'].
    split; [assumption | forall_events].
Qed.

End InstanceRetry.

Lemma to_hex_not_empty h : to_hex h <> "".
Proof. unfold to_hex. cbn. discriminate. Qed.

Lemma hex_digits_not_empty n z : hex_digits (S n) z <> "".
Proof.
  cbn [hex_digits]. destruct (hex_digits n (z / 16)); cbn; discriminate.
Qed.

(** ** [swap] of [instance.py] *)





Section CrystalRetry.

Import Crystal.

Variable self : CrystalSwap.

Hypothesis pause_ok : pause_range_ok (SETTINGS (config self)).

Lemma crystal_swap_handler_spec attempt e t :
  wp (swap_handler self attempt e) t
     (fun r evs _ =>
        r = Ok tt /\
        if Z.of_nat attempt <? ATTEMPTS (SETTINGS (config self)) - 1
        then exists pause,
               evs = [EvSleep pause] /\
               fst (PAUSE_BETWEEN_ATTEMPTS (SETTINGS (config self))) <= pause
                 <= snd (PAUSE_BETWEEN_ATTEMPTS (SETTINGS (config self)))
        else evs = []).
Proof.
  unfold swap_handler.
  destruct (Z.of_nat attempt <? ATTEMPTS (SETTINGS (config self)) - 1).
  - wp_prim. apply wp_random_randint.
    + intros Hle. wp_prim. split; [reflexivity|]. eexists. split; [reflexivity|].
      pose proof (Z.mod_pos_bound (random_bits (web3 self) t)
                    (snd (PAUSE_BETWEEN_ATTEMPTS (SETTINGS (config self)))
                     - fst (PAUSE_BETWEEN_ATTEMPTS (SETTINGS (config self))) + 1)).
      lia.
    + intros Hlt. unfold pause_range_ok in pause_ok. lia.
  - wp_prim. split; reflexivity.
Qed.

Lemma crystal_swap_handler_quiet attempt e t :
  wp (swap_handler self attempt e) t
     (fun r evs _ => r = Ok tt /\ Forall (fun x => is_sleep x = true) evs).
Proof.
  eapply wp_conseq; [apply crystal_swap_handler_spec|]. cbv beta.
  intros r evs _ [-> H]. split; [reflexivity|].
  destruct (Z.of_nat attempt <? _); [destruct H as (p & -> & _) | subst]; forall_events.
Qed.

Ltac first_receipt_leaf :=
  split; [forall_events|];
  first
    [ split; solve [forall_events]
    | left; split; [reflexivity|];
      split; [eexists; reflexivity|];
      split; [exists_event | forall_events]
    | right; split; [reflexivity|];
      split; [eexists; split; [reflexivity | discriminate] | forall_events] ].

Lemma swap_mon_to_usdc_attempt_spec amount amount_wei path deadline t :
  wp (swap_mon_to_usdc_attempt self amount amount_wei path deadline) t
     (fun r e _ => first_receipt_decides r e).
Proof.
  unfold swap_mon_to_usdc_attempt, first_receipt_decides. wp_run.
  all: first_receipt_leaf.
Qed.

Lemma swap_usdc_to_mon_attempt_spec amount amount_wei path deadline t :
  wp (swap_usdc_to_mon_attempt self amount amount_wei path deadline) t
     (fun r e _ => first_receipt_decides r e).
Proof.
  unfold swap_usdc_to_mon_attempt, first_receipt_decides. wp_run.
  all: first_receipt_leaf.
Qed.

Lemma loop_decides_step (body : M Outcome)
    (rest : nat -> nat -> M Outcome) (left attempt : nat) (t : nat) :
  (forall t', wp body t' (fun r e _ => first_receipt_decides r e)) ->
  (forall a t', wp (rest left a) t' (fun r e _ => loop_decides left r e)) ->
  wp (mark (EvAttempt attempt) ;;
      r <- try_catch body ;;
      match r with
      | Ok outcome => ret outcome
      | Raise e => swap_handler self attempt e ;; rest left (S attempt)
      end) t
     (fun r e _ => loop_decides (S left) r e).
Proof.
  intros Hbody Hrest. unfold loop_decides.
  repeat wp_prim. wp_use Hbody. intros [Hmark Hr].
  destruct r as [o|x]; cbv beta match.
  - wp_prim. split.
    { rewrite !attempts_app. attempts_zero. cbn. lia. }
    exists o. split; [reflexivity|].
    destruct Hr as [(Hs & Hh & Hc & Hrev) | (Hs & Hmsg & Hc)].
    + repeat split; auto; try congruence.
      * intros _. exists_event.
      * intros Hex. exfalso. exists_inv Hex.
    + repeat split; auto; try congruence.
      intros Hex. exfalso. exists_inv Hex.
  - destruct Hr as [Hc Hrev].
    wp_prim. wp_use crystal_swap_handler_quiet. intros [-> Hq].
    wp_use Hrest. intros (Hcount & o & -> & Hconf & Hh & Hre & Hmsg).
    split.
    { rewrite !attempts_app. attempts_zero. cbn in *. lia. }
    exists o. split; [reflexivity|]. repeat split; auto.
    + intros Hs. apply Hconf in Hs. exists_event.
    + intros Hex. apply Hconf. exists_inv Hex.
    + intros Hex. apply Hre. exists_inv Hex.
Qed.

Lemma loop_decides_done t :
  wp (ret (failure "All attempts failed")) t (fun r e _ => loop_decides 0 r e).
Proof.
  wp_prim. split; [cbn; lia|]. eexists. split; [reflexivity|]. cbn.
  repeat split; try discriminate; auto.
  - intros H. inversion H.
  - intros _. eexists. split; [reflexivity | discriminate].
Qed.

Lemma swap_mon_to_usdc_loop_spec amount amount_wei path deadline left :
  forall attempt t,
    wp (swap_mon_to_usdc_loop self left attempt amount amount_wei path deadline) t
       (fun r e _ => loop_decides left r e).
Proof.
  induction left as [|left' IH]; intros attempt t; cbn [swap_mon_to_usdc_loop].
  - apply loop_decides_done.
  - apply (loop_decides_step _
             (fun l a => swap_mon_to_usdc_loop self l a amount amount_wei path deadline)).
    + intros t'. apply swap_mon_to_usdc_attempt_spec.
    + exact IH.
Qed.

Lemma swap_usdc_to_mon_loop_spec amount amount_wei path deadline left :
  forall attempt t,
    wp (swap_usdc_to_mon_loop self left attempt amount amount_wei path deadline) t
       (fun r e _ => loop_decides left r e).
Proof.
  induction left as [|left' IH]; intros attempt t; cbn [swap_usdc_to_mon_loop].
  - apply loop_decides_done.
  - apply (loop_decides_step _
             (fun l a => swap_usdc_to_mon_loop self l a amount amount_wei path deadline)).
    + intros t'. apply swap_usdc_to_mon_attempt_spec.
    + exact IH.
Qed.

End CrystalRetry.

(** ** Receipts and Outcomes *)




(** ** The pause between passes *)

Section InstanceBackoff.

Import Instance.

Variable self : CrystalSwap.
Variables token_from token_to : string.
Variables amount slippage : Q.

Hypothesis pause_ok : pause_range_ok (SETTINGS (config self)).

Lemma swap_loop_unfold left retry t :
  Z.of_nat retry < ATTEMPTS (SETTINGS (config self)) - 1 ->
  match result (swap_attempt self token_from token_to amount slippage t) with
  | Raise _ =>
      backs_off (SETTINGS (config self)) retry
        (events (swap_attempt self token_from token_to amount slippage t))
        (events (swap_loop self (S left) retry token_from token_to amount slippage t))
        (fun t' =>
           events (swap_loop self left (S retry) token_from token_to amount slippage t'))
  | Ok Continue =>
      events (swap_loop self (S left) retry token_from token_to amount slippage t)
      = EvAttempt retry
          :: events (swap_attempt self token_from token_to amount slippage t)
          ++ events (swap_loop self left (S retry) token_from token_to amount slippage
                       (now (swap_attempt self token_from token_to amount slippage t)))
  | Ok (Return _) =>
      events (swap_loop self (S left) retry token_from token_to amount slippage t)
      = EvAttempt retry
          :: events (swap_attempt self token_from token_to amount slippage t)
  end.
Proof.
  intros Hnotlast.
  assert (Htest : (Z.of_nat retry <? ATTEMPTS (SETTINGS (config self)) - 1) = true)
    by (apply Z.ltb_lt; exact Hnotlast).
  change (wp (swap_loop self (S left) retry token_from token_to amount slippage) t
            (fun _ e _ =>
               match result (swap_attempt self token_from token_to amount slippage t) with
               | Raise _ =>
                   backs_off (SETTINGS (config self)) retry
                     (events (swap_attempt self token_from token_to amount slippage t))
                     e
                     (fun t' =>
                        events (swap_loop self left (S retry) token_from token_to
                                  amount slippage t'))
               | Ok Continue =>
                   e = EvAttempt retry
                       :: events (swap_attempt self token_from token_to amount slippage t)
                       ++ events (swap_loop self left (S retry) token_from token_to
                                    amount slippage
                                    (now (swap_attempt self token_from token_to amount
                                            slippage t)))
               | Ok (Return _) =>
                   e = EvAttempt retry
                       :: events (swap_attempt self token_from token_to amount slippage t)
               end)).
  cbn [swap_loop]. repeat wp_prim.
  apply wp_intro. intros r e t1 Hr He Ht1. rewrite <- Hr.
  destruct r as [[o|]|x]; cbv beta match.
  - wp_prim. subst e. cbn [app]. rewrite app_nil_r. reflexivity.
  - apply wp_intro. intros r2 e2 t2 _ He2 _. subst. reflexivity.
  - wp_prim. wp_use (swap_handler_spec self pause_ok). intros [-> Hh].
    rewrite Htest in Hh.
    destruct Hh as (pause & -> & Hrange).
    apply wp_intro. intros r' e' t2 _ He' _.
    exists pause. eexists. split; [exact Hrange|]. subst. cbn [app]. reflexivity.
Qed.

End InstanceBackoff.

Section CrystalBackoff.

Import Crystal.

Variable self : CrystalSwap.

Hypothesis pause_ok : pause_range_ok (SETTINGS (config self)).

Lemma crystal_loop_unfold (body rest : M Outcome) attempt t :
  Z.of_nat attempt < ATTEMPTS (SETTINGS (config self)) - 1 ->
  wp (mark (EvAttempt attempt) ;;
      r <- try_catch body ;;
      match r with
      | Ok outcome => ret outcome
      | Raise e => swap_handler self attempt e ;; rest
      end) t
     (fun _ e _ =>
        match result (body t) with
        | Raise _ =>
            backs_off (SETTINGS (config self)) attempt (events (body t)) e
              (fun t' => events (rest t'))
        | Ok _ => e = EvAttempt attempt :: events (body t)
        end).
Proof.
  intros Hnotlast.
  assert (Htest : (Z.of_nat attempt <? ATTEMPTS (SETTINGS (config self)) - 1) = true)
    by (apply Z.ltb_lt; exact Hnotlast).
  repeat wp_prim.
  apply wp_intro. intros r e t1 Hr He Ht1. rewrite <- Hr.
  destruct r as [o|x]; cbv beta match.
  - wp_prim. subst e. cbn [app]. rewrite app_nil_r. reflexivity.
  - wp_prim. wp_use (crystal_swap_handler_spec self pause_ok). intros [-> Hh].
    rewrite Htest in Hh. destruct Hh as (pause & -> & Hrange).
    apply wp_intro. intros r' e' t2 _ He' _.
    exists pause. eexists. split; [exact Hrange|]. subst. cbn [app]. reflexivity.
Qed.

End CrystalBackoff.




(** ** The minimum output *)

(** Take a membership in a trace put together with [++] apart. *)
Ltac in_inv H :=
  repeat match type of H with
         | In _ (_ ++ _) => apply in_app_or in H; destruct H as [H|H]
         | In _ (_ :: _) => destruct H as [H|H]
         | In _ [] => destruct H
         end.

Ltac in_search :=
  lazymatch goal with
  | |- In _ (_ ++ _) =>
      first [ apply in_or_app; left; in_search | apply in_or_app; right; in_search ]
  | |- In _ (_ :: _) => first [ left; reflexivity | right; in_search ]
  | |- In _ [] => fail
  | |- In _ _ => assumption
  end.

Lemma balance_query_not_broadcast e tx :
  Forall (fun x => is_balance_query x = true) e -> In (EvSendRawTransaction tx) e -> False.
Proof.
  intros HF Hin. rewrite Forall_forall in HF. specialize (HF _ Hin). discriminate.
Qed.

Ltac floor_leaf :=
  let tx := fresh "tx" in
  let Hin := fresh "Hin" in
  let Hswap := fresh "Hswap" in
  intros tx Hin Hswap; in_inv Hin;
  try discriminate Hin;
  try (exfalso; eapply balance_query_not_broadcast; eassumption);
  try (injection Hin as <-; cbn in Hswap;
       first
         [ discriminate Hswap
         | do 4 eexists; split; [ in_search | split; [ eassumption | reflexivity ] ] ]).

Lemma swap_attempt_floor self token_from token_to amount slippage t :
  wp (Instance.swap_attempt self token_from token_to amount slippage) t
     (fun _ e _ =>
        forall tx,
          In (EvSendRawTransaction tx) e ->
          is_router_swap (tx_data tx) = true ->
          exists amount_in path amounts_out expected_out,
            In (EvGetAmountsOut amount_in path (Ok amounts_out)) e /\
            last_item amounts_out = Ok expected_out /\
            amountOutMin_of (tx_data tx) = Some (slippage_floor expected_out slippage)).
Proof.
  unfold Instance.swap_attempt. wp_run.
  all: floor_leaf.
Qed.

Section CrystalFloor.

Import Crystal.

Variable self : CrystalSwap.

Lemma crystal_swap_handler_sleeps attempt e t :
  wp (swap_handler self attempt e) t
     (fun _ evs _ => Forall (fun x => is_sleep x = true) evs).
Proof.
  unfold swap_handler. destruct (Z.of_nat attempt <? _).
  - wp_prim. apply wp_random_randint; intros _; repeat wp_prim; forall_events.
  - wp_prim. forall_events.
Qed.

Lemma swap_mon_to_usdc_attempt_floor amount amount_wei path deadline t :
  wp (swap_mon_to_usdc_attempt self amount amount_wei path deadline) t
     (fun _ e _ => Forall zero_floor_no_quote e).
Proof. unfold swap_mon_to_usdc_attempt. wp_run. all: forall_events. Qed.

Lemma swap_usdc_to_mon_attempt_floor amount amount_wei path deadline t :
  wp (swap_usdc_to_mon_attempt self amount amount_wei path deadline) t
     (fun _ e _ => Forall zero_floor_no_quote e).
Proof. unfold swap_usdc_to_mon_attempt. wp_run. all: forall_events. Qed.

Lemma crystal_loop_floor (body rest : M Outcome) attempt t :
  (forall t', wp body t' (fun _ e _ => Forall zero_floor_no_quote e)) ->
  (forall t', wp rest t' (fun _ e _ => Forall zero_floor_no_quote e)) ->
  wp (mark (EvAttempt attempt) ;;
      r <- try_catch body ;;
      match r with
      | Ok outcome => ret outcome
      | Raise e => swap_handler self attempt e ;; rest
      end) t
     (fun _ e _ => Forall zero_floor_no_quote e).
Proof.
  intros Hbody Hrest. repeat wp_prim. wp_use Hbody. intros He.
  destruct r as [o|x]; cbv beta match.
  - wp_prim. forall_events.
  - wp_prim. wp_use crystal_swap_handler_sleeps. intros Hs.
    destruct r; cbv beta match; [| forall_events].
    wp_use Hrest. intros Hr. forall_events.
Qed.

Lemma swap_mon_to_usdc_loop_floor amount amount_wei path deadline left :
  forall attempt t,
    wp (swap_mon_to_usdc_loop self left attempt amount amount_wei path deadline) t
       (fun _ e _ => Forall zero_floor_no_quote e).
Proof.
  induction left as [|left' IH]; intros attempt t; cbn [swap_mon_to_usdc_loop].
  - wp_prim. forall_events.
  - apply crystal_loop_floor; [intros; apply swap_mon_to_usdc_attempt_floor | apply IH].
Qed.

Lemma swap_usdc_to_mon_loop_floor amount amount_wei path deadline left :
  forall attempt t,
    wp (swap_usdc_to_mon_loop self left attempt amount amount_wei path deadline) t
       (fun _ e _ => Forall zero_floor_no_quote e).
Proof.
  induction left as [|left' IH]; intros attempt t; cbn [swap_usdc_to_mon_loop].
  - wp_prim. forall_events.
  - apply crystal_loop_floor; [intros; apply swap_usdc_to_mon_attempt_floor | apply IH].
Qed.

End CrystalFloor.




(** ** Approvals *)

(** C6 at a failing input. The source token is USDC, the allowance is 0 and
    the receipt of the approval has status 0. [swap] of [instance.py] drops
    what [approve_token] returns and goes on: the swap is broadcast, and
    here it even succeeds. [swap_usdc_to_mon] of [crystal_swap.py] stops at
    the failed approval. *)
Lemma swap_broadcast_after_failed_approval :
  ledger (events Scenario.swap_after_failed_approval)
    = [(false, None); (false, Some 0); (true, None); (true, Some 1)] /\
  succeeded (result Scenario.swap_after_failed_approval) = true /\
  ledger (events Scenario.crystal_after_failed_approval)
    = [(false, None); (false, Some 0)] /\
  result Scenario.crystal_after_failed_approval = Ok (failure "Approval failed").
Proof. repeat split; vm_compute; reflexivity. Qed.

Lemma approve_token_unlimited self token amount_wei spender t :
  wp (Instance.approve_token self token amount_wei spender) t
     (fun _ e _ => Forall (unlimited_approval spender) e).
Proof. wp_run. all: forall_events. Qed.

Lemma approve_usdc_unlimited self amount_wei t :
  wp (Crystal.approve_usdc self amount_wei) t
     (fun _ e _ => Forall (unlimited_approval (Crystal.ROUTER_CONTRACT self)) e).
Proof. wp_run. all: forall_events. Qed.

Lemma approve_token_settled self token amount_wei spender t :
  (forall t', token_allowance (Instance.web3 self) t' = Ok MAX_UINT256) ->
  amount_wei <= MAX_UINT256 ->
  wp (Instance.approve_token self token amount_wei spender) t
     (fun _ e _ => Forall (fun x => is_broadcast x = false) e).
Proof.
  intros Hallow Hle. apply Z.leb_le in Hle.
  unfold Instance.approve_token.
  destruct (native token); [wp_prim; forall_events|].
  wp_prim. unfold Instance.check_allowance. repeat wp_prim.
  destruct (contract _ _); cbv beta match; [| forall_events].
  repeat wp_prim. rewrite Hallow. repeat wp_prim. rewrite Hle.
  repeat wp_prim. forall_events.
Qed.

Lemma approve_usdc_settled self amount_wei t :
  (forall t', token_allowance (Crystal.web3 self) t' = Ok MAX_UINT256) ->
  amount_wei <= MAX_UINT256 ->
  wp (Crystal.approve_usdc self amount_wei) t
     (fun r e _ => r = Ok true /\ Forall (fun x => is_broadcast x = false) e).
Proof.
  intros Hallow Hle. apply Z.leb_le in Hle.
  unfold Crystal.approve_usdc. repeat wp_prim. rewrite Hallow.
  repeat wp_prim. rewrite Hle. repeat wp_prim. split; [reflexivity | forall_events].
Qed.

(** C10. An approval transaction, whenever one is broadcast by
    [approve_token] or by [approve_usdc], grants the spender (the router)
    [2^256 - 1], whatever the amount of the pending swap. Once the allowance
    that the token reports is that value, neither routine broadcasts an
    approval again, for any amount that fits 256 bits. *)
Theorem approval_is_unlimited
    (si : Instance.CrystalSwap) (sc : Crystal.CrystalSwap)
    (token : Token) (amount_wei : Z) (spender : address) (t : nat) :
  Forall (unlimited_approval spender)
    (events (Instance.approve_token si token amount_wei spender t)) /\
  Forall (unlimited_approval (Crystal.ROUTER_CONTRACT sc))
    (events (Crystal.approve_usdc sc amount_wei t)) /\
  ((forall t', token_allowance (Instance.web3 si) t' = Ok MAX_UINT256) ->
   amount_wei <= MAX_UINT256 ->
   broadcasts (events (Instance.approve_token si token amount_wei spender t)) = 0%nat) /\
  ((forall t', token_allowance (Crystal.web3 sc) t' = Ok MAX_UINT256) ->
   amount_wei <= MAX_UINT256 ->
   broadcasts (events (Crystal.approve_usdc sc amount_wei t)) = 0%nat /\
   result (Crystal.approve_usdc sc amount_wei t) = Ok true).
Proof.
  split; [|split; [|split]].
  - apply (approve_token_unlimited si token amount_wei spender t).
  - apply (approve_usdc_unlimited sc amount_wei t).
  - intros Hallow Hle. apply broadcasts_none.
    apply (approve_token_settled si token amount_wei spender t Hallow Hle).
  - intros Hallow Hle.
    destruct (approve_usdc_settled sc amount_wei t Hallow Hle) as [Hr He].
    split; [apply broadcasts_none; exact He | exact Hr].
Qed.

Lemma approval_is_unlimited_witness :
  broadcasts (events (Instance.approve_token (Scenario.instance 2 2 Scenario.approved_node)
                        Scenario.USDC_token (10 * 10 ^ 6) Instance.ROUTER_CONTRACT
                        0%nat)) = 0%nat /\
  broadcasts (events (Crystal.approve_usdc (Scenario.crystal 2 2 Scenario.approved_node)
                        (10 * 10 ^ 6) 0%nat)) = 0%nat.
Proof.
  destruct (approval_is_unlimited
              (Scenario.instance 2 2 Scenario.approved_node)
              (Scenario.crystal 2 2 Scenario.approved_node)
              Scenario.USDC_token (10 * 10 ^ 6) Instance.ROUTER_CONTRACT 0%nat)
    as (_ & _ & Hi & Hc).
  split.
  - apply Hi; [intros; reflexivity | vm_compute; discriminate].
  - apply Hc; [intros; reflexivity | vm_compute; discriminate].
Defined.

(** ** The amount of a Swap Intent *)

Lemma random_unit_interval (bits : Z) :
  (0 <= Qmake (bits mod 2 ^ 53) (Z.to_pos (2 ^ 53)) <= 1)%Q.
Proof.
  pose proof (Z.mod_pos_bound bits (2 ^ 53) ltac:(reflexivity)) as H.
  unfold Qle. cbn [Qnum Qden]. change (Z.pos (Z.to_pos (2 ^ 53))) with (2 ^ 53).
  split; lia.
Qed.

Lemma percent_within (lo hi r : Q) :
  (0 <= lo <= 100)%Q -> (0 <= hi <= 100)%Q -> (0 <= r <= 1)%Q ->
  (0 <= lo + (hi - lo) * r <= 100)%Q.
Proof. intros [? ?] [? ?] [? ?]. split; nra. Qed.

Lemma share_within (balance percent : Q) :
  (0 <= percent <= 100)%Q ->
  (1 # 1000 <= balance * (percent / 100))%Q ->
  (balance * (percent / 100) <= balance)%Q.
Proof.
  intros [Hlo Hhi] Hdust.
  assert (Hq : (0 <= percent / 100 <= 1)%Q).
  { unfold Qdiv. change (/ 100)%Q with (1 # 100)%Q. split; lra. }
  revert Hdust Hq. generalize (percent / 100)%Q. intros q Hdust [Hq0 Hq1].
  assert (Hpos : (0 <= balance)%Q).
  { destruct (Qlt_le_dec balance 0) as [Hneg|]; [|assumption]. exfalso.
    assert ((balance * q <= 0)%Q) by nra. lra. }
  nra.
Qed.

Lemma float_lt_false x y : float_lt x y = false -> (y <= x)%Q.
Proof. unfold float_lt, Qle. intros H. apply Z.ltb_ge in H. exact H. Qed.

Ltac intent_leaf Hrange :=
  match goal with
  | Hp : PERCENT_OF_BALANCE_TO_SWAP _ = (_, _) |- _ =>
      unfold percent_range_ok in Hrange; rewrite Hp in Hrange;
      cbn [fst snd] in Hrange; destruct Hrange as [? ?]
  end;
  match goal with
  | Hd : float_lt (_ * (_ / 100)) _ = false |- _ =>
      apply float_lt_false in Hd;
      apply share_within;
      [ apply percent_within;
        [ assumption | assumption | exact (random_unit_interval _) ]
      | first [ exact Hd
              | eapply Qle_trans; [ | exact Hd ]; vm_compute; discriminate ] ]
  end.

Lemma select_swap_pair_bound self token_balances t :
  percent_range_ok (FLOW (Instance.config self)) ->
  wp (Instance._select_swap_pair self token_balances) t
     (fun r _ _ =>
        forall token_from token_to amount,
          r = Ok (Some token_from, Some token_to, amount) ->
          exists balance,
            dict_get token_balances token_from = Ok balance /\
            (amount <= balance)%Q).
Proof.
  intros Hrange. unfold Instance._select_swap_pair. wp_run.
  all: intros token_from token_to amount Hr; try discriminate Hr.
  all: injection Hr as <- <- <-; try discriminate.
  all: eexists; split; [eassumption|].
  all: intent_leaf Hrange.
Qed.

Lemma choose_swap_bound self mon_balance usdc_balance t :
  percent_range_ok (FLOW (Crystal.config self)) ->
  wp (Crystal.choose_swap self mon_balance usdc_balance) t
     (fun r _ _ =>
        forall swap_mon amount,
          r = Ok (Some (swap_mon, amount)) ->
          (amount <= (if swap_mon : bool then mon_balance else usdc_balance))%Q).
Proof.
  intros Hrange. unfold Crystal.choose_swap. wp_run.
  all: intros swap_mon amount Hr; try discriminate Hr.
  all: injection Hr as <- <-.
  all: intent_leaf Hrange.
Qed.

(** C8. With both ends of the percent-of-balance range within [0, 100], the
    amount of a Swap Intent is at most the balance of its source token as
    it was queried for the selection: for the triple that
    [_select_swap_pair] returns, and for the amount that [execute] of
    [crystal_swap.py] hands to a swap routine. *)
Theorem swap_amount_within_balance
    (si : Instance.CrystalSwap) (sc : Crystal.CrystalSwap)
    (token_balances : list (string * Q)) (mon_balance usdc_balance : Q) (t : nat) :
  percent_range_ok (FLOW (Instance.config si)) ->
  percent_range_ok (FLOW (Crystal.config sc)) ->
  (forall token_from token_to amount,
     result (Instance._select_swap_pair si token_balances t)
       = Ok (Some token_from, Some token_to, amount) ->
     exists balance,
       dict_get token_balances token_from = Ok balance /\ (amount <= balance)%Q) /\
  (forall swap_mon amount,
     result (Crystal.choose_swap sc mon_balance usdc_balance t)
       = Ok (Some (swap_mon, amount)) ->
     (amount <= (if swap_mon : bool then mon_balance else usdc_balance))%Q).
Proof.
  intros Hi Hc. split.
  - apply (select_swap_pair_bound si token_balances t Hi).
  - apply (choose_swap_bound sc mon_balance usdc_balance t Hc).
Qed.

Lemma swap_amount_within_balance_witness :
  exists balance,
    dict_get [("MON", 1%Q); ("USDC", 50%Q)] "MON" = Ok balance /\
    (1 * (50 / 100) <= balance)%Q.
Proof.
  assert (Hrange : percent_range_ok (Scenario.flow 2)).
  { unfold percent_range_ok. cbn. repeat split; discriminate. }
  destruct (swap_amount_within_balance
              (Scenario.instance 2 2 Scenario.rich_node)
              (Scenario.crystal 2 2 Scenario.rich_node)
              [("MON", 1%Q); ("USDC", 50%Q)] 1 50 0%nat Hrange Hrange) as [H _].
  destruct (H "MON" "USDC" (1 * ((50 + (50 - 50) * (0 # 9007199254740992)) / 100))%Q
              eq_refl) as (b & Hb & Hle).
  exists b. split; [exact Hb|].
  eapply Qle_trans; [|exact Hle]. vm_compute. discriminate.
Defined.

(** ** The session loop *)

Lemma dict_get_set {V : Type} (d : list (string * V)) k v k' :
  dict_get (dict_set d k v) k' = if String.eqb k' k then Ok v else dict_get d k'.
Proof.
  induction d as [|[k0 v0] d IH]; cbn [dict_set dict_get].
  - reflexivity.
  - destruct (String.eqb_spec k k0) as [->|Hne]; cbn [dict_get].
    + destruct (String.eqb k' k0); reflexivity.
    + rewrite IH. destruct (String.eqb_spec k' k0) as [->|Hne']; [|reflexivity].
      destruct (String.eqb_spec k0 k) as [->|_]; [contradiction Hne; reflexivity|].
      reflexivity.
Qed.

Section CrystalSession.

Import Crystal.

Variable self : CrystalSwap.

Lemma crystal_loop_breaks left num_swaps swap_num t mon_balance usdc_balance :
  result (get_token_balance self (MON self) t) = Ok mon_balance ->
  result (get_token_balance self (USDC self)
            (now (get_token_balance self (MON self) t))) = Ok usdc_balance ->
  both_low mon_balance usdc_balance = true ->
  wp (execute_loop self (S left) num_swaps swap_num) t
     (fun r e _ =>
        r = Ok tt /\
        e = (events (get_token_balance self (MON self) t)
             ++ events (get_token_balance self (USDC self)
                          (now (get_token_balance self (MON self) t))))%list).
Proof.
  intros Hmon Husdc Hlow. cbn [execute_loop]. wp_prim.
  apply wp_intro. intros r e t1 -> -> ->. rewrite Hmon. cbv beta match. wp_prim.
  apply wp_intro. intros r e t1 -> -> ->. rewrite Husdc. cbv beta match.
  change (float_lt mon_balance (1 # 1000) && float_lt usdc_balance (1 # 100))
    with (both_low mon_balance usdc_balance).
  rewrite Hlow. wp_prim. rewrite app_nil_r. split; reflexivity.
Qed.

Lemma crystal_loop_quiet left num_swaps swap_num t :
  crystal_stays_low self ->
  wp (execute_loop self left num_swaps swap_num) t
     (fun r e _ => r = Ok tt /\ Forall (fun x => is_balance_query x = true) e).
Proof.
  intros Hlow. destruct left as [|left]; [cbn; wp_prim; split; [reflexivity | forall_events]|].
  destruct (crystal_get_token_balance_spec self (MON self) t) as [[m Hm] Hem].
  destruct (crystal_get_token_balance_spec self (USDC self)
              (now (get_token_balance self (MON self) t))) as [[u Hu] Heu].
  eapply wp_conseq; [apply (crystal_loop_breaks left num_swaps swap_num t m u Hm Hu)|].
  - unfold both_low. apply andb_true_intro. split; apply float_lt_spec.
    + apply (proj1 (Hlow _ _) Hm).
    + apply (proj2 (Hlow _ _) Hu).
  - cbv beta. intros r e _ [-> ->]. split; [reflexivity | forall_events].
Qed.

End CrystalSession.

Section InstanceSession.

Import Instance.

Variable self : CrystalSwap.

Lemma update_balances_spec token_balances t :
  wp (update_balances self AVAILABLE_TOKENS token_balances) t
     (fun r e _ =>
        Forall (fun x => is_balance_query x = true) e /\
        exists mon_balance usdc_balance,
          r = Ok (dict_set (dict_set token_balances "MON" mon_balance)
                           "USDC" usdc_balance) /\
          (exists t', result (get_token_balance self (account_address self)
                                (mkToken "MON" None 18 true) t') = Ok mon_balance) /\
          (exists t', result (get_token_balance self (account_address self)
                                (mkToken "USDC" (Some USDC_CONTRACT) 6 false) t')
                      = Ok usdc_balance)).
Proof.
  unfold AVAILABLE_TOKENS. cbn [update_balances]. wp_run.
  split; [forall_events|]. do 2 eexists. split; [reflexivity|].
  split; eexists; symmetry; eassumption.
Qed.

Lemma pass_skipped left num_swaps swap_num token_balances t token_balances' :
  result (update_balances self AVAILABLE_TOKENS token_balances t) = Ok token_balances' ->
  balances_low token_balances' = true ->
  wp (execute_loop self (S left) num_swaps swap_num token_balances) t
     (fun r e _ =>
        r = result (execute_loop self left num_swaps (swap_num + 1) token_balances'
                      (now (update_balances self AVAILABLE_TOKENS token_balances t))) /\
        e = (events (update_balances self AVAILABLE_TOKENS token_balances t)
             ++ events (execute_loop self left num_swaps (swap_num + 1) token_balances'
                          (now (update_balances self AVAILABLE_TOKENS token_balances t))))%list).
Proof.
  intros Hupdate Hlow. cbn [execute_loop]. unfold execute_iteration. repeat wp_prim.
  apply wp_intro. intros r e t1 -> -> ->. rewrite Hupdate. cbv beta match.
  unfold balances_low in Hlow.
  destruct (dict_get token_balances' "MON") as [m|] eqn:Hm; [|discriminate].
  destruct (dict_get token_balances' "USDC") as [u|] eqn:Hu; [|discriminate].
  unfold both_low in Hlow.
  unfold _select_swap_pair. repeat wp_prim. rewrite Hm. repeat wp_prim.
  rewrite Hu. repeat wp_prim. rewrite Hlow. repeat wp_prim.
  cbn [falsy orb]. repeat wp_prim.
  apply wp_intro. intros r e t1 -> -> _. cbn [app]. rewrite !app_nil_r.
  split; reflexivity.
Qed.

Hypothesis stays_low : instance_stays_low self.

Lemma update_balances_low token_balances t :
  wp (update_balances self AVAILABLE_TOKENS token_balances) t
     (fun r e _ =>
        Forall (fun x => is_balance_query x = true) e /\
        exists token_balances', r = Ok token_balances' /\ balances_low token_balances' = true).
Proof.
  eapply wp_conseq; [apply update_balances_spec|]. cbv beta.
  intros r e _ (He & m & u & -> & [tm Hm] & [tu Hu]).
  split; [exact He|]. eexists. split; [reflexivity|].
  unfold balances_low. rewrite !dict_get_set. cbn.
  unfold both_low. apply andb_true_intro. split; apply float_lt_spec.
  - apply (proj1 (stays_low _ _) Hm).
  - apply (proj2 (stays_low _ _) Hu).
Qed.

Lemma execute_loop_quiet left : forall num_swaps swap_num token_balances t,
  wp (execute_loop self left num_swaps swap_num token_balances) t
     (fun r e _ => r = Ok tt /\ Forall (fun x => is_balance_query x = true) e).
Proof.
  induction left as [|left IH]; intros num_swaps swap_num token_balances t.
  - cbn. wp_prim. split; [reflexivity | forall_events].
  - destruct (update_balances_low token_balances t) as (He & tb' & Hr & Hlow).
    destruct (pass_skipped left num_swaps swap_num token_balances t tb' Hr Hlow)
      as [Hres Hev].
    destruct (IH num_swaps (swap_num + 1) tb'
                (now (update_balances self AVAILABLE_TOKENS token_balances t)))
      as [Hres' Hev'].
    unfold wp. rewrite Hres, Hev. split; [exact Hres' | forall_events].
Qed.

Lemma execute_quiet t :
  wp (execute self) t (fun _ e _ => Forall (fun x => is_balance_query x = true) e).
Proof.
  unfold execute. destruct (CRYSTAL_SWAP (config self)) as [section|];
    [|wp_prim; forall_events].
  destruct (negb (ENABLED section)); [wp_prim; forall_events|].
  wp_prim. wp_use update_balances_low. intros (He & tb' & -> & _).
  destruct (NUMBER_OF_SWAPS (FLOW (config self))) as [min_swaps max_swaps].
  wp_prim. apply wp_random_randint; intros _; [|forall_events].
  wp_use execute_loop_quiet. intros [_ He']. forall_events.
Qed.

End InstanceSession.

Lemma crystal_execute_quiet self t :
  crystal_stays_low self ->
  wp (Crystal.execute self) t (fun _ e _ => Forall (fun x => is_balance_query x = true) e).
Proof.
  intros Hlow.
  unfold Crystal.execute. destruct (CRYSTAL_SWAP (Crystal.config self)) as [section|];
    [|wp_prim; forall_events].
  destruct (negb (ENABLED section)); [wp_prim; forall_events|].
  destruct (NUMBER_OF_SWAPS (FLOW (Crystal.config self))) as [min_swaps max_swaps].
  wp_prim. apply wp_random_randint; intros _; [|forall_events].
  pose proof (fun l n s t' => crystal_loop_quiet self l n s t' Hlow) as Hq.
  wp_use Hq. intros [_ He']. forall_events.
Qed.

Lemma balance_queries_no_broadcast e :
  Forall (fun x => is_balance_query x = true) e -> broadcasts e = 0%nat.
Proof. intros H. apply broadcasts_none. forall_events. Qed.

(** C4, as amended. When both balances queried at the start of a pass are
    below their thresholds, the loop of [crystal_swap.py] ends at once:
    nothing follows the two balance queries. The loop of [instance.py]
    skips that pass, with no swap and no pause, and goes on with the next
    pass. In both, when the balances come out below the thresholds whenever
    they are queried (as with 0.0005 MON and 0.005 USDC), the session ends
    without a single broadcast. *)
Theorem session_with_low_balances
    (si : Instance.CrystalSwap) (sc : Crystal.CrystalSwap)
    (left : nat) (num_swaps swap_num : Z)
    (token_balances token_balances' : list (string * Q))
    (mon_balance usdc_balance : Q) (t : nat) :
  (result (Crystal.get_token_balance sc (Crystal.MON sc) t) = Ok mon_balance ->
   result (Crystal.get_token_balance sc (Crystal.USDC sc)
             (now (Crystal.get_token_balance sc (Crystal.MON sc) t)))
     = Ok usdc_balance ->
   both_low mon_balance usdc_balance = true ->
   result (Crystal.execute_loop sc (S left) num_swaps swap_num t) = Ok tt /\
   events (Crystal.execute_loop sc (S left) num_swaps swap_num t)
     = (events (Crystal.get_token_balance sc (Crystal.MON sc) t)
        ++ events (Crystal.get_token_balance sc (Crystal.USDC sc)
                     (now (Crystal.get_token_balance sc (Crystal.MON sc) t))))%list) /\
  (result (Instance.update_balances si Instance.AVAILABLE_TOKENS token_balances t)
     = Ok token_balances' ->
   balances_low token_balances' = true ->
   events (Instance.execute_loop si (S left) num_swaps swap_num token_balances t)
     = (events (Instance.update_balances si Instance.AVAILABLE_TOKENS token_balances t)
        ++ events (Instance.execute_loop si left num_swaps (swap_num + 1)
                     token_balances'
                     (now (Instance.update_balances si Instance.AVAILABLE_TOKENS
                             token_balances t))))%list) /\
  (crystal_stays_low sc -> broadcasts (events (Crystal.execute sc t)) = 0%nat) /\
  (instance_stays_low si -> broadcasts (events (Instance.execute si t)) = 0%nat).
Proof.
  split; [|split; [|split]].
  - intros Hm Hu Hlow.
    apply (crystal_loop_breaks sc left num_swaps swap_num t _ _ Hm Hu Hlow).
  - intros Hr Hlow.
    apply (pass_skipped si left num_swaps swap_num token_balances t _ Hr Hlow).
  - intros Hlow. apply balance_queries_no_broadcast.
    apply (crystal_execute_quiet sc t Hlow).
  - intros Hlow. apply balance_queries_no_broadcast.
    apply (execute_quiet si Hlow t).
Qed.

Lemma session_with_low_balances_witness :
  broadcasts (events (Crystal.execute (Scenario.crystal 2 2 Scenario.poor_node) 0%nat))
    = 0%nat /\
  broadcasts (events (Instance.execute (Scenario.instance 2 2 Scenario.poor_node) 0%nat))
    = 0%nat.
Proof.
  destruct (session_with_low_balances
              (Scenario.instance 2 2 Scenario.poor_node)
              (Scenario.crystal 2 2 Scenario.poor_node)
              0%nat 2 1 [] [] 0 0 0%nat) as (_ & _ & Hc & Hi).
  split.
  - apply Hc. intros t b. split; intros H; cbn in H; injection H as <-; reflexivity.
  - apply Hi. intros t b. split; intros H; cbn in H; injection H as <-; reflexivity.
Defined.

(** C4, as stated, fails for [instance.py]: the first pass starts with
    0.0005 MON and 0.005 USDC and is skipped, the loop goes on, and the
    second pass, which finds 1 MON, broadcasts a swap. *)
Lemma skipped_pass_then_swap :
  balances_low Scenario.poor_balances = true /\
  result (Instance.update_balances (Scenario.instance 1 2 (Scenario.refilled_at 5))
            Instance.AVAILABLE_TOKENS Scenario.poor_balances 3%nat)
    = Ok Scenario.poor_balances /\
  broadcasts (events (Instance.execute_loop (Scenario.instance 1 2 (Scenario.refilled_at 5))
                        2 2 1 Scenario.poor_balances 3%nat)) = 1%nat /\
  broadcasts (events (Instance.execute (Scenario.instance 1 2 (Scenario.refilled_at 5))
                        0%nat)) = 1%nat.
Proof. repeat split; vm_compute; reflexivity. Qed.

(** * Further properties of the code *)

Lemma count_app p l1 l2 : count p (l1 ++ l2) = (count p l1 + count p l2)%nat.
Proof. unfold count. rewrite filter_app, length_app. reflexivity. Qed.

Lemma count_none p evs : Forall (fun x => p x = false) evs -> count p evs = 0%nat.
Proof.
  unfold count. induction 1 as [|x l Hx _ IH]; cbn; [reflexivity|].
  rewrite Hx. exact IH.
Qed.

Lemma count_all p evs :
  Forall (fun x => p x = true) evs -> count p evs = List.length evs.
Proof.
  unfold count. induction 1 as [|x l Hx _ IH]; cbn; [reflexivity|].
  rewrite Hx. cbn. rewrite IH. reflexivity.
Qed.

Lemma sleeps_app l1 l2 : sleeps (l1 ++ l2) = (sleeps l1 + sleeps l2)%nat.
Proof. apply (count_app is_sleep). Qed.

Lemma broadcasts_app l1 l2 :
  broadcasts (l1 ++ l2) = (broadcasts l1 + broadcasts l2)%nat.
Proof. apply (count_app is_broadcast). Qed.

Ltac leb_props :=
  repeat match goal with
         | H : (_ <=? _) = true |- _ => apply Z.leb_le in H
         | H : (_ <=? _) = false |- _ => apply Z.leb_gt in H
         | H : (_ <? _) = true |- _ => apply Z.ltb_lt in H
         | H : (_ <? _) = false |- _ => apply Z.ltb_ge in H
         end.

Ltac no_such_event H :=
  solve [ exfalso; eapply Forall_not_Exists; [ | exact H ]; solve [forall_events] ].

(** [Forall] over a trace put together with [++], with the tactic for a
    single event handed in. *)
Ltac forall_with leaf :=
  repeat first
    [ assumption
    | apply Forall_nil
    | apply Forall_cons; [ solve [leaf] | ]
    | apply Forall_app_intro
    | forall_weaken ].

(** The handler of [swap] leaves sleeps at most, also where it raises. *)
Lemma swap_handler_sleeps self retry e t :
  wp (Instance.swap_handler self retry e) t
     (fun _ evs _ => Forall (fun x => is_sleep x = true) evs).
Proof.
  unfold Instance.swap_handler. destruct (Z.of_nat retry <? _).
  - wp_prim. apply wp_random_randint; intros _; repeat wp_prim; forall_events.
  - wp_prim. forall_events.
Qed.

(** ** A property of every event, through the retry loops *)

Section LoopInvariant.

Variable P : Event -> Prop.

Hypothesis P_mark : forall retry, P (EvAttempt retry).
Hypothesis P_sleep : forall seconds, P (EvSleep seconds).

Lemma sleeps_forall evs : Forall (fun x => is_sleep x = true) evs -> Forall P evs.
Proof.
  intros H. refine (Forall_impl _ _ H). intros x; destruct x; cbn; try discriminate.
  intros _. apply P_sleep.
Qed.

Lemma swap_loop_forall self token_from token_to amount slippage :
  (forall t, wp (Instance.swap_attempt self token_from token_to amount slippage) t
               (fun _ e _ => Forall P e)) ->
  forall left retry t,
    wp (Instance.swap_loop self left retry token_from token_to amount slippage) t
       (fun _ e _ => Forall P e).
Proof.
  intros Hpass.
  induction left as [|left' IH]; intros retry t; cbn [Instance.swap_loop].
  - wp_prim. constructor.
  - repeat wp_prim. wp_use Hpass. intros He.
    destruct r as [[o|]|x]; cbv beta match.
    + wp_prim. rewrite app_nil_r. constructor; [apply P_mark | exact He].
    + wp_use IH. intros Hrest. constructor; [apply P_mark|].
      apply Forall_app_intro; assumption.
    + wp_prim. wp_use swap_handler_sleeps. intros Hs. apply sleeps_forall in Hs.
      destruct r; cbv beta match.
      * wp_use IH. intros Hrest. constructor; [apply P_mark|].
        repeat apply Forall_app_intro; assumption.
      * constructor; [apply P_mark|]. repeat apply Forall_app_intro; assumption.
Qed.

Lemma crystal_loop_forall self (body rest : M Outcome) attempt t :
  (forall t', wp body t' (fun _ e _ => Forall P e)) ->
  (forall t', wp rest t' (fun _ e _ => Forall P e)) ->
  wp (mark (EvAttempt attempt) ;;
      r <- try_catch body ;;
      match r with
      | Ok outcome => ret outcome
      | Raise e => Crystal.swap_handler self attempt e ;; rest
      end) t
     (fun _ e _ => Forall P e).
Proof.
  intros Hbody Hrest. repeat wp_prim. wp_use Hbody. intros He.
  destruct r as [o|x]; cbv beta match.
  - wp_prim. rewrite app_nil_r. constructor; [apply P_mark | exact He].
  - wp_prim. wp_use crystal_swap_handler_sleeps. intros Hs. apply sleeps_forall in Hs.
    destruct r; cbv beta match.
    + wp_use Hrest. intros Hr. constructor; [apply P_mark|].
      repeat apply Forall_app_intro; assumption.
    + constructor; [apply P_mark|]. repeat apply Forall_app_intro; assumption.
Qed.

Lemma swap_mon_to_usdc_loop_forall self amount amount_wei path deadline :
  (forall t, wp (Crystal.swap_mon_to_usdc_attempt self amount amount_wei path deadline) t
               (fun _ e _ => Forall P e)) ->
  forall left attempt t,
    wp (Crystal.swap_mon_to_usdc_loop self left attempt amount amount_wei path deadline) t
       (fun _ e _ => Forall P e).
Proof.
  intros Hpass.
  induction left as [|left' IH]; intros attempt t; cbn [Crystal.swap_mon_to_usdc_loop].
  - wp_prim. constructor.
  - apply crystal_loop_forall; [exact Hpass | apply IH].
Qed.

Lemma swap_usdc_to_mon_loop_forall self amount amount_wei path deadline :
  (forall t, wp (Crystal.swap_usdc_to_mon_attempt self amount amount_wei path deadline) t
               (fun _ e _ => Forall P e)) ->
  forall left attempt t,
    wp (Crystal.swap_usdc_to_mon_loop self left attempt amount amount_wei path deadline) t
       (fun _ e _ => Forall P e).
Proof.
  intros Hpass.
  induction left as [|left' IH]; intros attempt t; cbn [Crystal.swap_usdc_to_mon_loop].
  - wp_prim. constructor.
  - apply crystal_loop_forall; [exact Hpass | apply IH].
Qed.

End LoopInvariant.

(** ** [swap] with a symbol that is not in the registry *)

Section UnknownSymbol.

Import Instance.

Variable self : CrystalSwap.
Variables token_from token_to : string.
Variables amount slippage : Q.

Hypothesis pause_ok : pause_range_ok (SETTINGS (config self)).

Hypothesis unknown :
  (exists e, dict_get AVAILABLE_TOKENS token_from = Raise e) \/
  (exists e, dict_get AVAILABLE_TOKENS token_to = Raise e).

Lemma swap_attempt_unknown t :
  wp (swap_attempt self token_from token_to amount slippage) t
     (fun r e t' => (exists x, r = Raise x) /\ e = [] /\ t' = t).
Proof.
  unfold swap_attempt. wp_prim. wp_prim.
  destruct (dict_get AVAILABLE_TOKENS token_from) as [a|x] eqn:Ha; cbv beta match.
  - wp_prim. wp_prim.
    destruct (dict_get AVAILABLE_TOKENS token_to) as [b|x] eqn:Hb; cbv beta match.
    + exfalso. destruct unknown as [[e He]|[e He]]; discriminate.
    + eauto.
  - eauto.
Qed.

Lemma swap_loop_unknown left : forall retry t,
  (retry + left)%nat = Z.to_nat (ATTEMPTS (SETTINGS (config self))) ->
  wp (swap_loop self left retry token_from token_to amount slippage) t
     (fun r e _ =>
        r = Ok (failure "Max retry attempts reached") /\
        attempts e = left /\
        sleeps e = (left - 1)%nat /\
        Forall (fun x => is_loop_event x = true) e).
Proof.
  induction left as [|left' IH]; intros retry t Hsum; cbn [swap_loop].
  - wp_prim. repeat split. constructor.
  - repeat wp_prim. wp_use swap_attempt_unknown. intros ([x ->] & -> & ->).
    wp_prim. wp_use (swap_handler_spec self pause_ok). intros [-> Hh].
    assert (Hnext : (S retry + left')%nat = Z.to_nat (ATTEMPTS (SETTINGS (config self)))) by lia.
    wp_use (fun t => IH (S retry) t Hnext). intros (-> & Ha & Hs & Hf).
    split; [reflexivity|].
    destruct (Z.ltb_spec (Z.of_nat retry) (ATTEMPTS (SETTINGS (config self)) - 1))
      as [Hlt|Hge].
    + destruct Hh as (pause & -> & _). cbn [app].
      repeat split.
      * unfold attempts in *. cbn. rewrite Ha. reflexivity.
      * unfold sleeps in *. cbn. rewrite Hs. lia.
      * repeat constructor. exact Hf.
    + subst e. cbn [app].
      repeat split.
      * unfold attempts in *. cbn. rewrite Ha. reflexivity.
      * unfold sleeps in *. cbn. rewrite Hs. lia.
      * repeat constructor. exact Hf.
Qed.

End UnknownSymbol.

(** X1. [swap] of [instance.py] with a source or destination symbol that
    [AVAILABLE_TOKENS] does not hold: the [KeyError] of the lookup is caught
    in every pass, before any call to the node. The call makes all
    [ATTEMPTS] passes, sleeps between them but not after the last, and
    returns the failure Outcome. *)
Theorem swap_unknown_symbol
    (self : Instance.CrystalSwap) (token_from token_to : string)
    (amount slippage : Q) (t : nat) :
  settings_ok (SETTINGS (Instance.config self)) ->
  (exists e, dict_get Instance.AVAILABLE_TOKENS token_from = Raise e) \/
  (exists e, dict_get Instance.AVAILABLE_TOKENS token_to = Raise e) ->
  result (Instance.swap self token_from token_to amount slippage t)
    = Ok (failure "Max retry attempts reached") /\
  Forall (fun x => is_loop_event x = true)
    (events (Instance.swap self token_from token_to amount slippage t)) /\
  Z.of_nat (attempts (events (Instance.swap self token_from token_to amount slippage t)))
    = ATTEMPTS (SETTINGS (Instance.config self)) /\
  sleeps (events (Instance.swap self token_from token_to amount slippage t))
    = (Z.to_nat (ATTEMPTS (SETTINGS (Instance.config self))) - 1)%nat.
Proof.
  intros [Hcount Hpause] Hunknown.
  destruct (swap_loop_unknown self token_from token_to amount slippage Hpause Hunknown
              (Z.to_nat (ATTEMPTS (SETTINGS (Instance.config self)))) 0%nat t eq_refl)
    as (Hr & Ha & Hs & Hf).
  unfold Instance.swap. repeat split; try assumption.
  rewrite Ha. lia.
Qed.

Lemma swap_unknown_symbol_witness :
  result (Instance.swap (Scenario.instance 3 2 Scenario.rich_node) "WETH" "USDC" 1
            (1 # 2) 0%nat)
    = Ok (failure "Max retry attempts reached") /\
  sleeps (events (Instance.swap (Scenario.instance 3 2 Scenario.rich_node) "WETH" "USDC"
                    1 (1 # 2) 0%nat)) = 2%nat.
Proof.
  destruct (swap_unknown_symbol (Scenario.instance 3 2 Scenario.rich_node)
              "WETH" "USDC" 1 (1 # 2) 0%nat) as (Hr & _ & _ & Hs).
  - split; [cbn; lia | unfold pause_range_ok; cbn; lia].
  - left. eexists. reflexivity.
  - split; [exact Hr | exact Hs].
Defined.

(** ** A handler that raises *)

Lemma swap_loop_handler_raises self token_from token_to amount slippage left t x :
  ~ pause_range_ok (SETTINGS (Instance.config self)) ->
  1 < ATTEMPTS (SETTINGS (Instance.config self)) ->
  result (Instance.swap_attempt self token_from token_to amount slippage t) = Raise x ->
  wp (Instance.swap_loop self (S left) 0 token_from token_to amount slippage) t
     (fun r e _ =>
        r = Raise (ValueError "empty range for randrange()") /\
        e = EvAttempt 0 :: events (Instance.swap_attempt self token_from token_to amount
                                     slippage t)).
Proof.
  intros Hpause Hcount Hpass. cbn [Instance.swap_loop]. repeat wp_prim.
  apply wp_intro. intros r e t1 -> -> _. rewrite Hpass. cbv beta match.
  wp_prim. unfold Instance.swap_handler.
  destruct (Z.ltb_spec (Z.of_nat 0) (ATTEMPTS (SETTINGS (Instance.config self)) - 1))
    as [_|Hge]; [| cbn in Hge; lia].
  wp_prim. apply wp_random_randint; intros Hrange.
  - exfalso. apply Hpause. exact Hrange.
  - cbn [app]. rewrite app_nil_r. split; reflexivity.
Qed.

(** X21. The handler of [swap] of [instance.py] can raise itself: with a
    pause range whose lower end is above its upper end and more than one
    pass allowed, a first pass that ends in an exception makes
    [random.randint], called from the [except] block, raise a [ValueError]
    that leaves [swap]; the call ends after that one pass, without an
    Outcome. *)
Theorem swap_raises_on_empty_pause_range
    (self : Instance.CrystalSwap) (token_from token_to : string)
    (amount slippage : Q) (t : nat) (x : exn) :
  ~ pause_range_ok (SETTINGS (Instance.config self)) ->
  1 < ATTEMPTS (SETTINGS (Instance.config self)) ->
  result (Instance.swap_attempt self token_from token_to amount slippage t) = Raise x ->
  result (Instance.swap self token_from token_to amount slippage t)
    = Raise (ValueError "empty range for randrange()") /\
  attempts (events (Instance.swap self token_from token_to amount slippage t)) = 1%nat.
Proof.
  intros Hpause Hcount Hpass. unfold Instance.swap.
  destruct (Z.to_nat (ATTEMPTS (SETTINGS (Instance.config self)))) as [|left] eqn:Hn;
    [lia|].
  destruct (swap_loop_handler_raises self token_from token_to amount slippage left t x
              Hpause Hcount Hpass) as [Hr He].
  split; [exact Hr|]. rewrite He.
  destruct (swap_attempt_spec self token_from token_to amount slippage t) as [Hu _].
  pose proof (attempts_none _ Hu) as Hnone.
  unfold attempts in *. cbn [filter is_attempt List.length].
  rewrite Hnone. reflexivity.
Qed.

Lemma swap_raises_on_empty_pause_range_witness :
  result (Instance.swap (hasty_instance 2) "WETH" "USDC" 1 (1 # 2) 0%nat)
    = Raise (ValueError "empty range for randrange()") /\
  attempts (events (Instance.swap (hasty_instance 2) "WETH" "USDC" 1 (1 # 2) 0%nat))
    = 1%nat.
Proof.
  apply (swap_raises_on_empty_pause_range (hasty_instance 2) "WETH" "USDC" 1 (1 # 2)
           0%nat (KeyError "WETH")).
  - unfold pause_range_ok. cbn. lia.
  - cbn. lia.
  - reflexivity.
Defined.

(** ** What [approve_token] and [approve_usdc] report *)

Ltac known_allowance Ha :=
  try match goal with
      | H : token_allowance _ _ = _ |- _ =>
          tryif constr_eq H Ha then fail else rewrite H in Ha
      end.

Ltac allowance_leaf :=
  first
    [ solve [ eexists; split; [ reflexivity | lia ] ]
    | solve [ eexists; split; [ eassumption | lia ] ] ].

Ltac approval_leaf :=
  lazymatch goal with
  | |- (broadcasts _ <= _)%nat => cbn; lia
  | |- broadcasts _ = _ => reflexivity
  | |- Forall _ _ => solve [forall_events]
  | |- Exists _ _ => exists_event
  | |- exists tx_hash, _ = to_hex tx_hash => eexists; reflexivity
  | |- _ = _ => first [ reflexivity | discriminate ]
  | |- allowance_short _ _ _ => allowance_leaf
  | |- allowance_covers _ _ _ => allowance_leaf
  | |- _ => idtac
  end.

Lemma approve_token_spec self token amount_wei spender t :
  wp (Instance.approve_token self token amount_wei spender) t
     (fun r e _ => approve_token_contract (Instance.web3 self) t token amount_wei r e).
Proof.
  unfold approve_token_contract.
  wp_run.
  all: leb_props; cbn [app].
  all: split; [approval_leaf|].
  all: split; [approval_leaf|].
  all: split; [intros Hn; first [discriminate Hn | split; reflexivity]|].
  all: split;
    [ intros (al & Ha & Hle) Hne; known_allowance Ha;
      first [ exfalso; apply Hne; reflexivity
            | discriminate Ha
            | injection Ha as <-; first [ lia | split; reflexivity ] ]
    | ].
  all: split;
    [ intros Hb;
      first [ no_such_event Hb
            | split; [reflexivity | unfold allowance_short; allowance_leaf] ]
    | ].
  all: try solve [forall_events].
  all: split; [eexists; reflexivity | exists_event].
Qed.

Lemma approve_usdc_spec self amount_wei t :
  wp (Crystal.approve_usdc self amount_wei) t
     (fun r e _ => approve_usdc_contract (Crystal.web3 self) t amount_wei r e).
Proof.
  unfold approve_usdc_contract.
  wp_run.
  all: leb_props; cbn [app].
  all: split; [approval_leaf|].
  all: split; [approval_leaf|].
  all: split;
    [ intros Hb;
      first [ no_such_event Hb | unfold allowance_short; allowance_leaf ]
    | ].
  all: eexists; split; [reflexivity|].
  all: split.
  all: try discriminate.
  all: try (intros _; reflexivity).
  all: try (intros _; first [ left; split; [unfold allowance_covers; allowance_leaf | reflexivity]
                            | right; exists_event ]).
  all: intros [[(al & Ha & Hle) Hn] | Hc];
    [ known_allowance Ha;
      first [ discriminate Ha | discriminate Hn | injection Ha as <-; lia ]
    | no_such_event Hc ].
Qed.


(** X3. [approve_usdc] of [crystal_swap.py] never raises. It returns
    [True] exactly when the reported allowance covers the amount (and then
    nothing is broadcast) or the approval it broadcast is confirmed with
    status 1; any failure on the way, and a reverted approval, give
    [False]. *)
Theorem approve_usdc_reports
    (self : Crystal.CrystalSwap) (amount_wei : Z) (t : nat) :
  approve_usdc_contract (Crystal.web3 self) t amount_wei
    (result (Crystal.approve_usdc self amount_wei t))
    (events (Crystal.approve_usdc self amount_wei t)).
Proof. apply (approve_usdc_spec self amount_wei t). Qed.

(** ** A swap of USDC waits for its approval *)

Lemma passes_not_empty e : exists pass rest, passes e = pass :: rest.
Proof.
  induction e as [|x e (pass & rest & IH)]; [cbn; eauto|].
  destruct x; cbn [passes]; rewrite ?IH; eauto.
Qed.

Lemma passes_app_unmarked e1 : forall e2,
  Forall (fun x => is_attempt x = false) e1 ->
  passes (e1 ++ e2) =
    match passes e2 with
    | [] => [e1]
    | pass :: rest => (e1 ++ pass)%list :: rest
    end.
Proof.
  induction e1 as [|x e1 IH]; intros e2 H; cbn [app].
  - destruct (passes_not_empty e2) as (pass & rest & ->). reflexivity.
  - inversion H as [|? ? Hx Hrest]; subst.
    destruct (passes_not_empty e2) as (pass & rest & Hp).
    destruct x; try discriminate Hx; cbn [passes]; rewrite (IH e2 Hrest), Hp;
      reflexivity.
Qed.

Lemma passes_unmarked e :
  Forall (fun x => is_attempt x = false) e -> passes e = [e].
Proof.
  intros H. rewrite <- (app_nil_r e) at 1.
  rewrite (passes_app_unmarked e [] H). cbn. rewrite app_nil_r. reflexivity.
Qed.

Lemma ledger_app e1 e2 : ledger (e1 ++ e2) = (ledger e1 ++ ledger e2)%list.
Proof.
  induction e1 as [|x e1 IH]; [reflexivity|].
  destruct x; cbn; try exact IH.
  - rewrite IH. reflexivity.
  - destruct out; [rewrite IH; reflexivity | exact IH].
Qed.

Lemma ledger_sleeps e : Forall (fun x => is_sleep x = true) e -> ledger e = [].
Proof.
  induction 1 as [|x l Hx _ IH]; [reflexivity|].
  destruct x; try discriminate Hx. exact IH.
Qed.

Lemma sleeps_unmarked e :
  Forall (fun x => is_sleep x = true) e -> Forall (fun x => is_attempt x = false) e.
Proof. intros H. forall_events. Qed.

Section ApprovalFirst.

Import Crystal.

Variable self : CrystalSwap.

Lemma swap_usdc_to_mon_attempt_gate amount amount_wei path deadline t :
  wp (swap_usdc_to_mon_attempt self amount amount_wei path deadline) t
     (fun r e _ =>
        Forall (fun x => is_attempt x = false) e /\
        approval_gates_swap (ledger e) = true /\
        (Exists (fun x => is_swap_broadcast x = true) e ->
         allowance_covers (web3 self) t amount_wei \/
         Exists (fun x => confirmed_approval x = true) e)).
Proof.
  unfold swap_usdc_to_mon_attempt. wp_run.
  all: leb_props; cbn [app].
  all: split; [solve [forall_events]|].
  all: split; [cbn; rewrite_tests; reflexivity|].
  all: intros Hb;
    first [ no_such_event Hb
          | left; unfold allowance_covers; allowance_leaf
          | right; exists_event ].
Qed.

Lemma swap_usdc_to_mon_loop_gate amount amount_wei path deadline left :
  forall attempt t,
    wp (swap_usdc_to_mon_loop self left attempt amount amount_wei path deadline) t
       (fun _ e _ =>
          exists rest,
            passes e = [] :: rest /\
            Forall (fun pass => approval_gates_swap (ledger pass) = true) rest).
Proof.
  induction left as [|left' IH]; intros attempt t; cbn [swap_usdc_to_mon_loop].
  - wp_prim. exists []. split; [reflexivity | constructor].
  - repeat wp_prim. wp_use swap_usdc_to_mon_attempt_gate. intros (Hu & Hg & _).
    destruct r as [o|x]; cbv beta match.
    + wp_prim. exists [e]. cbn [app passes].
      rewrite (passes_app_unmarked e [] Hu). cbn [passes].
      rewrite app_nil_r. split; [reflexivity|]. constructor; [exact Hg | constructor].
    + wp_prim. wp_use crystal_swap_handler_sleeps. intros Hs.
      destruct r; cbv beta match.
      * wp_use IH. intros (rest & Hp & Hrest).
        exists ((e ++ e0)%list :: rest). cbn [app passes].
        rewrite (passes_app_unmarked e _ Hu).
        rewrite (passes_app_unmarked e0 _ (sleeps_unmarked _ Hs)), Hp.
        rewrite !app_nil_r. split; [reflexivity|].
        constructor; [| exact Hrest].
        rewrite ledger_app, (ledger_sleeps _ Hs), app_nil_r. exact Hg.
      * exists [(e ++ e0)%list]. cbn [app passes].
        rewrite (passes_app_unmarked e _ Hu).
        rewrite (passes_unmarked e0 (sleeps_unmarked _ Hs)).
        split; [reflexivity|].
        constructor; [| constructor].
        rewrite ledger_app, (ledger_sleeps _ Hs), app_nil_r. exact Hg.
Qed.

End ApprovalFirst.

(** X4. In every pass of [swap_usdc_to_mon] of [crystal_swap.py] the swap
    waits for its allowance: a pass broadcasts at most one approval and at
    most one swap, in that order, and it broadcasts the swap only after no
    approval at all or after an approval whose receipt has status 1. Within
    one pass the swap is broadcast only if the reported allowance covered
    the amount or the approval was confirmed. *)
Theorem swap_usdc_to_mon_approval_first
    (self : Crystal.CrystalSwap) (amount : Q) (amount_wei : Z)
    (path : list (option address)) (deadline : Z) (t : nat) :
  Forall (fun pass => approval_gates_swap (ledger pass) = true)
    (passes (events (Crystal.swap_usdc_to_mon self amount t))) /\
  (Exists (fun x => is_swap_broadcast x = true)
     (events (Crystal.swap_usdc_to_mon_attempt self amount amount_wei path deadline t)) ->
   allowance_covers (Crystal.web3 self) t amount_wei \/
   Exists (fun x => confirmed_approval x = true)
     (events (Crystal.swap_usdc_to_mon_attempt self amount amount_wei path deadline t))).
Proof.
  split.
  - change (wp (Crystal.swap_usdc_to_mon self amount) t
              (fun _ e _ =>
                 Forall (fun pass => approval_gates_swap (ledger pass) = true)
                        (passes e))).
    unfold Crystal.swap_usdc_to_mon. repeat wp_prim.
    wp_use (swap_usdc_to_mon_loop_gate self). intros (rest & Hp & Hrest).
    cbn [app]. rewrite Hp. constructor; [reflexivity | exact Hrest].
  - apply (swap_usdc_to_mon_attempt_gate self amount amount_wei path deadline t).
Qed.

(** ** What a broadcast transaction carries *)

Ltac request_leaf :=
  first
    [ exact I
    | solve [ cbn; repeat first [ split | eexists ]; first [ reflexivity | eassumption ] ]
    | solve [ cbn; repeat split; try reflexivity;
              first [ left; split; reflexivity | right; split; reflexivity ] ] ].

Lemma swap_attempt_request self token_from token_to token_a token_b amount slippage t :
  dict_get Instance.AVAILABLE_TOKENS token_from = Ok token_a ->
  dict_get Instance.AVAILABLE_TOKENS token_to = Ok token_b ->
  wp (Instance.swap_attempt self token_from token_to amount slippage) t
     (fun _ e _ => Forall (every_broadcast (instance_request self token_a token_b amount)) e).
Proof.
  intros Ha Hb. unfold Instance.swap_attempt, instance_request. wp_run.
  all: forall_with request_leaf.
Qed.

Lemma swap_request self token_from token_to token_a token_b amount slippage t :
  dict_get Instance.AVAILABLE_TOKENS token_from = Ok token_a ->
  dict_get Instance.AVAILABLE_TOKENS token_to = Ok token_b ->
  wp (Instance.swap self token_from token_to amount slippage) t
     (fun _ e _ => Forall (every_broadcast (instance_request self token_a token_b amount)) e).
Proof.
  intros Ha Hb.
  apply (swap_loop_forall
           (every_broadcast (instance_request self token_a token_b amount))
           (fun _ => I) (fun _ => I) self token_from token_to amount slippage).
  intros t'. apply swap_attempt_request; assumption.
Qed.



Section CrystalRequest.

Import Crystal.

Variable self : CrystalSwap.

Lemma swap_mon_to_usdc_request amount t :
  wp (swap_mon_to_usdc self amount) t
     (fun _ e _ => Forall (every_broadcast (crystal_mon_request self amount t)) e).
Proof.
  unfold swap_mon_to_usdc, crystal_mon_request. wp_prim. wp_prim.
  destruct (to_wei_ether amount) as [amount_wei|x] eqn:Hwei; cbv beta match;
    [| constructor].
  repeat wp_prim.
  eapply wp_conseq; [ apply (swap_mon_to_usdc_loop_forall
            (every_broadcast
               (fun tx =>
                  tx_from tx = account_address self /\
                  tx_chainId tx = 10143 /\
                  tx_type tx = 2 /\
                  tx_to tx = Some (ROUTER_CONTRACT self) /\
                  (exists amount_wei0,
                     Ok amount_wei = Ok amount_wei0 /\ tx_value tx = Some amount_wei0) /\
                  tx_data tx =
                    swapExactETHForTokens 0
                      [Some (WMON_CONTRACT self); Some (USDC_CONTRACT self)]
                      (account_address self) (time_time (web3 self) t + 600)))
            (fun _ => I) (fun _ => I) self amount amount_wei
            [Some (WMON_CONTRACT self); Some (USDC_CONTRACT self)]
            (time_time (web3 self) t + 600))
                    | intros ? ? ? H; exact H ].
  intros t'. unfold swap_mon_to_usdc_attempt. wp_run.
  all: forall_with request_leaf.
Qed.

Lemma swap_usdc_to_mon_request amount t :
  wp (swap_usdc_to_mon self amount) t
     (fun _ e _ => Forall (every_broadcast (crystal_usdc_request self amount t)) e).
Proof.
  unfold swap_usdc_to_mon. repeat wp_prim.
  eapply wp_conseq; [ apply (swap_usdc_to_mon_loop_forall
            (every_broadcast (crystal_usdc_request self amount t))
            (fun _ => I) (fun _ => I) self amount
            (int (amount * float (10 ^ 6))%Q)
            [Some (USDC_CONTRACT self); Some (WMON_CONTRACT self)]
            (time_time (web3 self) t + 600))
                    | intros ? ? ? H; exact H ].
  intros t'. unfold swap_usdc_to_mon_attempt, crystal_usdc_request. wp_run.
  all: forall_with request_leaf.
Qed.

End CrystalRequest.


(** ** Gas limit and fees *)

Ltac fees_leaf :=
  match goal with
  | H1 : eth_get_block_baseFeePerGas _ ?t = Ok ?b,
    H2 : eth_max_priority_fee _ (S ?t) = Ok ?p |- _ =>
      exists t, b, p;
      solve [ split; [ exact H1 | split; [ exact H2 | split; reflexivity ] ] ]
  end.

Ltac instance_priced_leaf :=
  first
    [ exact I
    | split;
      [ fees_leaf
      | match goal with
        | H : eth_estimate_gas _ ?t _ = Ok ?est |- _ =>
            exists t, est; solve [ split; [ exact H | reflexivity ] ]
        end ] ].

Ltac crystal_priced_leaf :=
  first
    [ exact I
    | split;
      [ fees_leaf
      | match goal with
        | H : eth_estimate_gas _ ?t ?tx0 = _ |- _ =>
            exists t; change (before_gas _) with tx0; rewrite H; reflexivity
        end ] ].

Lemma swap_attempt_priced self token_from token_to amount slippage t :
  wp (Instance.swap_attempt self token_from token_to amount slippage) t
     (fun _ e _ => Forall (every_broadcast (instance_priced (Instance.web3 self))) e).
Proof.
  unfold Instance.swap_attempt. wp_run.
  all: forall_with instance_priced_leaf.
Qed.

Lemma swap_mon_to_usdc_attempt_priced self amount amount_wei path deadline t :
  wp (Crystal.swap_mon_to_usdc_attempt self amount amount_wei path deadline) t
     (fun _ e _ => Forall (every_broadcast (crystal_priced (Crystal.web3 self))) e).
Proof.
  unfold Crystal.swap_mon_to_usdc_attempt. wp_run.
  all: forall_with crystal_priced_leaf.
Qed.

Lemma swap_usdc_to_mon_attempt_priced self amount amount_wei path deadline t :
  wp (Crystal.swap_usdc_to_mon_attempt self amount amount_wei path deadline) t
     (fun _ e _ => Forall (every_broadcast (crystal_priced (Crystal.web3 self))) e).
Proof.
  unfold Crystal.swap_usdc_to_mon_attempt. wp_run.
  all: forall_with crystal_priced_leaf.
Qed.


Lemma fallback_gas w3 tx :
  estimates_fail w3 -> crystal_priced w3 tx -> tx_gas tx = Some 200000.
Proof.
  intros Hfail [_ [t Hgas]].
  destruct (Hfail t (before_gas tx)) as [e He]. rewrite He in Hgas. exact Hgas.
Qed.

Lemma every_broadcast_impl (P Q : Transaction -> Prop) evs :
  (forall tx, P tx -> Q tx) ->
  Forall (every_broadcast P) evs -> Forall (every_broadcast Q) evs.
Proof.
  intros HPQ H. refine (Forall_impl _ _ H). intros x; destruct x; cbn; auto.
Qed.

Lemma swap_mon_to_usdc_priced self amount t :
  Forall (every_broadcast (crystal_priced (Crystal.web3 self)))
    (events (Crystal.swap_mon_to_usdc self amount t)).
Proof.
  change (wp (Crystal.swap_mon_to_usdc self amount) t
            (fun _ e _ =>
               Forall (every_broadcast (crystal_priced (Crystal.web3 self))) e)).
  unfold Crystal.swap_mon_to_usdc. wp_prim. wp_prim.
  destruct (to_wei_ether amount) as [amount_wei|x]; cbv beta match; [| constructor].
  repeat wp_prim.
  eapply wp_conseq;
    [ apply (swap_mon_to_usdc_loop_forall
               (every_broadcast (crystal_priced (Crystal.web3 self)))
               (fun _ => I) (fun _ => I))
    | intros ? ? ? H; exact H ].
  intros t'. apply swap_mon_to_usdc_attempt_priced.
Qed.

Lemma swap_usdc_to_mon_priced self amount t :
  Forall (every_broadcast (crystal_priced (Crystal.web3 self)))
    (events (Crystal.swap_usdc_to_mon self amount t)).
Proof.
  change (wp (Crystal.swap_usdc_to_mon self amount) t
            (fun _ e _ =>
               Forall (every_broadcast (crystal_priced (Crystal.web3 self))) e)).
  unfold Crystal.swap_usdc_to_mon. repeat wp_prim.
  eapply wp_conseq;
    [ apply (swap_usdc_to_mon_loop_forall
               (every_broadcast (crystal_priced (Crystal.web3 self)))
               (fun _ => I) (fun _ => I))
    | intros ? ? ? H; exact H ].
  intros t'. apply swap_usdc_to_mon_attempt_priced.
Qed.



(** ** A node that refuses a call *)

Ltac refused_call H :=
  first
    [ match goal with
      | Hok : router_getAmountsOut _ ?t ?a ?p = Ok _ |- _ =>
          destruct (H t a p) as [? Hr]; congruence
      end
    | match goal with
      | Hok : eth_get_block_baseFeePerGas _ ?t = Ok _ |- _ =>
          destruct (H t) as [? Hr]; congruence
      end
    | match goal with
      | Hok : eth_max_priority_fee _ ?t = Ok _ |- _ =>
          destruct (H t) as [? Hr]; congruence
      end
    | match goal with
      | Hok : eth_get_transaction_count _ ?t = Ok _ |- _ =>
          destruct (H t) as [? Hr]; congruence
      end
    | match goal with
      | Hok : eth_estimate_gas _ ?t ?tx = Ok _ |- _ =>
          destruct (H t tx) as [? Hr]; congruence
      end ].

Lemma swap_attempt_refused self token_from token_to amount slippage t :
  refuses_swap_call (Instance.web3 self) ->
  wp (Instance.swap_attempt self token_from token_to amount slippage) t
     (fun r e _ => (exists x, r = Raise x) /\ Forall (fun x => is_broadcast x = false) e).
Proof.
  intros Hrefuse. unfold Instance.swap_attempt. wp_run.
  all: first
         [ solve [ split; [ eauto | forall_events ] ]
         | exfalso; destruct Hrefuse as [H|[H|[H|[H|H]]]]; refused_call H ].
Qed.

Lemma swap_loop_failing self token_from token_to amount slippage :
  pause_range_ok (SETTINGS (Instance.config self)) ->
  (forall t, wp (Instance.swap_attempt self token_from token_to amount slippage) t
               (fun r e _ => (exists x, r = Raise x) /\
                             Forall (fun x => is_broadcast x = false) e)) ->
  forall left retry t,
    wp (Instance.swap_loop self left retry token_from token_to amount slippage) t
       (fun r e _ => r = Ok (failure "Max retry attempts reached") /\
                     Forall (fun x => is_broadcast x = false) e).
Proof.
  intros Hpause Hpass.
  induction left as [|left' IH]; intros retry t; cbn [Instance.swap_loop].
  - wp_prim. split; [reflexivity | forall_events].
  - repeat wp_prim. wp_use Hpass. intros [[x ->] He].
    wp_prim. wp_use (swap_handler_quiet self Hpause). intros [-> Hh].
    wp_use IH. intros [-> He'].
    split; [reflexivity | forall_events].
Qed.

(** X9. [swap] of [instance.py] broadcasts nothing unless every call it
    makes before the broadcast is answered: on a node that refuses the
    quote, the latest block, the priority fee, the transaction count or the
    gas estimate whenever asked, the call uses up its passes, broadcasts no
    transaction, neither approval nor swap, and returns the failure
    Outcome. *)
Theorem swap_needs_every_call
    (self : Instance.CrystalSwap) (token_from token_to : string)
    (amount slippage : Q) (t : nat) :
  pause_range_ok (SETTINGS (Instance.config self)) ->
  refuses_swap_call (Instance.web3 self) ->
  result (Instance.swap self token_from token_to amount slippage t)
    = Ok (failure "Max retry attempts reached") /\
  broadcasts (events (Instance.swap self token_from token_to amount slippage t)) = 0%nat.
Proof.
  intros Hpause Hrefuse.
  destruct (swap_loop_failing self token_from token_to amount slippage Hpause
              (fun t' => swap_attempt_refused self token_from token_to amount slippage
                           t' Hrefuse)
              (Z.to_nat (ATTEMPTS (SETTINGS (Instance.config self)))) 0%nat t)
    as [Hr He].
  split; [exact Hr | apply broadcasts_none; exact He].
Qed.

Lemma swap_needs_every_call_witness :
  result (Instance.swap (Scenario.instance 2 2 (without_estimates Scenario.rich_node))
            "MON" "USDC" (1 # 2) (1 # 2) 0%nat)
    = Ok (failure "Max retry attempts reached") /\
  broadcasts (events (Instance.swap
                        (Scenario.instance 2 2 (without_estimates Scenario.rich_node))
                        "MON" "USDC" (1 # 2) (1 # 2) 0%nat)) = 0%nat.
Proof.
  apply (swap_needs_every_call
           (Scenario.instance 2 2 (without_estimates Scenario.rich_node))
           "MON" "USDC" (1 # 2) (1 # 2) 0%nat).
  - unfold pause_range_ok. cbn. lia.
  - do 4 right. intros t tx. eexists. reflexivity.
Defined.

(** ** What an Outcome reports *)

Ltac eqb_props :=
  repeat match goal with
         | H : (_ =? _) = true |- _ => apply Z.eqb_eq in H
         end.

(** Membership in a trace put together with [++], with another choice where
    what follows fails. *)
Ltac in_choice :=
  lazymatch goal with
  | |- In _ (_ ++ _) =>
      (apply in_or_app; left; in_choice) + (apply in_or_app; right; in_choice)
  | |- In _ (_ :: _) => (left; reflexivity) + (right; in_choice)
  | |- In _ [] => fail
  | |- In _ _ => assumption
  end.

Ltac receipt_leaf :=
  do 3 eexists;
  split; [ in_choice | split; [ reflexivity | split; [ eassumption | ] ] ].

Ltac quote_leaf :=
  do 4 eexists;
  split; [ in_choice | split; [ eassumption | reflexivity ] ].

Lemma swap_attempt_reports self token_from token_to token_a token_b amount slippage t :
  dict_get Instance.AVAILABLE_TOKENS token_from = Ok token_a ->
  dict_get Instance.AVAILABLE_TOKENS token_to = Ok token_b ->
  wp (Instance.swap_attempt self token_from token_to amount slippage) t
     (fun r e _ =>
        match r with
        | Ok (Return o) => reports_swap token_a token_b amount e o
        | _ => True
        end).
Proof.
  intros Ha Hb. unfold Instance.swap_attempt, reports_swap. wp_run.
  all: try exact I.
  all: eqb_props; cbn [success from_token to_token amount_in error tx_hash gas_used
                       expected_out].
  all: repeat (split; [reflexivity|]).
  all: split; [ solve [receipt_leaf; split; reflexivity] | solve [quote_leaf] ].
Qed.

Lemma reports_swap_suffix token_a token_b amount o e1 e2 :
  reports_swap token_a token_b amount e2 o ->
  reports_swap token_a token_b amount (e1 ++ e2) o.
Proof.
  intros (Hs & Hf & Ht & Ha & He & (tx & h & rc & Hin & Hrest) & (a & p & out & x & Hq & Hrest')).
  repeat (split; [assumption|]). split.
  - exists tx, h, rc. split; [| exact Hrest]. apply in_or_app. right. exact Hin.
  - exists a, p, out, x. split; [| exact Hrest']. apply in_or_app. right. exact Hq.
Qed.

Lemma reports_swap_prefix token_a token_b amount o e1 e2 :
  reports_swap token_a token_b amount e1 o ->
  reports_swap token_a token_b amount (e1 ++ e2) o.
Proof.
  intros (Hs & Hf & Ht & Ha & He & (tx & h & rc & Hin & Hrest) & (a & p & out & x & Hq & Hrest')).
  repeat (split; [assumption|]). split.
  - exists tx, h, rc. split; [| exact Hrest]. apply in_or_app. left. exact Hin.
  - exists a, p, out, x. split; [| exact Hrest']. apply in_or_app. left. exact Hq.
Qed.

Lemma swap_loop_reports self token_from token_to token_a token_b amount slippage :
  dict_get Instance.AVAILABLE_TOKENS token_from = Ok token_a ->
  dict_get Instance.AVAILABLE_TOKENS token_to = Ok token_b ->
  forall left retry t,
    wp (Instance.swap_loop self left retry token_from token_to amount slippage) t
       (fun r e _ =>
          match r with
          | Ok o =>
              reports_swap token_a token_b amount e o \/
              o = failure "Max retry attempts reached"
          | Raise _ => True
          end).
Proof.
  intros Ha Hb.
  induction left as [|left' IH]; intros retry t; cbn [Instance.swap_loop].
  - wp_prim. right. reflexivity.
  - repeat wp_prim.
    wp_use (swap_attempt_reports self token_from token_to token_a token_b amount
              slippage t Ha Hb).
    intros Hpass. destruct r as [[o|]|x]; cbv beta match.
    + wp_prim. left. apply reports_swap_suffix, reports_swap_prefix. exact Hpass.
    + wp_use IH. intros Hrest. destruct r as [o|x]; [| exact I].
      destruct Hrest as [Hrest|Hrest]; [left | right; exact Hrest].
      do 2 apply reports_swap_suffix. exact Hrest.
    + wp_prim. wp_use swap_handler_sleeps. intros Hs.
      destruct r as [[]|y]; cbv beta match; [| exact I].
      wp_use IH. intros Hrest. destruct r as [o|y]; [| exact I].
      destruct Hrest as [Hrest|Hrest]; [left | right; exact Hrest].
      do 3 apply reports_swap_suffix. exact Hrest.
Qed.

(** X10. An Outcome of [swap] of [instance.py] is either the failure
    Outcome, with the message that the passes are used up and no other
    field, or a success that reports the request and a swap of this call:
    the names of the two tokens, the amount, the hash (with its [0x]) and
    the gas used of a swap whose receipt has status 1, and as expected
    output the last amount of a quote of this call, in units of the
    destination token. *)
Theorem swap_outcome_reports_swap
    (self : Instance.CrystalSwap) (token_from token_to : string)
    (token_a token_b : Token) (amount slippage : Q) (t : nat) :
  dict_get Instance.AVAILABLE_TOKENS token_from = Ok token_a ->
  dict_get Instance.AVAILABLE_TOKENS token_to = Ok token_b ->
  match result (Instance.swap self token_from token_to amount slippage t) with
  | Ok o =>
      reports_swap token_a token_b amount
        (events (Instance.swap self token_from token_to amount slippage t)) o \/
      o = failure "Max retry attempts reached"
  | Raise _ => True
  end.
Proof.
  intros Ha Hb.
  apply (swap_loop_reports self token_from token_to token_a token_b amount slippage
           Ha Hb (Z.to_nat (ATTEMPTS (SETTINGS (Instance.config self)))) 0%nat t).
Qed.

Lemma swap_outcome_reports_swap_witness :
  match result (Instance.swap (Scenario.instance 2 2 Scenario.rich_node)
                  "MON" "USDC" (1 # 2) (1 # 2) 0%nat) with
  | Ok o =>
      reports_swap (mkToken "MON" None 18 true) Scenario.USDC_token (1 # 2)
        (events (Instance.swap (Scenario.instance 2 2 Scenario.rich_node)
                   "MON" "USDC" (1 # 2) (1 # 2) 0%nat)) o \/
      o = failure "Max retry attempts reached"
  | Raise _ => True
  end.
Proof.
  apply (swap_outcome_reports_swap (Scenario.instance 2 2 Scenario.rich_node)
           "MON" "USDC" (mkToken "MON" None 18 true) Scenario.USDC_token
           (1 # 2) (1 # 2) 0%nat); reflexivity.
Defined.

Section CrystalReports.

Import Crystal.

Variable self : CrystalSwap.

Lemma swap_mon_to_usdc_attempt_reports amount amount_wei path deadline t :
  wp (swap_mon_to_usdc_attempt self amount amount_wei path deadline) t
     (fun r e _ =>
        match r with
        | Ok o =>
            crystal_reports_swap "MON" "USDC" amount e o \/
            o = failure "Transaction reverted"
        | Raise _ => True
        end).
Proof.
  unfold swap_mon_to_usdc_attempt, crystal_reports_swap. wp_run.
  all: try exact I.
  all: try (right; reflexivity).
  all: left; eqb_props; repeat (split; [reflexivity|]).
  all: solve [receipt_leaf; reflexivity].
Qed.

Lemma swap_usdc_to_mon_attempt_reports amount amount_wei path deadline t :
  wp (swap_usdc_to_mon_attempt self amount amount_wei path deadline) t
     (fun r e _ =>
        match r with
        | Ok o =>
            crystal_reports_swap "USDC" "MON" amount e o \/
            o = failure "Transaction reverted" \/
            o = failure "Approval failed"
        | Raise _ => True
        end).
Proof.
  unfold swap_usdc_to_mon_attempt, crystal_reports_swap. wp_run.
  all: try exact I.
  all: try (right; left; reflexivity).
  all: try (right; right; reflexivity).
  all: left; eqb_props; repeat (split; [reflexivity|]).
  all: solve [receipt_leaf; reflexivity].
Qed.

Lemma crystal_reports_suffix source destination amount o e1 e2 :
  crystal_reports_swap source destination amount e2 o ->
  crystal_reports_swap source destination amount (e1 ++ e2) o.
Proof.
  intros (Hs & Hf & Ht & Ha & Hx & Hg & He & tx & h & rc & Hin & Hrest).
  repeat (split; [assumption|]).
  exists tx, h, rc. split; [| exact Hrest]. apply in_or_app. right. exact Hin.
Qed.

Lemma crystal_reports_prefix source destination amount o e1 e2 :
  crystal_reports_swap source destination amount e1 o ->
  crystal_reports_swap source destination amount (e1 ++ e2) o.
Proof.
  intros (Hs & Hf & Ht & Ha & Hx & Hg & He & tx & h & rc & Hin & Hrest).
  repeat (split; [assumption|]).
  exists tx, h, rc. split; [| exact Hrest]. apply in_or_app. left. exact Hin.
Qed.

Lemma crystal_loop_reports (R : Outcome -> Prop) source destination amount
    (body rest : M Outcome) attempt t :
  (forall t', wp body t'
     (fun r e _ =>
        match r with
        | Ok o => crystal_reports_swap source destination amount e o \/ R o
        | Raise _ => True
        end)) ->
  (forall t', wp rest t'
     (fun r e _ =>
        match r with
        | Ok o => crystal_reports_swap source destination amount e o \/ R o
        | Raise _ => True
        end)) ->
  wp (mark (EvAttempt attempt) ;;
      r <- try_catch body ;;
      match r with
      | Ok outcome => ret outcome
      | Raise e => swap_handler self attempt e ;; rest
      end) t
     (fun r e _ =>
        match r with
        | Ok o => crystal_reports_swap source destination amount e o \/ R o
        | Raise _ => True
        end).
Proof.
  intros Hbody Hrest. repeat wp_prim. wp_use Hbody. intros Hpass.
  destruct r as [o|x]; cbv beta match.
  - wp_prim. destruct Hpass as [Hpass|Hpass]; [left | right; exact Hpass].
    apply crystal_reports_suffix, crystal_reports_prefix. exact Hpass.
  - wp_prim. wp_use crystal_swap_handler_sleeps. intros Hs.
    destruct r as [[]|y]; cbv beta match; [| exact I].
    wp_use Hrest. intros Hr. destruct r as [o|y]; [| exact I].
    destruct Hr as [Hr|Hr]; [left | right; exact Hr].
    do 3 apply crystal_reports_suffix. exact Hr.
Qed.

Lemma swap_mon_to_usdc_loop_reports amount amount_wei path deadline left :
  forall attempt t,
    wp (swap_mon_to_usdc_loop self left attempt amount amount_wei path deadline) t
       (fun r e _ =>
          match r with
          | Ok o =>
              crystal_reports_swap "MON" "USDC" amount e o \/
              (o = failure "Transaction reverted" \/ o = failure "All attempts failed")
          | Raise _ => True
          end).
Proof.
  induction left as [|left' IH]; intros attempt t; cbn [swap_mon_to_usdc_loop].
  - wp_prim. right. right. reflexivity.
  - apply (crystal_loop_reports
             (fun o => o = failure "Transaction reverted" \/
                       o = failure "All attempts failed")); [| apply IH].
    intros t'. wp_use swap_mon_to_usdc_attempt_reports. intros H.
    destruct r as [o|x]; [| exact I]. tauto.
Qed.

Lemma swap_usdc_to_mon_loop_reports amount amount_wei path deadline left :
  forall attempt t,
    wp (swap_usdc_to_mon_loop self left attempt amount amount_wei path deadline) t
       (fun r e _ =>
          match r with
          | Ok o =>
              crystal_reports_swap "USDC" "MON" amount e o \/
              (o = failure "Transaction reverted" \/ o = failure "Approval failed" \/
               o = failure "All attempts failed")
          | Raise _ => True
          end).
Proof.
  induction left as [|left' IH]; intros attempt t; cbn [swap_usdc_to_mon_loop].
  - wp_prim. right. right. right. reflexivity.
  - apply (crystal_loop_reports
             (fun o => o = failure "Transaction reverted" \/
                       o = failure "Approval failed" \/
                       o = failure "All attempts failed")); [| apply IH].
    intros t'. wp_use swap_usdc_to_mon_attempt_reports. intros H.
    destruct r as [o|x]; [| exact I]. tauto.
Qed.

End CrystalReports.

(** X11. An Outcome of the swap routines of [crystal_swap.py] is a failure
    with one of the routine's own messages and no other field (a reverted
    transaction, used-up passes and, for a swap of USDC, a failed
    approval), or a success that names the direction, the amount of the
    call and the bare hash of a swap of this call whose receipt has
    status 1; it reports neither an expected output nor the gas used. *)
Theorem crystal_outcome_reports_swap
    (self : Crystal.CrystalSwap) (amount : Q) (t : nat) :
  match result (Crystal.swap_mon_to_usdc self amount t) with
  | Ok o =>
      crystal_reports_swap "MON" "USDC" amount
        (events (Crystal.swap_mon_to_usdc self amount t)) o \/
      o = failure "Transaction reverted" \/
      o = failure "All attempts failed"
  | Raise _ => True
  end /\
  match result (Crystal.swap_usdc_to_mon self amount t) with
  | Ok o =>
      crystal_reports_swap "USDC" "MON" amount
        (events (Crystal.swap_usdc_to_mon self amount t)) o \/
      o = failure "Transaction reverted" \/
      o = failure "Approval failed" \/
      o = failure "All attempts failed"
  | Raise _ => True
  end.
Proof.
  split.
  - change (wp (Crystal.swap_mon_to_usdc self amount) t
              (fun r e _ =>
                 match r with
                 | Ok o =>
                     crystal_reports_swap "MON" "USDC" amount e o \/
                     o = failure "Transaction reverted" \/
                     o = failure "All attempts failed"
                 | Raise _ => True
                 end)).
    unfold Crystal.swap_mon_to_usdc. wp_prim. wp_prim.
    destruct (to_wei_ether amount) as [amount_wei|x]; cbv beta match; [| exact I].
    repeat wp_prim. wp_use (swap_mon_to_usdc_loop_reports self). intros H. exact H.
  - change (wp (Crystal.swap_usdc_to_mon self amount) t
              (fun r e _ =>
                 match r with
                 | Ok o =>
                     crystal_reports_swap "USDC" "MON" amount e o \/
                     o = failure "Transaction reverted" \/
                     o = failure "Approval failed" \/
                     o = failure "All attempts failed"
                 | Raise _ => True
                 end)).
    unfold Crystal.swap_usdc_to_mon. repeat wp_prim.
    wp_use (swap_usdc_to_mon_loop_reports self). intros H. exact H.
Qed.

(** ** A property of every event, through a session *)

Lemma float_le_false x y : float_le x y = false -> (y < x)%Q.
Proof. unfold float_le, Qlt. intros H. apply Z.leb_gt in H. exact H. Qed.

Lemma int_at_least (n : Z) (x : Q) : 0 <= n -> (float n <= x)%Q -> n <= int x.
Proof.
  unfold float, Qle, int. cbn [Qnum Qden inject_Z]. intros Hn H.
  apply Z.quot_le_lower_bound; lia.
Qed.

Lemma scaled_at_least (n k : Z) (x : Q) (p q : positive) :
  0 <= n -> 0 < k -> n * Z.pos q = k * Z.pos p ->
  (Z.pos p # q <= x)%Q -> n <= int (x * float k)%Q.
Proof.
  intros Hn Hk Heq Hx. apply int_at_least; [assumption|].
  unfold float. unfold Qle in *. cbn [Qnum Qden inject_Z Qmult] in *.
  rewrite Pos.mul_1_r. nia.
Qed.

Section InstanceInvariant.

Import Instance.

Variable self : CrystalSwap.
Variable P : Event -> Prop.

Hypothesis P_balance : forall x, is_balance_query x = true -> P x.

Hypothesis P_swap :
  forall token_from token_to amount t,
    (token_from = "MON" /\ token_to = "USDC") \/
    (token_from = "USDC" /\ token_to = "MON") ->
    (1 # 100 < amount)%Q ->
    wp (swap self token_from token_to amount default_slippage) t
       (fun _ e _ => Forall P e).

Lemma balance_queries_forall e :
  Forall (fun x => is_balance_query x = true) e -> Forall P e.
Proof. intros H. refine (Forall_impl _ _ H). exact P_balance. Qed.

Lemma execute_pause_forall (range : Z * Z) (test : bool) t :
  wp (if test
      then pause_time <- random_randint (web3 self) (fst range) (snd range) ;;
           sleep pause_time
      else ret tt) t
     (fun _ e _ => Forall P e).
Proof.
  destruct test; [| wp_prim; constructor].
  wp_prim. apply wp_random_randint; intros _; [| constructor].
  wp_prim. repeat constructor. apply P_balance. reflexivity.
Qed.

Lemma execute_iteration_forall num_swaps swap_num token_balances t :
  wp (execute_iteration self num_swaps swap_num token_balances) t
     (fun _ e _ => Forall P e).
Proof.
  unfold execute_iteration. wp_prim.
  wp_use (update_balances_spec self). intros (He & m & u & -> & _).
  apply balance_queries_forall in He.
  unfold _select_swap_pair. wp_prim. wp_prim. wp_prim.
  rewrite !dict_get_set. cbn [String.eqb Ascii.eqb Bool.eqb]. cbv beta match.
  wp_prim. wp_prim. rewrite ?dict_get_set. cbn [String.eqb Ascii.eqb Bool.eqb].
  cbv beta match.
  destruct (float_lt m (1 # 1000) && float_lt u (1 # 100)).
  { repeat wp_prim. cbn [falsy orb]. repeat wp_prim. rewrite !app_nil_r. exact He. }
  wp_prim. wp_prim.
  destruct (PERCENT_OF_BALANCE_TO_SWAP (FLOW (config self))) as [min_percent max_percent].
  unfold random_uniform. repeat wp_prim.
  match goal with
  | |- context [if ?c then _ else _] => destruct c
  end.
  - match goal with
    | |- context [float_lt ?a (1 # 1000)] => destruct (float_lt a (1 # 1000))
    end.
    { repeat wp_prim. cbn [falsy orb]. repeat wp_prim. rewrite !app_nil_r. exact He. }
    repeat wp_prim. cbn [falsy orb String.eqb]. cbv beta match.
    match goal with
    | |- context [float_le ?a (1 # 100)] => destruct (float_le a (1 # 100)) eqn:Hguard
    end.
    { repeat wp_prim. rewrite !app_nil_r. exact He. }
    wp_prim. eapply wp_conseq;
      [ apply P_swap; [left; split; reflexivity | apply float_le_false; exact Hguard] |].
    cbv beta. intros r e0 t0 Hs. destruct r; [| forall_events].
    wp_prim. wp_use execute_pause_forall. intros Hp.
    destruct r; repeat wp_prim; forall_events.
  - match goal with
    | |- context [float_lt ?a (1 # 100)] => destruct (float_lt a (1 # 100))
    end.
    { repeat wp_prim. cbn [falsy orb]. repeat wp_prim. rewrite !app_nil_r. exact He. }
    repeat wp_prim. cbn [falsy orb String.eqb]. cbv beta match.
    match goal with
    | |- context [float_le ?a (1 # 100)] => destruct (float_le a (1 # 100)) eqn:Hguard
    end.
    { repeat wp_prim. rewrite !app_nil_r. exact He. }
    wp_prim. eapply wp_conseq;
      [ apply P_swap; [right; split; reflexivity | apply float_le_false; exact Hguard] |].
    cbv beta. intros r e0 t0 Hs. destruct r; [| forall_events].
    wp_prim. wp_use execute_pause_forall. intros Hp.
    destruct r; repeat wp_prim; forall_events.
Qed.

Lemma execute_loop_forall left : forall num_swaps swap_num token_balances t,
  wp (execute_loop self left num_swaps swap_num token_balances) t
     (fun _ e _ => Forall P e).
Proof.
  induction left as [|left IH]; intros num_swaps swap_num token_balances t;
    cbn [execute_loop].
  - wp_prim. constructor.
  - wp_prim. wp_use execute_iteration_forall. intros He.
    destruct r; [| exact He]. wp_use IH. intros He'. forall_events.
Qed.

Lemma execute_forall t :
  wp (execute self) t (fun _ e _ => Forall P e).
Proof.
  unfold execute. destruct (CRYSTAL_SWAP (config self)) as [section|];
    [| wp_prim; constructor].
  destruct (negb (ENABLED section)); [wp_prim; constructor|].
  wp_prim. wp_use (update_balances_spec self). intros (He & m & u & -> & _).
  apply balance_queries_forall in He.
  destruct (NUMBER_OF_SWAPS (FLOW (config self))) as [min_swaps max_swaps].
  wp_prim. apply wp_random_randint; intros _; [| forall_events].
  wp_use execute_loop_forall. intros He'. forall_events.
Qed.

End InstanceInvariant.

Section CrystalInvariant.

Import Crystal.

Variable self : CrystalSwap.
Variable P : Event -> Prop.

Hypothesis P_balance : forall x, is_balance_query x = true -> P x.

Hypothesis P_swap_mon :
  forall amount t,
    (1 # 1000 <= amount)%Q ->
    wp (swap_mon_to_usdc self amount) t (fun _ e _ => Forall P e).

Hypothesis P_swap_usdc :
  forall amount t,
    (1 # 100 <= amount)%Q ->
    wp (swap_usdc_to_mon self amount) t (fun _ e _ => Forall P e).

Lemma crystal_pause_forall (range : Z * Z) (test : bool) t :
  wp (if test
      then pause <- random_randint (web3 self) (fst range) (snd range) ;;
           sleep pause
      else ret tt) t
     (fun _ e _ => Forall P e).
Proof.
  destruct test; [| wp_prim; constructor].
  wp_prim. apply wp_random_randint; intros _; [| constructor].
  wp_prim. repeat constructor. apply P_balance. reflexivity.
Qed.

Lemma crystal_execute_loop_forall left : forall num_swaps swap_num t,
  wp (execute_loop self left num_swaps swap_num) t (fun _ e _ => Forall P e).
Proof.
  induction left as [|left IH]; intros num_swaps swap_num t; cbn [execute_loop].
  - wp_prim. constructor.
  - wp_prim. wp_use (crystal_get_token_balance_spec self). intros [[m ->] Hm].
    apply (Forall_impl _ P_balance) in Hm.
    wp_prim. wp_use (crystal_get_token_balance_spec self). intros [[u ->] Hu].
    apply (Forall_impl _ P_balance) in Hu.
    destruct (float_lt m (1 # 1000) && float_lt u (1 # 100)).
    { wp_prim. forall_events. }
    unfold choose_swap. repeat wp_prim.
    destruct (PERCENT_OF_BALANCE_TO_SWAP (FLOW (config self))) as [min_percent max_percent].
    unfold random_uniform. repeat wp_prim.
    match goal with
    | |- context [if ?c then _ else _] => destruct c
    end.
    + match goal with
      | |- context [float_lt ?a (1 # 1000)] =>
          destruct (float_lt a (1 # 1000)) eqn:Hguard
      end.
      { repeat wp_prim. wp_use IH. intros Hrest. forall_events. }
      repeat wp_prim.
      eapply wp_conseq; [ apply P_swap_mon; apply float_lt_false; exact Hguard |].
      cbv beta. intros r e1 t2 Hs. destruct r; [| forall_events].
      wp_prim. wp_use crystal_pause_forall. intros Hp.
      destruct r; [| forall_events]. wp_use IH. intros Hrest. forall_events.
    + match goal with
      | |- context [float_lt ?a (1 # 100)] =>
          destruct (float_lt a (1 # 100)) eqn:Hguard
      end.
      { repeat wp_prim. wp_use IH. intros Hrest. forall_events. }
      repeat wp_prim.
      eapply wp_conseq; [ apply P_swap_usdc; apply float_lt_false; exact Hguard |].
      cbv beta. intros r e1 t2 Hs. destruct r; [| forall_events].
      wp_prim. wp_use crystal_pause_forall. intros Hp.
      destruct r; [| forall_events]. wp_use IH. intros Hrest. forall_events.
Qed.

Lemma crystal_execute_forall t :
  wp (execute self) t (fun _ e _ => Forall P e).
Proof.
  unfold execute. destruct (CRYSTAL_SWAP (config self)) as [section|];
    [| wp_prim; constructor].
  destruct (negb (ENABLED section)); [wp_prim; constructor|].
  destruct (NUMBER_OF_SWAPS (FLOW (config self))) as [min_swaps max_swaps].
  wp_prim. apply wp_random_randint; intros _; [| constructor].
  wp_use crystal_execute_loop_forall. intros He. exact He.
Qed.

End CrystalInvariant.

(** ** No dust is swapped *)

Lemma to_wei_at_least (n : Z) (p q : positive) amount amount_wei :
  0 <= n -> n * Z.pos q = 10 ^ 18 * Z.pos p ->
  (Z.pos p # q <= amount)%Q ->
  to_wei_ether amount = Ok amount_wei -> n <= amount_wei.
Proof.
  intros Hn Heq Hle. unfold to_wei_ether.
  destruct (_ || _); [discriminate|]. intros H. injection H as <-.
  apply (scaled_at_least n (10 ^ 18) amount p q); [assumption | reflexivity | | ];
    assumption.
Qed.

Lemma instance_request_above_dust self token_a token_b amount tx :
  native token_a = true \/ decimals token_a = 6 ->
  (1 # 100 < amount)%Q ->
  instance_request self token_a token_b amount tx ->
  above_dust (10 ^ 16) (10 ^ 4) tx.
Proof.
  intros Htoken Hamount (_ & _ & _ & Hdata). unfold above_dust.
  apply Qlt_le_weak in Hamount.
  destruct (tx_data tx); [| | exact I].
  - destruct Hdata as (_ & _ & (v & Hwei & Hvalue) & _).
    exists v. split; [exact Hvalue|].
    apply (to_wei_at_least (10 ^ 16) 1 100 amount v); [lia | reflexivity | | ];
      assumption.
  - destruct Hdata as (Hnative & _ & _ & -> & _).
    destruct Htoken as [Htoken|Htoken]; [congruence|]. rewrite Htoken.
    apply (scaled_at_least (10 ^ 4) (10 ^ 6) amount 1 100); [lia | lia | reflexivity|].
    assumption.
Qed.

(** X12. No session swaps dust. Every swap that [execute] of
    [instance.py] gets broadcast moves more than 0.01 of its source token,
    MON as well as USDC: at least [10^16] wei, or [10^4] units of USDC;
    the threshold of 0.001 MON of [_select_swap_pair] is overridden by the
    guard of [execute]. Every swap that [execute] of [crystal_swap.py]
    gets broadcast moves at least 0.001 MON ([10^15] wei) or 0.01 USDC. *)
Theorem sessions_swap_no_dust
    (si : Instance.CrystalSwap) (sc : Crystal.CrystalSwap) (t : nat) :
  Forall (every_broadcast (above_dust (10 ^ 16) (10 ^ 4)))
    (events (Instance.execute si t)) /\
  Forall (every_broadcast (above_dust (10 ^ 15) (10 ^ 4)))
    (events (Crystal.execute sc t)).
Proof.
  split.
  - apply (execute_forall si (every_broadcast (above_dust (10 ^ 16) (10 ^ 4)))).
    + intros x Hx. destruct x; try discriminate Hx; exact I.
    + intros token_from token_to amount t' Hpair Hamount.
      destruct Hpair as [[-> ->]|[-> ->]].
      * apply (every_broadcast_impl
                 (instance_request si (mkToken "MON" None 18 true)
                    (mkToken "USDC" (Some Instance.USDC_CONTRACT) 6 false) amount)).
        -- intros tx. apply instance_request_above_dust; [left; reflexivity | exact Hamount].
        -- apply swap_request; reflexivity.
      * apply (every_broadcast_impl
                 (instance_request si
                    (mkToken "USDC" (Some Instance.USDC_CONTRACT) 6 false)
                    (mkToken "MON" None 18 true) amount)).
        -- intros tx. apply instance_request_above_dust; [right; reflexivity | exact Hamount].
        -- apply swap_request; reflexivity.
  - apply (crystal_execute_forall sc (every_broadcast (above_dust (10 ^ 15) (10 ^ 4)))).
    + intros x Hx. destruct x; try discriminate Hx; exact I.
    + intros amount t' Hamount.
      apply (every_broadcast_impl (crystal_mon_request sc amount t')).
      * intros tx (_ & _ & _ & _ & (v & Hwei & Hvalue) & Hdata).
        unfold above_dust. rewrite Hdata. exists v. split; [exact Hvalue|].
        apply (to_wei_at_least (10 ^ 15) 1 1000 amount v); [lia | reflexivity | | ];
          assumption.
      * apply swap_mon_to_usdc_request.
    + intros amount t' Hamount.
      apply (every_broadcast_impl (crystal_usdc_request sc amount t')).
      * intros tx (_ & _ & _ & _ & [[_ Hdata]|[_ Hdata]]);
          unfold above_dust; rewrite Hdata; [exact I|].
        apply (scaled_at_least (10 ^ 4) (10 ^ 6) amount 1 100);
          [lia | lia | reflexivity | assumption].
      * apply swap_usdc_to_mon_request.
Qed.

(** ** Sessions that return, and sessions that raise *)

Section InstanceReturns.

Import Instance.

Variable self : CrystalSwap.

Hypothesis pause_ok : pause_range_ok (SETTINGS (config self)).
Hypothesis actions_ok : range_ok (RANDOM_PAUSE_BETWEEN_ACTIONS (SETTINGS (config self))).

Lemma swap_returns token_from token_to amount slippage t :
  wp (swap self token_from token_to amount slippage) t
     (fun r _ _ => exists o, r = Ok o).
Proof.
  wp_use (swap_loop_spec self token_from token_to amount slippage pause_ok).
  intros (_ & o & -> & _). eauto.
Qed.

Lemma execute_pause_returns (test : bool) t :
  wp (if test
      then pause_time <- random_randint (web3 self)
                           (fst (RANDOM_PAUSE_BETWEEN_ACTIONS (SETTINGS (config self))))
                           (snd (RANDOM_PAUSE_BETWEEN_ACTIONS (SETTINGS (config self)))) ;;
           sleep pause_time
      else ret tt) t
     (fun r _ _ => r = Ok tt).
Proof.
  destruct test; [| wp_prim; reflexivity].
  wp_prim. apply wp_random_randint; intros H.
  - wp_prim. reflexivity.
  - unfold range_ok in actions_ok. lia.
Qed.

Lemma execute_iteration_returns num_swaps swap_num token_balances t :
  wp (execute_iteration self num_swaps swap_num token_balances) t
     (fun r _ _ => exists token_balances', r = Ok token_balances').
Proof.
  unfold execute_iteration. wp_prim.
  wp_use (update_balances_spec self). intros (He & m & u & -> & _).
  unfold _select_swap_pair. wp_prim. wp_prim. wp_prim.
  rewrite !dict_get_set. cbn [String.eqb Ascii.eqb Bool.eqb]. cbv beta match.
  wp_prim. wp_prim. rewrite ?dict_get_set. cbn [String.eqb Ascii.eqb Bool.eqb].
  cbv beta match.
  destruct (float_lt m (1 # 1000) && float_lt u (1 # 100)).
  { repeat wp_prim. cbn [falsy orb]. repeat wp_prim. eauto. }
  wp_prim. wp_prim.
  destruct (PERCENT_OF_BALANCE_TO_SWAP (FLOW (config self))) as [min_percent max_percent].
  unfold random_uniform. repeat wp_prim.
  match goal with
  | |- context [if ?c then _ else _] => destruct c
  end.
  - match goal with
    | |- context [float_lt ?a (1 # 1000)] => destruct (float_lt a (1 # 1000))
    end.
    { repeat wp_prim. cbn [falsy orb]. repeat wp_prim. eauto. }
    repeat wp_prim. cbn [falsy orb String.eqb]. cbv beta match.
    match goal with
    | |- context [float_le ?a (1 # 100)] => destruct (float_le a (1 # 100))
    end.
    { repeat wp_prim. eauto. }
    wp_prim. wp_use swap_returns. intros [o ->].
    wp_prim. wp_use execute_pause_returns. intros ->.
    repeat wp_prim. eauto.
  - match goal with
    | |- context [float_lt ?a (1 # 100)] => destruct (float_lt a (1 # 100))
    end.
    { repeat wp_prim. cbn [falsy orb]. repeat wp_prim. eauto. }
    repeat wp_prim. cbn [falsy orb String.eqb]. cbv beta match.
    match goal with
    | |- context [float_le ?a (1 # 100)] => destruct (float_le a (1 # 100))
    end.
    { repeat wp_prim. eauto. }
    wp_prim. wp_use swap_returns. intros [o ->].
    wp_prim. wp_use execute_pause_returns. intros ->.
    repeat wp_prim. eauto.
Qed.

Lemma execute_loop_returns left : forall num_swaps swap_num token_balances t,
  wp (execute_loop self left num_swaps swap_num token_balances) t
     (fun r _ _ => r = Ok tt).
Proof.
  induction left as [|left IH]; intros num_swaps swap_num token_balances t;
    cbn [execute_loop].
  - wp_prim. reflexivity.
  - wp_prim. wp_use execute_iteration_returns. intros [tb ->].
    wp_use IH. intros ->. reflexivity.
Qed.

End InstanceReturns.

Lemma execute_instance_returns self t :
  instance_ranges_ok (Instance.config self) ->
  wp (Instance.execute self) t (fun r _ _ => r = Ok tt).
Proof.
  intros (Hpause & Hactions & Hswaps).
  unfold Instance.execute.
  destruct (CRYSTAL_SWAP (Instance.config self)) as [section|]; [| wp_prim; reflexivity].
  destruct (negb (ENABLED section)); [wp_prim; reflexivity|].
  wp_prim. wp_use (update_balances_spec self). intros (He & m & u & -> & _).
  unfold range_ok in Hswaps.
  destruct (NUMBER_OF_SWAPS (FLOW (Instance.config self))) as [min_swaps max_swaps].
  cbn [fst snd] in Hswaps.
  wp_prim. apply wp_random_randint; intros H; [| lia].
  wp_use (execute_loop_returns self Hpause Hactions). intros ->. reflexivity.
Qed.

Lemma execute_instance_empty_range self t :
  enabled (Instance.config self) ->
  ~ range_ok (NUMBER_OF_SWAPS (FLOW (Instance.config self))) ->
  wp (Instance.execute self) t
     (fun r e _ =>
        r = Raise (ValueError "empty range for randrange()") /\
        Forall (fun x => is_balance_query x = true) e).
Proof.
  intros (section & Hsection & Henabled) Hswaps.
  unfold Instance.execute. rewrite Hsection, Henabled. cbn [negb].
  wp_prim. wp_use (update_balances_spec self). intros (He & m & u & -> & _).
  unfold range_ok in Hswaps.
  destruct (NUMBER_OF_SWAPS (FLOW (Instance.config self))) as [min_swaps max_swaps].
  cbn [fst snd] in Hswaps.
  wp_prim. apply wp_random_randint; intros H; [lia|].
  split; [reflexivity | forall_events].
Qed.

(** X13. With the three ranges of the configuration in order (the pause
    between passes, [RANDOM_PAUSE_BETWEEN_ACTIONS] and the number of
    swaps), [execute] of [instance.py] returns: no failure of the node, of
    the signer or of a swap reaches its caller. *)
Theorem execute_returns
    (self : Instance.CrystalSwap) (t : nat) :
  instance_ranges_ok (Instance.config self) ->
  result (Instance.execute self t) = Ok tt.
Proof. intros H. apply (execute_instance_returns self t H). Qed.

Lemma execute_returns_witness :
  result (Instance.execute (Scenario.instance 2 2 Scenario.rich_node) 0%nat) = Ok tt.
Proof.
  apply (execute_returns (Scenario.instance 2 2 Scenario.rich_node) 0%nat).
  unfold instance_ranges_ok, range_ok. cbn. lia.
Defined.

(** X14. [execute] of [instance.py] draws the number of swaps outside any
    [try]: with the module switched on and a range for the number of swaps
    whose lower end is above its upper end, the session raises the
    [ValueError] of [random.randint], after the first balance queries and
    before any swap. *)
Theorem execute_raises_on_empty_range
    (self : Instance.CrystalSwap) (t : nat) :
  enabled (Instance.config self) ->
  ~ range_ok (NUMBER_OF_SWAPS (FLOW (Instance.config self))) ->
  result (Instance.execute self t) = Raise (ValueError "empty range for randrange()") /\
  Forall (fun x => is_balance_query x = true) (events (Instance.execute self t)).
Proof. intros He Hr. apply (execute_instance_empty_range self t He Hr). Qed.

Lemma execute_raises_on_empty_range_witness :
  result (Instance.execute
            (Instance.mkCrystalSwap 1 "key" (cfg_with_swaps 2 (5, 3)) Scenario.wallet
               Scenario.rich_node) 0%nat)
    = Raise (ValueError "empty range for randrange()").
Proof.
  apply (execute_raises_on_empty_range
           (Instance.mkCrystalSwap 1 "key" (cfg_with_swaps 2 (5, 3)) Scenario.wallet
              Scenario.rich_node) 0%nat).
  - eexists. split; reflexivity.
  - unfold range_ok. cbn. lia.
Defined.

Lemma int_at_most (n : Z) (x : Q) : (0 <= x)%Q -> (x <= float n)%Q -> 0 <= int x <= n.
Proof.
  unfold float, Qle, int. cbn [Qnum Qden inject_Z]. intros H0 Hn.
  rewrite Z.mul_1_r in *. rewrite Z.quot_div_nonneg by lia.
  split; [apply Z.div_pos; lia|].
  apply Z.div_le_upper_bound; lia.
Qed.

Lemma to_wei_accepts (x : Q) :
  (0 <= x)%Q -> (x * float (10 ^ 18) <= float MAX_UINT256)%Q ->
  exists n, to_wei_ether x = Ok n.
Proof.
  intros H0 Hmax. unfold to_wei_ether.
  assert (Hpos : (0 <= x * float (10 ^ 18))%Q).
  { apply Qmult_le_0_compat; [assumption | discriminate]. }
  destruct (int_at_most MAX_UINT256 _ Hpos Hmax) as [Hlo Hhi].
  destruct (Z.ltb_spec (int (x * float (10 ^ 18))) 0) as [|_]; [lia|].
  destruct (Z.ltb_spec MAX_UINT256 (int (x * float (10 ^ 18)))) as [|_]; [lia|].
  cbn [orb]. eauto.
Qed.

Section CrystalReturns.

Import Crystal.

Variable self : CrystalSwap.

Hypothesis session_ok : crystal_session_ok self.

Lemma crystal_mon_balance_fits t :
  wp (get_token_balance self (MON self)) t
     (fun r _ _ =>
        exists balance, r = Ok balance /\
                        (balance * float (10 ^ 18) <= float MAX_UINT256)%Q).
Proof.
  destruct session_ok as (_ & _ & Hnative & Hfits).
  unfold get_token_balance. rewrite Hnative. repeat wp_prim.
  destruct (eth_get_balance (web3 self) t) as [v|x] eqn:Hv; repeat wp_prim.
  - eexists. split; [reflexivity|]. apply Hfits in Hv.
    unfold from_wei_ether. rewrite Qmult_comm, Qmult_div_r by discriminate.
    unfold float. rewrite <- Zle_Qle. exact Hv.
  - eexists. split; [reflexivity|]. vm_compute. discriminate.
Qed.

Lemma swap_mon_to_usdc_returns amount t :
  (0 <= amount)%Q -> (amount * float (10 ^ 18) <= float MAX_UINT256)%Q ->
  wp (swap_mon_to_usdc self amount) t (fun r _ _ => exists o, r = Ok o).
Proof.
  intros H0 Hmax. destruct (to_wei_accepts amount H0 Hmax) as [n Hn].
  destruct session_ok as ((Hpause & _) & _).
  unfold swap_mon_to_usdc. wp_prim. wp_prim. rewrite Hn. repeat wp_prim.
  wp_use (swap_mon_to_usdc_loop_spec self Hpause). intros (_ & o & -> & _). eauto.
Qed.

Lemma swap_usdc_to_mon_returns amount t :
  wp (swap_usdc_to_mon self amount) t (fun r _ _ => exists o, r = Ok o).
Proof.
  destruct session_ok as ((Hpause & _) & _).
  unfold swap_usdc_to_mon. repeat wp_prim.
  wp_use (swap_usdc_to_mon_loop_spec self Hpause). intros (_ & o & -> & _). eauto.
Qed.

Lemma crystal_pause_returns (test : bool) t :
  wp (if test
      then pause <- random_randint (web3 self)
                      (fst (PAUSE_BETWEEN_SWAPS (SETTINGS (config self))))
                      (snd (PAUSE_BETWEEN_SWAPS (SETTINGS (config self)))) ;;
           sleep pause
      else ret tt) t
     (fun r _ _ => r = Ok tt).
Proof.
  destruct session_ok as ((_ & Hswaps & _) & _). unfold range_ok in Hswaps.
  destruct test; [| wp_prim; reflexivity].
  wp_prim. apply wp_random_randint; intros H; [| lia].
  wp_prim. reflexivity.
Qed.

Lemma crystal_execute_loop_returns left : forall num_swaps swap_num t,
  wp (execute_loop self left num_swaps swap_num) t (fun r _ _ => r = Ok tt).
Proof.
  pose proof session_ok as (_ & Hrange & _).
  induction left as [|left IH]; intros num_swaps swap_num t; cbn [execute_loop].
  - wp_prim. reflexivity.
  - wp_prim. wp_use crystal_mon_balance_fits. intros (m & -> & Hm).
    wp_prim. wp_use (crystal_get_token_balance_spec self). intros [[u ->] _].
    destruct (float_lt m (1 # 1000) && float_lt u (1 # 100)).
    { wp_prim. reflexivity. }
    unfold choose_swap. repeat wp_prim.
    destruct (PERCENT_OF_BALANCE_TO_SWAP (FLOW (config self)))
      as [min_percent max_percent] eqn:Hp.
    unfold random_uniform. repeat wp_prim.
    match goal with
    | |- context [if ?c then _ else _] => destruct c
    end.
    + match goal with
      | |- context [float_lt ?a (1 # 1000)] =>
          destruct (float_lt a (1 # 1000)) eqn:Hguard
      end.
      { repeat wp_prim. wp_use IH. intros ->. reflexivity. }
      repeat wp_prim.
      match type of Hguard with
      | float_lt ?a _ = false => assert (Hshare : (1 # 1000 <= a <= m)%Q)
      end.
      { split; [apply float_lt_false; exact Hguard|]. intent_leaf Hrange. }
      destruct Hshare as [Hlo Hhi].
      eapply wp_conseq; [ apply swap_mon_to_usdc_returns |].
      * eapply Qle_trans; [| exact Hlo]. discriminate.
      * eapply Qle_trans; [| exact Hm].
        apply Qmult_le_compat_r; [exact Hhi | discriminate].
      * cbv beta. intros r e1 t2 [o ->].
        wp_prim. wp_use crystal_pause_returns. intros ->.
        wp_use IH. intros ->. reflexivity.
    + match goal with
      | |- context [float_lt ?a (1 # 100)] => destruct (float_lt a (1 # 100))
      end.
      { repeat wp_prim. wp_use IH. intros ->. reflexivity. }
      repeat wp_prim. wp_use swap_usdc_to_mon_returns. intros [o ->].
      wp_prim. wp_use crystal_pause_returns. intros ->.
      wp_use IH. intros ->. reflexivity.
Qed.

End CrystalReturns.

Lemma execute_crystal_returns self t :
  crystal_session_ok self ->
  wp (Crystal.execute self) t (fun r _ _ => r = Ok tt).
Proof.
  intros Hok. pose proof Hok as ((_ & _ & Hswaps) & _).
  unfold Crystal.execute.
  destruct (CRYSTAL_SWAP (Crystal.config self)) as [section|]; [| wp_prim; reflexivity].
  destruct (negb (ENABLED section)); [wp_prim; reflexivity|].
  unfold range_ok in Hswaps.
  destruct (NUMBER_OF_SWAPS (FLOW (Crystal.config self))) as [min_swaps max_swaps].
  cbn [fst snd] in Hswaps.
  wp_prim. apply wp_random_randint; intros H; [| lia].
  wp_use (crystal_execute_loop_returns self Hok). intros ->. reflexivity.
Qed.



(** ** The cost of a balance query *)

Section BalanceRetries.

Import Instance.

Variable self : CrystalSwap.

Ltac count_events :=
  unfold sleeps, balance_calls in *; cbn [filter app is_sleep is_balance_call List.length] in *.

Lemma get_token_balance_loop_budget remaining : forall wallet token t,
  wp (get_token_balance_loop self remaining wallet token) t
     (fun r e _ => balance_retry_contract (web3 self) token remaining r e).
Proof.
  unfold balance_retry_contract.
  induction remaining as [|k IH]; intros wallet token t; cbn [get_token_balance_loop].
  - wp_prim. cbn. repeat split; try lia; try constructor.
  - destruct (to_checksum_address _ wallet) as [w'|x].
    + repeat wp_prim. destruct (native token) eqn:Hnative; repeat wp_prim.
      * destruct (eth_get_balance _ t) as [v|y] eqn:Hv; repeat wp_prim.
        -- cbn. repeat split; try lia; try (repeat constructor).
           intros _. exists t. unfold balance_answer. rewrite Hnative, Hv. reflexivity.
        -- wp_use IH. intros (Hp & Hs & Hc & Hcs & Hzero & Hans).
           cbn [app]. count_events.
           repeat split; try lia; try (repeat constructor; assumption).
           ++ intros Heq. apply Hzero. lia.
           ++ intros Hlt. apply Hans. lia.
      * destruct (usdc_balanceOf _ t) as [v|y] eqn:Hv; repeat wp_prim.
        -- cbn. repeat split; try lia; try (repeat constructor).
           intros _. exists t. unfold balance_answer. rewrite Hnative, Hv. reflexivity.
        -- wp_use IH. intros (Hp & Hs & Hc & Hcs & Hzero & Hans).
           cbn [app]. count_events.
           repeat split; try lia; try (repeat constructor; assumption).
           ++ intros Heq. apply Hzero. lia.
           ++ intros Hlt. apply Hans. lia.
    + repeat wp_prim. wp_use IH. intros (Hp & Hs & Hc & Hcs & Hzero & Hans).
      cbn [app]. count_events.
      repeat split; try lia; try (repeat constructor; assumption).
      * intros Heq. apply Hzero. lia.
      * intros Hlt. apply Hans. lia.
Qed.

Lemma get_token_balance_loop_down remaining : forall wallet token t,
  rpc_unreachable (web3 self) -> checksum_accepts (web3 self) ->
  wp (get_token_balance_loop self remaining wallet token) t
     (fun r e _ => balance_calls e = remaining /\ sleeps e = remaining).
Proof.
  intros wallet token t Hdown Hsum. revert wallet t.
  induction remaining as [|k IH]; intros wallet t; cbn [get_token_balance_loop].
  - wp_prim. split; reflexivity.
  - destruct (Hdown t) as [[e1 H1] [e2 H2]].
    destruct (Hsum wallet) as [w' ->].
    repeat wp_prim. destruct (native token); repeat wp_prim;
      rewrite ?H1, ?H2; repeat wp_prim; wp_use IH; intros [Hc Hs];
      cbn [app]; count_events; split; lia.
Qed.

Lemma get_token_balance_loop_refused remaining : forall wallet token t x,
  to_checksum_address (web3 self) wallet = Raise x ->
  wp (get_token_balance_loop self remaining wallet token) t
     (fun r e _ => r = Ok 0%Q /\ balance_calls e = 0%nat /\ sleeps e = remaining).
Proof.
  intros wallet token t x Hsum. revert t.
  induction remaining as [|k IH]; intros t; cbn [get_token_balance_loop].
  - wp_prim. repeat split; reflexivity.
  - rewrite Hsum. repeat wp_prim. wp_use IH. intros (-> & Hc & Hs).
    cbn [app]. count_events. repeat split; lia.
Qed.

End BalanceRetries.

(** X16. The cost of [get_token_balance] of [instance.py]: it makes at
    most 16 balance calls and sleeps at most 16 times, one second each,
    doing nothing else; it calls the node at most once more often than it
    sleeps. If it slept fewer than 16 times, what it returns is an answer
    of the node, converted to units of the token; if it slept 16 times, it
    returns 0. *)
Theorem get_token_balance_retry_budget
    (self : Instance.CrystalSwap) (wallet_address : address) (token : Token) (t : nat) :
  balance_retry_contract (Instance.web3 self) token 16
    (result (Instance.get_token_balance self wallet_address token t))
    (events (Instance.get_token_balance self wallet_address token t)).
Proof.
  apply (get_token_balance_loop_budget self 16 wallet_address token t).
Qed.

(** X17. Where [get_token_balance] of [instance.py] gives up. On a node
    that answers no balance call, it makes all 16 calls and sleeps 16
    times. For an address that the checksum conversion refuses, it makes
    no call at all and still sleeps 16 times, before it returns 0 as for
    an empty account. *)
Theorem get_token_balance_gives_up
    (self : Instance.CrystalSwap) (wallet_address : address) (token : Token) (t : nat) :
  (rpc_unreachable (Instance.web3 self) -> checksum_accepts (Instance.web3 self) ->
   balance_calls (events (Instance.get_token_balance self wallet_address token t)) = 16%nat /\
   sleeps (events (Instance.get_token_balance self wallet_address token t)) = 16%nat) /\
  ((exists x, to_checksum_address (Instance.web3 self) wallet_address = Raise x) ->
   result (Instance.get_token_balance self wallet_address token t) = Ok 0%Q /\
   balance_calls (events (Instance.get_token_balance self wallet_address token t)) = 0%nat /\
   sleeps (events (Instance.get_token_balance self wallet_address token t)) = 16%nat).
Proof.
  split.
  - intros Hdown Hsum.
    apply (get_token_balance_loop_down self 16 wallet_address token t Hdown Hsum).
  - intros [x Hx].
    apply (get_token_balance_loop_refused self 16 wallet_address token t x Hx).
Qed.

Lemma get_token_balance_gives_up_witness :
  (balance_calls (events (Instance.get_token_balance
                            (Scenario.instance 3 2 Scenario.unreachable_node)
                            Scenario.wallet Scenario.USDC_token 0%nat)) = 16%nat /\
   sleeps (events (Instance.get_token_balance
                     (Scenario.instance 3 2 Scenario.unreachable_node)
                     Scenario.wallet Scenario.USDC_token 0%nat)) = 16%nat) /\
  (result (Instance.get_token_balance
             (Scenario.instance 3 2 (without_checksum Scenario.rich_node))
             Scenario.wallet Scenario.USDC_token 0%nat) = Ok 0%Q /\
   balance_calls (events (Instance.get_token_balance
                            (Scenario.instance 3 2 (without_checksum Scenario.rich_node))
                            Scenario.wallet Scenario.USDC_token 0%nat)) = 0%nat /\
   sleeps (events (Instance.get_token_balance
                     (Scenario.instance 3 2 (without_checksum Scenario.rich_node))
                     Scenario.wallet Scenario.USDC_token 0%nat)) = 16%nat).
Proof.
  split.
  - apply (get_token_balance_gives_up (Scenario.instance 3 2 Scenario.unreachable_node)
             Scenario.wallet Scenario.USDC_token 0%nat).
    + intros t. split; eexists; reflexivity.
    + intros a. eexists. reflexivity.
  - apply (get_token_balance_gives_up
             (Scenario.instance 3 2 (without_checksum Scenario.rich_node))
             Scenario.wallet Scenario.USDC_token 0%nat).
    eexists. reflexivity.
Defined.

(** ** How much a swap call may send *)

Ltac count_leaf :=
  cbn [app]; rewrite ?count_app;
  repeat match goal with
         | H : Forall _ ?l |- context [count ?p ?l] =>
             rewrite (count_none p l) by forall_events
         end;
  cbn; rewrite_tests; cbn; lia.

Lemma swap_attempt_budget self token_from token_to amount slippage t :
  wp (Instance.swap_attempt self token_from token_to amount slippage) t
     (fun r e _ =>
        Forall (fun x => is_attempt x = false) e /\
        (count is_swap_broadcast e <= 1)%nat /\
        (count is_approval_broadcast e <= 1)%nat /\
        match r with
        | Ok (Return _) => count confirmed_swap e = 1%nat
        | _ => count confirmed_swap e = 0%nat
        end).
Proof.
  unfold Instance.swap_attempt. wp_run.
  all: split; [solve [forall_events]|].
  all: split; [count_leaf|].
  all: split; count_leaf.
Qed.

Lemma count_sleeps p e :
  (forall seconds, p (EvSleep seconds) = false) ->
  Forall (fun x => is_sleep x = true) e -> count p e = 0%nat.
Proof.
  intros Hp H. apply count_none. refine (Forall_impl _ _ H).
  intros x; destruct x; cbn; try discriminate. intros _. apply Hp.
Qed.

Ltac loop_counts :=
  repeat match goal with
         | H : Forall (fun x => is_sleep x = true) ?l |- _ =>
             pose proof (count_sleeps is_attempt l (fun _ => eq_refl) H);
             pose proof (count_sleeps is_swap_broadcast l (fun _ => eq_refl) H);
             pose proof (count_sleeps is_approval_broadcast l (fun _ => eq_refl) H);
             pose proof (count_sleeps confirmed_swap l (fun _ => eq_refl) H);
             pose proof (count_sleeps swap_receipt l (fun _ => eq_refl) H);
             clear H
         | H : Forall (fun x => is_attempt x = false) ?l |- _ =>
             pose proof (count_none is_attempt l H); clear H
         end;
  unfold attempts, count in *;
  rewrite ?app_nil_r, ?filter_app, ?length_app;
  cbn [filter List.length is_attempt is_swap_broadcast is_approval_broadcast
       confirmed_swap swap_receipt];
  lia.

Lemma swap_loop_budget self token_from token_to amount slippage left :
  forall retry t,
    wp (Instance.swap_loop self left retry token_from token_to amount slippage) t
       (fun _ e _ => within_budget left e).
Proof.
  unfold within_budget.
  induction left as [|left' IH]; intros retry t; cbn [Instance.swap_loop].
  - wp_prim. cbn. lia.
  - repeat wp_prim. wp_use swap_attempt_budget. intros (Hu & Hs & Ha & Hc).
    destruct r as [[o|]|x]; cbv beta match.
    + wp_prim. repeat split; loop_counts.
    + wp_use IH. intros (Hn & Hs' & Ha' & Hc'). repeat split; loop_counts.
    + wp_prim. wp_use swap_handler_sleeps. intros Hh.
      destruct r; cbv beta match.
      * wp_use IH. intros (Hn & Hs' & Ha' & Hc'). repeat split; loop_counts.
      * repeat split; loop_counts.
Qed.

Lemma swap_attempt_native self token_from token_to token_a amount slippage t :
  dict_get Instance.AVAILABLE_TOKENS token_from = Ok token_a ->
  native token_a = true ->
  wp (Instance.swap_attempt self token_from token_to amount slippage) t
     (fun _ e _ => Forall no_approval e).
Proof.
  intros Ha Hnative. unfold Instance.swap_attempt, no_approval. wp_run.
  all: forall_with ltac:(split; reflexivity).
Qed.

(** X18. What one call of [swap] of [instance.py] may send: it makes at
    most [ATTEMPTS] passes, broadcasts at most one swap and at most one
    approval per pass, and sees at most one swap confirmed, since the first
    confirmed receipt ends the call. When the source token is the native
    one, it neither asks for an allowance nor broadcasts an approval. *)
Theorem swap_within_budget
    (self : Instance.CrystalSwap) (token_from token_to : string) (token_a : Token)
    (amount slippage : Q) (t : nat) :
  within_budget (Z.to_nat (ATTEMPTS (SETTINGS (Instance.config self))))
    (events (Instance.swap self token_from token_to amount slippage t)) /\
  (dict_get Instance.AVAILABLE_TOKENS token_from = Ok token_a ->
   native token_a = true ->
   Forall no_approval (events (Instance.swap self token_from token_to amount slippage t))).
Proof.
  split.
  - apply (swap_loop_budget self token_from token_to amount slippage).
  - intros Ha Hnative.
    apply (swap_loop_forall no_approval
             (fun _ => conj eq_refl eq_refl) (fun _ => conj eq_refl eq_refl)
             self token_from token_to amount slippage).
    intros t'. apply (swap_attempt_native self token_from token_to token_a); assumption.
Qed.

Lemma swap_within_budget_witness :
  within_budget 2
    (events (Instance.swap (Scenario.instance 2 2 Scenario.rich_node)
               "MON" "USDC" (1 # 2) (1 # 2) 0%nat)) /\
  Forall no_approval
    (events (Instance.swap (Scenario.instance 2 2 Scenario.rich_node)
               "MON" "USDC" (1 # 2) (1 # 2) 0%nat)).
Proof.
  destruct (swap_within_budget (Scenario.instance 2 2 Scenario.rich_node)
              "MON" "USDC" (mkToken "MON" None 18 true) (1 # 2) (1 # 2) 0%nat)
    as [Hbudget Hnative].
  split; [exact Hbudget | apply Hnative; reflexivity].
Defined.

Section CrystalBudget.

Import Crystal.

Variable self : CrystalSwap.

Lemma swap_mon_to_usdc_attempt_budget amount amount_wei path deadline t :
  wp (swap_mon_to_usdc_attempt self amount amount_wei path deadline) t
     (fun r e _ =>
        Forall (fun x => is_attempt x = false) e /\
        Forall no_approval e /\
        (count is_swap_broadcast e <= 1)%nat /\
        count is_approval_broadcast e = 0%nat /\
        match r with
        | Ok _ => count swap_receipt e = 1%nat
        | Raise _ => count swap_receipt e = 0%nat
        end).
Proof.
  unfold swap_mon_to_usdc_attempt, no_approval. wp_run.
  all: split; [solve [forall_events]|].
  all: split; [solve [forall_with ltac:(split; reflexivity)]|].
  all: split; [count_leaf|].
  all: split; count_leaf.
Qed.

Lemma swap_usdc_to_mon_attempt_budget amount amount_wei path deadline t :
  wp (swap_usdc_to_mon_attempt self amount amount_wei path deadline) t
     (fun r e _ =>
        Forall (fun x => is_attempt x = false) e /\
        (count is_swap_broadcast e <= 1)%nat /\
        (count is_approval_broadcast e <= 1)%nat /\
        match r with
        | Ok _ => (count swap_receipt e <= 1)%nat
        | Raise _ => count swap_receipt e = 0%nat
        end).
Proof.
  unfold swap_usdc_to_mon_attempt. wp_run.
  all: split; [solve [forall_events]|].
  all: split; [count_leaf|].
  all: split; count_leaf.
Qed.

Lemma crystal_loop_budget (body rest : M Outcome) left attempt t :
  (forall t', wp body t'
     (fun r e _ =>
        Forall (fun x => is_attempt x = false) e /\
        (count is_swap_broadcast e <= 1)%nat /\
        (count is_approval_broadcast e <= 1)%nat /\
        match r with
        | Ok _ => (count swap_receipt e <= 1)%nat
        | Raise _ => count swap_receipt e = 0%nat
        end)) ->
  (forall t', wp rest t' (fun _ e _ => within_crystal_budget left e)) ->
  wp (mark (EvAttempt attempt) ;;
      r <- try_catch body ;;
      match r with
      | Ok outcome => ret outcome
      | Raise e => swap_handler self attempt e ;; rest
      end) t
     (fun _ e _ => within_crystal_budget (S left) e).
Proof.
  unfold within_crystal_budget.
  intros Hbody Hrest. repeat wp_prim. wp_use Hbody. intros (Hu & Hs & Ha & Hc).
  destruct r as [o|x]; cbv beta match.
  - wp_prim. repeat split; loop_counts.
  - wp_prim. wp_use crystal_swap_handler_sleeps. intros Hh.
    destruct r; cbv beta match.
    + wp_use Hrest. intros (Hn & Hs' & Ha' & Hc'). repeat split; loop_counts.
    + repeat split; loop_counts.
Qed.

Lemma swap_mon_to_usdc_loop_budget amount amount_wei path deadline left :
  forall attempt t,
    wp (swap_mon_to_usdc_loop self left attempt amount amount_wei path deadline) t
       (fun _ e _ => within_crystal_budget left e).
Proof.
  induction left as [|left' IH]; intros attempt t; cbn [swap_mon_to_usdc_loop].
  - wp_prim. unfold within_crystal_budget. cbn. lia.
  - apply crystal_loop_budget; [| apply IH].
    intros t'. wp_use swap_mon_to_usdc_attempt_budget. intros (Hu & _ & Hs & Ha & Hc).
    repeat split; try assumption; try lia. destruct r; lia.
Qed.

Lemma swap_usdc_to_mon_loop_budget amount amount_wei path deadline left :
  forall attempt t,
    wp (swap_usdc_to_mon_loop self left attempt amount amount_wei path deadline) t
       (fun _ e _ => within_crystal_budget left e).
Proof.
  induction left as [|left' IH]; intros attempt t; cbn [swap_usdc_to_mon_loop].
  - wp_prim. unfold within_crystal_budget. cbn. lia.
  - apply crystal_loop_budget; [| apply IH].
    intros t'. apply swap_usdc_to_mon_attempt_budget.
Qed.

Lemma swap_mon_to_usdc_no_approval amount t :
  wp (swap_mon_to_usdc self amount) t (fun _ e _ => Forall no_approval e).
Proof.
  unfold swap_mon_to_usdc. wp_prim. wp_prim.
  destruct (to_wei_ether amount) as [amount_wei|x]; cbv beta match; [| constructor].
  repeat wp_prim.
  eapply wp_conseq;
    [ apply (swap_mon_to_usdc_loop_forall no_approval
               (fun _ => conj eq_refl eq_refl) (fun _ => conj eq_refl eq_refl))
    | intros ? ? ? H; exact H ].
  intros t'. wp_use swap_mon_to_usdc_attempt_budget. intros (_ & H & _). exact H.
Qed.

End CrystalBudget.

(** X19. What one call of a swap routine of [crystal_swap.py] may send:
    at most [ATTEMPTS] passes, at most one swap and one approval broadcast
    per pass, and at most one receipt of a swap, whatever its status, since
    the first receipt ends the call. [swap_mon_to_usdc] neither asks for an
    allowance nor broadcasts an approval. *)
Theorem crystal_swaps_within_budget
    (self : Crystal.CrystalSwap) (amount : Q) (t : nat) :
  within_crystal_budget (Z.to_nat (ATTEMPTS (SETTINGS (Crystal.config self))))
    (events (Crystal.swap_mon_to_usdc self amount t)) /\
  Forall no_approval (events (Crystal.swap_mon_to_usdc self amount t)) /\
  within_crystal_budget (Z.to_nat (ATTEMPTS (SETTINGS (Crystal.config self))))
    (events (Crystal.swap_usdc_to_mon self amount t)).
Proof.
  split; [| split].
  - change (wp (Crystal.swap_mon_to_usdc self amount) t
              (fun _ e _ =>
                 within_crystal_budget
                   (Z.to_nat (ATTEMPTS (SETTINGS (Crystal.config self)))) e)).
    unfold Crystal.swap_mon_to_usdc. wp_prim. wp_prim.
    destruct (to_wei_ether amount) as [amount_wei|x]; cbv beta match.
    + repeat wp_prim. wp_use (swap_mon_to_usdc_loop_budget self). intros H. exact H.
    + unfold within_crystal_budget. cbn. lia.
  - apply (swap_mon_to_usdc_no_approval self amount t).
  - change (wp (Crystal.swap_usdc_to_mon self amount) t
              (fun _ e _ =>
                 within_crystal_budget
                   (Z.to_nat (ATTEMPTS (SETTINGS (Crystal.config self)))) e)).
    unfold Crystal.swap_usdc_to_mon. repeat wp_prim.
    wp_use (swap_usdc_to_mon_loop_budget self). intros H. exact H.
Qed.

(** ** How much a session may send *)

Lemma randint_at_most (a b bits : Z) : a <= b -> a + bits mod (b - a + 1) <= b.
Proof. intros H. pose proof (Z.mod_pos_bound bits (b - a + 1)). lia. Qed.

Lemma session_budget_more swaps swaps' limit e :
  (swaps <= swaps')%nat ->
  session_within_budget swaps limit e -> session_within_budget swaps' limit e.
Proof. unfold session_within_budget. intros H (Ha & Hs & Hp). repeat split; try lia. nia. Qed.

Ltac session_counts :=
  repeat match goal with
         | H : Forall (fun x => is_balance_query x = true) ?l |- _ =>
             pose proof (count_none is_attempt l ltac:(forall_events));
             pose proof (count_none is_swap_broadcast l ltac:(forall_events));
             pose proof (count_none is_approval_broadcast l ltac:(forall_events));
             clear H
         end;
  unfold session_within_budget, within_budget, within_crystal_budget, attempts, count in *;
  rewrite ?app_nil_r, ?filter_app, ?length_app;
  cbn [filter List.length is_attempt is_swap_broadcast is_approval_broadcast];
  repeat split; try lia; try nia.

Section InstanceSessionBudget.

Import Instance.

Variable self : CrystalSwap.

Lemma execute_pause_quiet (range : Z * Z) (test : bool) t :
  wp (if test
      then pause_time <- random_randint (web3 self) (fst range) (snd range) ;;
           sleep pause_time
      else ret tt) t
     (fun _ e _ => Forall (fun x => is_balance_query x = true) e).
Proof.
  destruct test; [| wp_prim; constructor].
  wp_prim. apply wp_random_randint; intros _; [| constructor].
  wp_prim. repeat constructor.
Qed.

Lemma execute_iteration_budget num_swaps swap_num token_balances t :
  wp (execute_iteration self num_swaps swap_num token_balances) t
     (fun _ e _ => session_within_budget 1 (Z.to_nat (ATTEMPTS (SETTINGS (config self)))) e).
Proof.
  unfold execute_iteration. wp_prim.
  wp_use (update_balances_spec self). intros (He & m & u & -> & _).
  unfold _select_swap_pair. wp_prim. wp_prim. wp_prim.
  rewrite !dict_get_set. cbn [String.eqb Ascii.eqb Bool.eqb]. cbv beta match.
  wp_prim. wp_prim. rewrite ?dict_get_set. cbn [String.eqb Ascii.eqb Bool.eqb].
  cbv beta match.
  destruct (float_lt m (1 # 1000) && float_lt u (1 # 100)).
  { repeat wp_prim. cbn [falsy orb]. repeat wp_prim. session_counts. }
  wp_prim. wp_prim.
  destruct (PERCENT_OF_BALANCE_TO_SWAP (FLOW (config self))) as [min_percent max_percent].
  unfold random_uniform. repeat wp_prim.
  match goal with
  | |- context [if ?c then _ else _] => destruct c
  end.
  - match goal with
    | |- context [float_lt ?a (1 # 1000)] => destruct (float_lt a (1 # 1000))
    end.
    { repeat wp_prim. cbn [falsy orb]. repeat wp_prim. session_counts. }
    repeat wp_prim. cbn [falsy orb String.eqb]. cbv beta match.
    match goal with
    | |- context [float_le ?a (1 # 100)] => destruct (float_le a (1 # 100))
    end.
    { repeat wp_prim. session_counts. }
    wp_prim. wp_use (swap_loop_budget self). intros Hs.
    destruct r; [| session_counts].
    wp_prim. wp_use execute_pause_quiet. intros Hp.
    destruct r; repeat wp_prim; session_counts.
  - match goal with
    | |- context [float_lt ?a (1 # 100)] => destruct (float_lt a (1 # 100))
    end.
    { repeat wp_prim. cbn [falsy orb]. repeat wp_prim. session_counts. }
    repeat wp_prim. cbn [falsy orb String.eqb]. cbv beta match.
    match goal with
    | |- context [float_le ?a (1 # 100)] => destruct (float_le a (1 # 100))
    end.
    { repeat wp_prim. session_counts. }
    wp_prim. wp_use (swap_loop_budget self). intros Hs.
    destruct r; [| session_counts].
    wp_prim. wp_use execute_pause_quiet. intros Hp.
    destruct r; repeat wp_prim; session_counts.
Qed.

Lemma execute_loop_budget left : forall num_swaps swap_num token_balances t,
  wp (execute_loop self left num_swaps swap_num token_balances) t
     (fun _ e _ => session_within_budget left (Z.to_nat (ATTEMPTS (SETTINGS (config self)))) e).
Proof.
  induction left as [|left IH]; intros num_swaps swap_num token_balances t;
    cbn [execute_loop].
  - wp_prim. session_counts.
  - wp_prim. wp_use execute_iteration_budget. intros He.
    destruct r; [| session_counts].
    wp_use IH. intros He'. session_counts.
Qed.

Lemma execute_budget t :
  wp (execute self) t
     (fun _ e _ =>
        session_within_budget
          (Z.to_nat (snd (NUMBER_OF_SWAPS (FLOW (config self)))))
          (Z.to_nat (ATTEMPTS (SETTINGS (config self)))) e).
Proof.
  unfold execute. destruct (CRYSTAL_SWAP (config self)) as [section|];
    [| wp_prim; session_counts].
  destruct (negb (ENABLED section)); [wp_prim; session_counts|].
  wp_prim. wp_use (update_balances_spec self). intros (He & m & u & -> & _).
  destruct (NUMBER_OF_SWAPS (FLOW (config self))) as [min_swaps max_swaps].
  cbn [snd].
  wp_prim. apply wp_random_randint; intros Hrange; [| session_counts].
  pose proof (randint_at_most min_swaps max_swaps (random_bits (web3 self) t1) Hrange).
  wp_use execute_loop_budget. intros He'.
  apply (session_budget_more _ (Z.to_nat max_swaps)) in He'; [| lia].
  session_counts.
Qed.

End InstanceSessionBudget.

Section CrystalSessionBudget.

Import Crystal.

Variable self : CrystalSwap.

Lemma swap_mon_to_usdc_budget amount t :
  wp (swap_mon_to_usdc self amount) t (fun _ e _ => within_crystal_budget (Z.to_nat (ATTEMPTS (SETTINGS (config self)))) e).
Proof.
  unfold swap_mon_to_usdc. wp_prim. wp_prim.
  destruct (to_wei_ether amount) as [amount_wei|x]; cbv beta match.
  - repeat wp_prim. wp_use (swap_mon_to_usdc_loop_budget self). intros H. exact H.
  - unfold within_crystal_budget. cbn. lia.
Qed.

Lemma swap_usdc_to_mon_budget amount t :
  wp (swap_usdc_to_mon self amount) t (fun _ e _ => within_crystal_budget (Z.to_nat (ATTEMPTS (SETTINGS (config self)))) e).
Proof.
  unfold swap_usdc_to_mon. repeat wp_prim.
  wp_use (swap_usdc_to_mon_loop_budget self). intros H. exact H.
Qed.

Lemma crystal_pause_quiet (range : Z * Z) (test : bool) t :
  wp (if test
      then pause <- random_randint (web3 self) (fst range) (snd range) ;;
           sleep pause
      else ret tt) t
     (fun _ e _ => Forall (fun x => is_balance_query x = true) e).
Proof.
  destruct test; [| wp_prim; constructor].
  wp_prim. apply wp_random_randint; intros _; [| constructor].
  wp_prim. repeat constructor.
Qed.

Lemma crystal_execute_loop_budget left : forall num_swaps swap_num t,
  wp (execute_loop self left num_swaps swap_num) t
     (fun _ e _ => session_within_budget left (Z.to_nat (ATTEMPTS (SETTINGS (config self)))) e).
Proof.
  induction left as [|left IH]; intros num_swaps swap_num t; cbn [execute_loop].
  - wp_prim. session_counts.
  - wp_prim. wp_use (crystal_get_token_balance_spec self). intros [[m ->] Hm].
    wp_prim. wp_use (crystal_get_token_balance_spec self). intros [[u ->] Hu].
    destruct (float_lt m (1 # 1000) && float_lt u (1 # 100)).
    { wp_prim. session_counts. }
    unfold choose_swap. repeat wp_prim.
    destruct (PERCENT_OF_BALANCE_TO_SWAP (FLOW (config self))) as [min_percent max_percent].
    unfold random_uniform. repeat wp_prim.
    match goal with
    | |- context [if ?c then _ else _] => destruct c
    end.
    + match goal with
      | |- context [float_lt ?a (1 # 1000)] => destruct (float_lt a (1 # 1000))
      end.
      { repeat wp_prim. wp_use IH. intros Hrest. session_counts. }
      repeat wp_prim. wp_use swap_mon_to_usdc_budget. intros Hs.
      destruct r; [| session_counts].
      wp_prim. wp_use crystal_pause_quiet. intros Hp.
      destruct r; [| session_counts]. wp_use IH. intros Hrest. session_counts.
    + match goal with
      | |- context [float_lt ?a (1 # 100)] => destruct (float_lt a (1 # 100))
      end.
      { repeat wp_prim. wp_use IH. intros Hrest. session_counts. }
      repeat wp_prim. wp_use swap_usdc_to_mon_budget. intros Hs.
      destruct r; [| session_counts].
      wp_prim. wp_use crystal_pause_quiet. intros Hp.
      destruct r; [| session_counts]. wp_use IH. intros Hrest. session_counts.
Qed.

Lemma crystal_execute_budget t :
  wp (execute self) t
     (fun _ e _ =>
        session_within_budget
          (Z.to_nat (snd (NUMBER_OF_SWAPS (FLOW (config self)))))
          (Z.to_nat (ATTEMPTS (SETTINGS (config self)))) e).
Proof.
  unfold execute. destruct (CRYSTAL_SWAP (config self)) as [section|];
    [| wp_prim; session_counts].
  destruct (negb (ENABLED section)); [wp_prim; session_counts|].
  destruct (NUMBER_OF_SWAPS (FLOW (config self))) as [min_swaps max_swaps].
  cbn [snd].
  wp_prim. apply wp_random_randint; intros Hrange; [| session_counts].
  pose proof (randint_at_most min_swaps max_swaps (random_bits (web3 self) t) Hrange).
  wp_use crystal_execute_loop_budget. intros He'.
  apply (session_budget_more _ (Z.to_nat max_swaps)) in He'; [| lia].
  session_counts.
Qed.

End CrystalSessionBudget.

(** X20. What a session may send. With [max_swaps] the upper end of the
    range for the number of swaps, [execute], of [instance.py] as of
    [crystal_swap.py], makes at most [max_swaps * ATTEMPTS] passes through
    the retry loops of its swaps, and broadcasts no more swaps and no more
    approvals than it makes passes. *)
Theorem sessions_within_budget
    (si : Instance.CrystalSwap) (sc : Crystal.CrystalSwap) (t : nat) :
  session_within_budget
    (Z.to_nat (snd (NUMBER_OF_SWAPS (FLOW (Instance.config si)))))
    (Z.to_nat (ATTEMPTS (SETTINGS (Instance.config si))))
    (events (Instance.execute si t)) /\
  session_within_budget
    (Z.to_nat (snd (NUMBER_OF_SWAPS (FLOW (Crystal.config sc)))))
    (Z.to_nat (ATTEMPTS (SETTINGS (Crystal.config sc))))
    (events (Crystal.execute sc t)).
Proof.
  split.
  - apply (execute_budget si t).
  - apply (crystal_execute_budget sc t).
Qed.

(** ** The shape of a Swap Intent *)

Lemma float_le_true x y : float_le x y = true -> (x <= y)%Q.
Proof. unfold float_le, Qle. intros H. apply Z.leb_le in H. exact H. Qed.

Ltac shape_leaf :=
  repeat match goal with
         | H : (_ && _) = true |- _ => apply andb_prop in H; destruct H
         | H : float_le _ _ = true |- _ => apply float_le_true in H
         | H : float_lt _ _ = false |- _ => apply float_lt_false in H
         end;
  first
    [ left; reflexivity
    | right; left; eexists; split; [ reflexivity | split; assumption ]
    | right; right; eexists; split; [ reflexivity | assumption ]
    | exact I
    | split; assumption
    | assumption ].

Lemma select_swap_pair_shape self token_balances mon_balance usdc_balance t :
  dict_get token_balances "MON" = Ok mon_balance ->
  dict_get token_balances "USDC" = Ok usdc_balance ->
  wp (Instance._select_swap_pair self token_balances) t
     (fun r e _ =>
        e = [] /\
        exists intent, r = Ok intent /\ intent_shape mon_balance usdc_balance intent).
Proof.
  intros Hm Hu. unfold Instance._select_swap_pair, intent_shape. wp_run.
  all: split; [reflexivity|].
  all: eexists; split; [reflexivity|].
  all: shape_leaf.
Qed.

Lemma choose_swap_shape self mon_balance usdc_balance t :
  wp (Crystal.choose_swap self mon_balance usdc_balance) t
     (fun r e _ =>
        e = [] /\
        exists choice, r = Ok choice /\ choice_shape mon_balance usdc_balance choice).
Proof.
  unfold Crystal.choose_swap, choice_shape. wp_run.
  all: split; [reflexivity|].
  all: eexists; split; [reflexivity|].
  all: shape_leaf.
Qed.

(** X22. The selection of a swap never reaches the node and never raises
    on a dictionary that holds both balances. [_select_swap_pair] returns
    no intent, or MON for USDC with an amount of at least 0.001 and only
    with a MON balance of at least 0.001, or USDC for MON with an amount of
    at least 0.01; the choice in [execute] of [crystal_swap.py] obeys the
    same thresholds. *)
Theorem swap_selection_shape
    (si : Instance.CrystalSwap) (sc : Crystal.CrystalSwap)
    (token_balances : list (string * Q)) (mon_balance usdc_balance : Q) (t : nat) :
  dict_get token_balances "MON" = Ok mon_balance ->
  dict_get token_balances "USDC" = Ok usdc_balance ->
  (events (Instance._select_swap_pair si token_balances t) = [] /\
   exists intent,
     result (Instance._select_swap_pair si token_balances t) = Ok intent /\
     intent_shape mon_balance usdc_balance intent) /\
  (events (Crystal.choose_swap sc mon_balance usdc_balance t) = [] /\
   exists choice,
     result (Crystal.choose_swap sc mon_balance usdc_balance t) = Ok choice /\
     choice_shape mon_balance usdc_balance choice).
Proof.
  intros Hm Hu. split.
  - apply (select_swap_pair_shape si token_balances mon_balance usdc_balance t Hm Hu).
  - apply (choose_swap_shape sc mon_balance usdc_balance t).
Qed.

Lemma swap_selection_shape_witness :
  exists intent,
    result (Instance._select_swap_pair (Scenario.instance 2 2 Scenario.rich_node)
              [("MON", (1 # 2000)%Q); ("USDC", 50%Q)] 0%nat) = Ok intent /\
    intent_shape (1 # 2000) 50 intent.
Proof.
  apply (swap_selection_shape (Scenario.instance 2 2 Scenario.rich_node)
           (Scenario.crystal 2 2 Scenario.rich_node)
           [("MON", (1 # 2000)%Q); ("USDC", 50%Q)] (1 # 2000) 50 0%nat);
    reflexivity.
Defined.
